(** * Phonebook: verification ledger, identity resolution and contact graph

    A shallow embedding of the Go backend (the handlers of [main.go] and the
    verification and database files) over a model of the ArangoDB store.

    - Collections are finite maps from document keys to documents.
    - Every store round trip can fail: the world carries a schedule of
      faults, one entry consumed per call, so the error paths of the handlers
      are reachable.  An empty schedule is a reliable store.
    - Time is a number of nanoseconds; a handler receives the instant at
      which its [time.Now()] calls are evaluated.
    - The phone number and JWT libraries are interfaces (type classes). *)

From stdpp Require Import gmap strings list fin_maps.

Local Open Scope string_scope.
Local Open Scope Z_scope.

(** ** Data model *)

Module User.
Record t := mk { Number : string }.
End User.

Module Contact.
Record t := mk { CountryCode : string; Number : string; Name : string }.
End Contact.

Module AddContactsRequest.
Record t := mk { Contacts : list Contact.t }.
End AddContactsRequest.

Module ContactEdge.
Record t := mk { From : string; To : string; Name : string }.
End ContactEdge.

Module GetContactsRequest.
Record t := mk { UserKey : string }.
End GetContactsRequest.

Module GetContactsResult.
Record t := mk { Name : string; UserKey : string }.
End GetContactsResult.

Module VerificationAttempt.
(** [Key] carries the tag [json:"-"]: it is not part of the stored document
    and is filled in by the handler after a read. *)
Record t := mk { Key : string; Number : string; Code : string; CreatedAt : Z }.
End VerificationAttempt.

Module RequestVerificationRequest.
Record t := mk { Number : string }.
End RequestVerificationRequest.

Module VerifyRequest.
Record t := mk { AttemptKey : string; Code : string }.
End VerifyRequest.

Module CancelVerificationRequest.
Record t := mk { AttemptKey : string }.
End CancelVerificationRequest.

#[global] Instance User_eq_dec : EqDecision User.t.
Proof. solve_decision. Defined.
#[global] Instance ContactEdge_eq_dec : EqDecision ContactEdge.t.
Proof. solve_decision. Defined.
#[global] Instance VerificationAttempt_eq_dec : EqDecision VerificationAttempt.t.
Proof. solve_decision. Defined.

(** The three collections of the [Database] struct.  The [phonebook] handle
    is the database the AQL queries run against, that is these collections. *)
Record Database := mkDatabase {
  users : gmap string User.t;
  contacts : gmap string ContactEdge.t;
  verification_attempts : gmap string VerificationAttempt.t
}.

Definition set_users (f : gmap string User.t → gmap string User.t) (d : Database) : Database :=
  mkDatabase (f (users d)) (contacts d) (verification_attempts d).
Definition set_contacts (f : gmap string ContactEdge.t → gmap string ContactEdge.t) (d : Database) : Database :=
  mkDatabase (users d) (f (contacts d)) (verification_attempts d).
Definition set_verification_attempts
    (f : gmap string VerificationAttempt.t → gmap string VerificationAttempt.t) (d : Database) : Database :=
  mkDatabase (users d) (contacts d) (f (verification_attempts d)).

(** ** The store *)

(** What the driver reports: [shared.IsNotFound(err)] or any other failure. *)
Inductive StoreError := NotFound | Failure.

Inductive Result (A : Type) :=
| Ok (a : A)
| Err (e : StoreError).
Arguments Ok {A} a.
Arguments Err {A} e.

Record World := mkWorld {
  db : Database;
  faults : list bool
}.

(** One round trip to the store.  A scheduled fault makes the call fail
    without touching the data. *)
Definition call {A} (op : Database → Result A * Database) (w : World) : Result A * World :=
  match faults w with
  | true :: fs => (Err Failure, mkWorld (db w) fs)
  | false :: fs => let '(r, d) := op (db w) in (r, mkWorld d fs)
  | [] => let '(r, d) := op (db w) in (r, mkWorld d [])
  end.

(** Collection operations of the driver, on one collection. *)
Definition col_read {V} (key : string) (c : gmap string V) : Result V :=
  match c !! key with
  | Some v => Ok v
  | None => Err NotFound
  end.

Definition col_delete {V} (key : string) (c : gmap string V) : Result unit * gmap string V :=
  match c !! key with
  | Some _ => (Ok (), delete key c)
  | None => (Err NotFound, c)
  end.

(** The store picks the key of a new document; it is not a key in use. *)
Definition col_create {V} (doc : V) (c : gmap string V) : Result string * gmap string V :=
  let key := fresh (dom c) in (Ok key, <[key := doc]> c).

(** [UpdateDocument] patches the stored document with the fields given; the
    documents here carry all their fields, so the patch replaces them. *)
Definition col_update {V} (key : string) (doc : V) (c : gmap string V) : Result unit * gmap string V :=
  match c !! key with
  | Some _ => (Ok (), <[key := doc]> c)
  | None => (Err NotFound, c)
  end.

(** [FOR x IN c FILTER p x RETURN x], in the order the store enumerates. *)
Definition col_filter {V} (p : V → bool) (c : gmap string V) : list (string * V) :=
  filter (λ kv, p kv.2 = true) (map_to_list c).

(** A decoded attempt: the [Key] field is skipped by the decoder. *)
Definition decode_attempt (a : VerificationAttempt.t) : VerificationAttempt.t :=
  VerificationAttempt.mk "" (VerificationAttempt.Number a) (VerificationAttempt.Code a)
    (VerificationAttempt.CreatedAt a).

Definition with_Key (key : string) (a : VerificationAttempt.t) : VerificationAttempt.t :=
  VerificationAttempt.mk key (VerificationAttempt.Number a) (VerificationAttempt.Code a)
    (VerificationAttempt.CreatedAt a).

Definition verification_attempts_ReadDocument (key : string) : World → Result VerificationAttempt.t * World :=
  call (λ d, (match col_read key (verification_attempts d) with
              | Ok a => Ok (decode_attempt a)
              | Err e => Err e
              end, d)).

Definition verification_attempts_DeleteDocument (key : string) : World → Result unit * World :=
  call (λ d, let '(r, c) := col_delete key (verification_attempts d) in
             (r, set_verification_attempts (λ _, c) d)).

Definition verification_attempts_CreateDocument (a : VerificationAttempt.t) : World → Result string * World :=
  call (λ d, let '(r, c) := col_create a (verification_attempts d) in
             (r, set_verification_attempts (λ _, c) d)).

Definition users_ReadDocument (key : string) : World → Result User.t * World :=
  call (λ d, (col_read key (users d), d)).

Definition users_CreateDocument (u : User.t) : World → Result string * World :=
  call (λ d, let '(r, c) := col_create u (users d) in (r, set_users (λ _, c) d)).

Definition contacts_CreateDocument (e : ContactEdge.t) : World → Result string * World :=
  call (λ d, let '(r, c) := col_create e (contacts d) in (r, set_contacts (λ _, c) d)).

Definition contacts_UpdateDocument (key : string) (e : ContactEdge.t) : World → Result unit * World :=
  call (λ d, let '(r, c) := col_update key e (contacts d) in (r, set_contacts (λ _, c) d)).

(** A cursor holds the rows the query produced; reading the next one is a
    fallible step of its own. *)
Definition cursor_ReadDocument {D} (doc : D) : World → Result D * World :=
  call (λ d, (Ok doc, d)).

(** The read past the last row, which reports that there are no more
    documents unless it fails. *)
Definition cursor_NoMoreDocuments : World → Result unit * World :=
  call (λ d, (Ok (), d)).

(** [FOR u IN users FILTER u.number == @number LIMIT 1 RETURN u] *)
Definition users_by_number (number : string) (d : Database) : option (string * User.t) :=
  head (col_filter (λ u, String.eqb (User.Number u) number) (users d)).

Definition query_users_by_number (number : string) : World → Result (option (string * User.t)) * World :=
  call (λ d, (Ok (users_by_number number d), d)).

(** [FOR c IN contacts FILTER c._from == @from AND c._to == @to LIMIT 1 RETURN c] *)
Definition edges_between (from to : string) (d : Database) : list (string * ContactEdge.t) :=
  col_filter (λ c, String.eqb (ContactEdge.From c) from && String.eqb (ContactEdge.To c) to) (contacts d).

Definition query_edge (from to : string) : World → Result (option (string * ContactEdge.t)) * World :=
  call (λ d, (Ok (head (edges_between from to d)), d)).

(** [FOR v, e IN 1..1 OUTBOUND @user contacts
     RETURN { name: e.name, user_key: v._key }]:
    one row per edge leaving [@user]; [v] is the document the edge points to,
    and a missing vertex is [null], which decodes to the empty string. *)
Fixpoint strip_prefix (p s : string) : option string :=
  match p, s with
  | EmptyString, _ => Some s
  | String a p', String b s' => if Ascii.eqb a b then strip_prefix p' s' else None
  | String _ _, EmptyString => None
  end.

Definition vertex_key (id : string) (d : Database) : string :=
  match strip_prefix "users/" id with
  | Some key => match users d !! key with Some _ => key | None => "" end
  | None => ""
  end.

Definition outbound (user : string) (d : Database) : list GetContactsResult.t :=
  (λ kv, GetContactsResult.mk (ContactEdge.Name kv.2) (vertex_key (ContactEdge.To kv.2) d))
    <$> col_filter (λ e, String.eqb (ContactEdge.From e) user) (contacts d).

Definition query_outbound (user : string) : World → Result (list GetContactsResult.t) * World :=
  call (λ d, (Ok (outbound user d), d)).

(** ** External libraries *)

(** [github.com/nyaruka/phonenumbers]: [Parse] fails on text that is not a
    phone number ([None]); [Format] is used with [E164] only. *)
Class PhoneNumbers := {
  PhoneNumber : Type;
  Parse : string → string → option PhoneNumber;
  IsValidNumberForRegion : PhoneNumber → string → bool;
  FormatE164 : PhoneNumber → string
}.

(** [jwt.MapClaims] *)
Inductive ClaimValue :=
| ClaimNumber (n : Z)
| ClaimString (s : string).

(** [github.com/golang-jwt/jwt/v5] with HS256.  [jwt_Parse secret now token]
    is [Some claims] exactly when parsing returns no error and the token is
    valid (signature made with [secret], not expired at [now]). *)
Class JWT := {
  SignedString : string → gmap string ClaimValue → option string;
  jwt_Parse : string → Z → string → option (gmap string ClaimValue)
}.

(** ** HTTP side *)

Inductive Body :=
| JsonError (error : string)
| JsonMessage (message : string)
| JsonToken (message token : string)
| JsonAttempt (message id : string)
| JsonMe (user_key number : string)
| JsonContacts (result : list GetContactsResult.t).

Record Response := mkResponse { Status : Z; Json : Body }.

Definition StatusOK : Z := 200.
Definition StatusBadRequest : Z := 400.
Definition StatusUnauthorized : Z := 401.
Definition StatusNotFound : Z := 404.
Definition StatusInternalServerError : Z := 500.

(** What a handler does with a request: it answers, or the goroutine panics. *)
Inductive Outcome :=
| Respond (r : Response)
| Panicked.

(** The parts of [fiber.Ctx] the handlers read: the [Authorization] header,
    the local [userKey] and the body as [BodyParser] decodes it ([None] when
    it returns an error). *)
Record Ctx (B : Type) := mkCtx {
  Authorization : string;
  Locals_userKey : option ClaimValue;
  BodyParser : option B
}.
Arguments mkCtx {B} _ _ _.
Arguments Authorization {B} _.
Arguments Locals_userKey {B} _.
Arguments BodyParser {B} _.

(** The type assertion [c.Locals("userKey").(string)]; [None] is the panic. *)
Definition assert_string (v : option ClaimValue) : option string :=
  match v with
  | Some (ClaimString s) => Some s
  | _ => None
  end.

(** The slice expression [s[n:]]; [None] is the panic when [n > len(s)]. *)
Fixpoint slice_from (n : nat) (s : string) : option string :=
  match n with
  | O => Some s
  | S n' => match s with
            | EmptyString => None
            | String _ s' => slice_from n' s'
            end
  end.

Definition second : Z := 1000000000.
Definition minute : Z := 60 * second.
Definition hour : Z := 60 * minute.
Definition Unix (t : Z) : Z := t `div` second.

Definition VerificationExpiryTime : Z := minute * 5.
Definition JWTSecret : string := "MyAwesomeSecretForJWT".

(** [fmt.Sprintf("%06d", n)] for a draw [0 ≤ n < 1000000]: six decimal
    digits, leading zeros kept. *)
Definition digit (n : Z) : Ascii.ascii := Ascii.ascii_of_nat (48 + Z.to_nat (n `mod` 10)).

Definition Sprintf_06d (n : Z) : string :=
  String (digit (n `div` 100000))
    (String (digit (n `div` 10000))
       (String (digit (n `div` 1000))
          (String (digit (n `div` 100))
             (String (digit (n `div` 10))
                (String (digit n) EmptyString))))).

Section Handlers.
Context {phonenumbers : PhoneNumbers} {jwt : JWT}.
(** [strings.ToUpper] *)
Variable ToUpper : string → string.

(** *** Verification *)

(** [draw] is what [rand.Int(rand.Reader, 1000000)] returns, [None] when it
    returns an error. *)
Definition CreateVerificationAttempt (now : Z) (draw : option Z) (number : string) (w : World)
    : Result string * World :=
  match draw with
  | None => (Err Failure, w)
  | Some n =>
      let code := Sprintf_06d n in
      let attempt := VerificationAttempt.mk "" number code now in
      match verification_attempts_CreateDocument attempt w with
      | (Err e, w1) => (Err e, w1)
      | (Ok key, w1) => (Ok key, w1)
      end
  end.

Definition VerifyCode (now : Z) (attempt : VerificationAttempt.t) (code : string) (w : World)
    : (bool * option StoreError) * World :=
  if Z.ltb (VerificationAttempt.CreatedAt attempt + VerificationExpiryTime) now then
    let '(_, w1) := verification_attempts_DeleteDocument (VerificationAttempt.Key attempt) w in
    ((false, None), w1)
  else if String.eqb (VerificationAttempt.Code attempt) code then
    let '(_, w1) := verification_attempts_DeleteDocument (VerificationAttempt.Key attempt) w in
    ((true, None), w1)
  else ((false, None), w).

Definition CreateUser (number : string) (w : World) : Result string * World :=
  match users_CreateDocument (User.mk number) w with
  | (Err e, w1) => (Err e, w1)
  | (Ok key, w1) => (Ok key, w1)
  end.

Definition GetOrCreateUser (number : string) (w : World) : Result string * World :=
  match query_users_by_number number w with
  | (Err e, w1) => (Err e, w1)
  | (Ok cursor, w1) =>
      match cursor with
      | Some doc =>
          match cursor_ReadDocument doc w1 with
          | (Err e, w2) => (Err e, w2)
          | (Ok (key, _), w2) => (Ok key, w2)
          end
      | None =>
          match CreateUser number w1 with
          | (Err e, w2) => (Err e, w2)
          | (Ok newContactUserKey, w2) => (Ok newContactUserKey, w2)
          end
      end
  end.

Definition RequestVerificationHandler (now : Z) (draw : option Z)
    (c : Ctx RequestVerificationRequest.t) (w : World) : Outcome * World :=
  match BodyParser c with
  | None => (Respond (mkResponse StatusBadRequest (JsonError "Invalid request")), w)
  | Some req =>
      match Parse (RequestVerificationRequest.Number req) "SE" with
      | None => (Respond (mkResponse StatusBadRequest (JsonError "Invalid phone number")), w)
      | Some number =>
          if negb (IsValidNumberForRegion number "SE") then
            (Respond (mkResponse StatusBadRequest (JsonError "Invalid phone number for region.")), w)
          else
            let formattedNumber := FormatE164 number in
            match CreateVerificationAttempt now draw formattedNumber w with
            | (Err _, w1) =>
                (Respond (mkResponse StatusInternalServerError
                            (JsonError "Failed to create verification attempt")), w1)
            | (Ok attemptKey, w1) =>
                (Respond (mkResponse StatusOK (JsonAttempt "Verifcation code sent" attemptKey)), w1)
            end
      end
  end.

Definition CancelVerificationHandler (c : Ctx CancelVerificationRequest.t) (w : World) : Outcome * World :=
  match BodyParser c with
  | None => (Respond (mkResponse StatusBadRequest (JsonError "Invalid request")), w)
  | Some req =>
      match verification_attempts_DeleteDocument (CancelVerificationRequest.AttemptKey req) w with
      | (Err NotFound, w1) =>
          (Respond (mkResponse StatusNotFound (JsonError "Attempt not found")), w1)
      | (Err Failure, w1) =>
          (Respond (mkResponse StatusInternalServerError
                      (JsonError "Failed to cancel verification attempt")), w1)
      | (Ok _, w1) => (Respond (mkResponse StatusOK (JsonMessage "Verification canceled")), w1)
      end
  end.

Definition GenerateJWT (now : Z) (userKey : string) : option string :=
  let expirationTime := Unix (now + hour * 24 * 30) in
  SignedString JWTSecret
    (<["exp" := ClaimNumber expirationTime]>
      (<["iat" := ClaimNumber (Unix now)]>
        (<["nbf" := ClaimNumber (Unix now)]>
          (<["user_key" := ClaimString userKey]> ∅)))).

Definition VerifyRequestHandler (now : Z) (c : Ctx VerifyRequest.t) (w : World) : Outcome * World :=
  match BodyParser c with
  | None => (Respond (mkResponse StatusBadRequest (JsonError "Invalid request")), w)
  | Some req =>
      match verification_attempts_ReadDocument (VerifyRequest.AttemptKey req) w with
      | (Err _, w1) =>
          (Respond (mkResponse StatusInternalServerError (JsonError "Failed to verify code")), w1)
      | (Ok read, w1) =>
          let attempt := with_Key (VerifyRequest.AttemptKey req) read in
          match VerifyCode now attempt (VerifyRequest.Code req) w1 with
          | ((_, Some _), w2) =>
              (Respond (mkResponse StatusInternalServerError (JsonError "Failed to verify code")), w2)
          | ((false, None), w2) =>
              (Respond (mkResponse StatusBadRequest
                          (JsonError "Invalid or expired verification code")), w2)
          | ((true, None), w2) =>
              match GetOrCreateUser (VerificationAttempt.Number attempt) w2 with
              | (Err _, w3) =>
                  (Respond (mkResponse StatusInternalServerError
                              (JsonError "Failed to log in to user account")), w3)
              | (Ok userKey, w3) =>
                  match GenerateJWT now userKey with
                  | None =>
                      (Respond (mkResponse StatusInternalServerError
                                  (JsonError "Failed to log in to user account")), w3)
                  | Some token =>
                      (Respond (mkResponse StatusOK
                                  (JsonToken "User verified and created successfully" token)), w3)
                  end
              end
          end
      end
  end.

(** *** Authentication *)

Inductive Admission (B : Type) :=
| Reject (r : Response)
| Crash
| Next (c : Ctx B).
Arguments Reject {B} r.
Arguments Crash {B}.
Arguments Next {B} c.

Definition AuthMiddleware {B} (now : Z) (c : Ctx B) : Admission B :=
  let authHeader := Authorization c in
  if String.eqb authHeader "" then
    Reject (mkResponse StatusUnauthorized (JsonError "Missing authorization header"))
  else
    match slice_from 7 authHeader with
    | None => Crash
    | Some tokenString =>
        match jwt_Parse JWTSecret now tokenString with
        | None => Reject (mkResponse StatusUnauthorized (JsonError "Invalid or expired token"))
        | Some claims => Next (mkCtx authHeader (claims !! "user_key") (BodyParser c))
        end
    end.

(** A route of the [/api] group: the middleware, then the handler. *)
Definition api {B} (handler : Ctx B → World → Outcome * World) (now : Z) (c : Ctx B) (w : World)
    : Outcome * World :=
  match AuthMiddleware now c with
  | Reject r => (Respond r, w)
  | Crash => (Panicked, w)
  | Next c' => handler c' w
  end.

(** *** Contacts *)

Fixpoint add_contacts (userKey : string) (cs : list Contact.t) (w : World) : Response * World :=
  match cs with
  | [] => (mkResponse StatusOK (JsonMessage "Contacts added"), w)
  | contact :: rest =>
      let countryCode := ToUpper (Contact.CountryCode contact) in
      match Parse (Contact.Number contact) countryCode with
      | None => (mkResponse StatusBadRequest (JsonError "Invalid phone number"), w)
      | Some number =>
          if negb (IsValidNumberForRegion number countryCode) then add_contacts userKey rest w
          else
            let formattedNumber := FormatE164 number in
            match GetOrCreateUser formattedNumber w with
            | (Err _, w1) =>
                (mkResponse StatusInternalServerError
                   (JsonError "Failed to create contact relationship"), w1)
            | (Ok contactUserKey, w1) =>
                match query_edge ("users/" +:+ userKey) ("users/" +:+ contactUserKey) w1 with
                | (Err _, w2) =>
                    (mkResponse StatusInternalServerError
                       (JsonError "Failed to check existing contacts"), w2)
                | (Ok (Some doc), w2) =>
                    match cursor_ReadDocument doc w2 with
                    | (Err _, w3) =>
                        (mkResponse StatusInternalServerError
                           (JsonError "Failed to read existing contact"), w3)
                    | (Ok (key, existingEdge), w3) =>
                        if negb (String.eqb (ContactEdge.Name existingEdge) (Contact.Name contact)) then
                          let existingEdge' :=
                            ContactEdge.mk (ContactEdge.From existingEdge) (ContactEdge.To existingEdge)
                              (Contact.Name contact) in
                          match contacts_UpdateDocument key existingEdge' w3 with
                          | (Err _, w4) =>
                              (mkResponse StatusInternalServerError
                                 (JsonError "Failed to update contact name"), w4)
                          | (Ok _, w4) => add_contacts userKey rest w4
                          end
                        else add_contacts userKey rest w3
                    end
                | (Ok None, w2) =>
                    let edge :=
                      ContactEdge.mk ("users/" +:+ userKey) ("users/" +:+ contactUserKey)
                        (Contact.Name contact) in
                    match contacts_CreateDocument edge w2 with
                    | (Err _, w3) =>
                        (mkResponse StatusInternalServerError
                           (JsonError "Failed to create contact relationship"), w3)
                    | (Ok _, w3) => add_contacts userKey rest w3
                    end
                end
            end
      end
  end.

Definition AddContactsHandler (c : Ctx AddContactsRequest.t) (w : World) : Outcome * World :=
  match BodyParser c with
  | None => (Respond (mkResponse StatusBadRequest (JsonError "Invalid request body")), w)
  | Some request =>
      match assert_string (Locals_userKey c) with
      | None => (Panicked, w)
      | Some userKey =>
          let '(r, w1) := add_contacts userKey (AddContactsRequest.Contacts request) w in
          (Respond r, w1)
      end
  end.

(** The loop that drains the cursor into [result]. *)
Fixpoint read_contacts (cursor result : list GetContactsResult.t) (w : World)
    : Result (list GetContactsResult.t) * World :=
  match cursor with
  | [] =>
      match cursor_NoMoreDocuments w with
      | (Err e, w1) => (Err e, w1)
      | (Ok _, w1) => (Ok result, w1)
      end
  | row :: rest =>
      match cursor_ReadDocument row w with
      | (Err e, w1) => (Err e, w1)
      | (Ok contact, w1) => read_contacts rest (result ++ [contact]) w1
      end
  end.

Definition GetContactsHandler (c : Ctx GetContactsRequest.t) (w : World) : Outcome * World :=
  match BodyParser c with
  | None => (Respond (mkResponse StatusBadRequest (JsonError "Invalid request body")), w)
  | Some request =>
      match query_outbound ("users/" +:+ GetContactsRequest.UserKey request) w with
      | (Err _, w1) =>
          (Respond (mkResponse StatusInternalServerError (JsonError "Failed to get contacts")), w1)
      | (Ok cursor, w1) =>
          match read_contacts cursor [] w1 with
          | (Err _, w2) =>
              (Respond (mkResponse StatusInternalServerError (JsonError "Failed to read contact")), w2)
          | (Ok result, w2) => (Respond (mkResponse StatusOK (JsonContacts result)), w2)
          end
      end
  end.

(** The handler of [GET /api/me], a closure in [RunWebServer]. *)
Definition MeHandler {B} (c : Ctx B) (w : World) : Outcome * World :=
  match assert_string (Locals_userKey c) with
  | None => (Panicked, w)
  | Some userKey =>
      match users_ReadDocument userKey w with
      | (Err _, w1) => (Respond (mkResponse StatusNotFound (JsonError "User not found")), w1)
      | (Ok user, w1) => (Respond (mkResponse StatusOK (JsonMe userKey (User.Number user))), w1)
      end
  end.

End Handlers.

Arguments Reject {B} r.
Arguments Crash {B}.
Arguments Next {B} c.

(** ** Database setup *)

Module Setup.

Inductive CollectionType := CollectionTypeDocument | CollectionTypeEdge.

(** What a failed driver call reports: [shared.IsConflict(err)] or not. *)
Inductive DriverError := Conflict | OtherError.

Inductive Reply (A : Type) :=
| Done (a : A)
| Failed (e : DriverError).
Arguments Done {A} a.
Arguments Failed {A} e.

(** The server holds databases by name, each a catalogue of collections by
    name.  The incidents say which of the coming calls fail, and how; a call
    that fails changes nothing. *)
Record Server := mkServer {
  databases : gmap string (gmap string CollectionType);
  incidents : list (option DriverError)
}.

Definition driver {A} (op : gmap string (gmap string CollectionType)
                            → Reply A * gmap string (gmap string CollectionType))
    (s : Server) : Reply A * Server :=
  match incidents s with
  | Some e :: rest => (Failed e, mkServer (databases s) rest)
  | None :: rest => let '(r, dbs) := op (databases s) in (r, mkServer dbs rest)
  | [] => let '(r, dbs) := op (databases s) in (r, mkServer dbs [])
  end.

(** [conn.SetAuthentication] *)
Definition SetAuthentication : Server → Reply unit * Server :=
  driver (λ dbs, (Done (), dbs)).

(** [client.DatabaseExists] *)
Definition DatabaseExists (name : string) : Server → Reply bool * Server :=
  driver (λ dbs, (Done (bool_decide (is_Some (dbs !! name))), dbs)).

(** [client.GetDatabase]; a handle is the name of the database. *)
Definition GetDatabase (name : string) : Server → Reply string * Server :=
  driver (λ dbs, (match dbs !! name with
                  | Some _ => Done name
                  | None => Failed OtherError
                  end, dbs)).

(** [client.CreateDatabase]; a name in use is a conflict. *)
Definition CreateDatabase (name : string) : Server → Reply string * Server :=
  driver (λ dbs, match dbs !! name with
                 | Some _ => (Failed Conflict, dbs)
                 | None => (Done name, <[name := ∅]> dbs)
                 end).

(** [db.CollectionExists] *)
Definition CollectionExists (db name : string) : Server → Reply bool * Server :=
  driver (λ dbs, (match dbs !! db with
                  | Some cat => Done (bool_decide (is_Some (cat !! name)))
                  | None => Failed OtherError
                  end, dbs)).

(** [db.GetCollection]; a handle is the name of the collection. *)
Definition GetCollection (db name : string) : Server → Reply string * Server :=
  driver (λ dbs, (match dbs !! db with
                  | Some cat => match cat !! name with
                                | Some _ => Done name
                                | None => Failed OtherError
                                end
                  | None => Failed OtherError
                  end, dbs)).

(** [db.CreateCollection] with [props.Type = colType]; a name in use is a
    conflict. *)
Definition CreateCollection (db name : string) (colType : CollectionType)
    : Server → Reply string * Server :=
  driver (λ dbs, match dbs !! db with
                 | Some cat => match cat !! name with
                               | Some _ => (Failed Conflict, dbs)
                               | None => (Done name, <[db := <[name := colType]> cat]> dbs)
                               end
                 | None => (Failed OtherError, dbs)
                 end).

(** A function returns, or dereferences a nil handle and panics. *)
Inductive Run (A : Type) :=
| Return (a : A)
| NilPanic.
Arguments Return {A} a.
Arguments NilPanic {A}.

(** [db] is the database handle, [None] when it is nil.  The result
    [Failed e] is the pair [(nil, err)]. *)
Definition getCollection (db : option string) (name : string) (colType : CollectionType)
    (s : Server) : Run (Reply string) * Server :=
  match db with
  | None => (NilPanic, s)
  | Some db =>
      match CollectionExists db name s with
      | (Failed e, s1) => (Return (Failed e), s1)
      | (Done true, s1) =>
          match GetCollection db name s1 with
          | (Failed e, s2) => (Return (Failed e), s2)
          | (Done col, s2) => (Return (Done col), s2)
          end
      | (Done false, s1) =>
          match CreateCollection db name colType s1 with
          | (Failed e, s2) => (Return (Failed e), s2)
          | (Done col, s2) => (Return (Done col), s2)
          end
      end
  end.

Definition DatabaseName : string := "phonebook".

(** The handles of the [Database] struct; [None] is a nil handle. *)
Record Handles := mkHandles {
  phonebook : option string;
  users : option string;
  contacts : option string;
  verification_attempts : option string
}.

(** How startup ends: [log.Fatalf], a nil dereference, or the handles. *)
Inductive Startup :=
| Fatal (message : string)
| NilDereference
| Ready (db : Handles).

Definition IsConflict (e : DriverError) : bool :=
  match e with Conflict => true | OtherError => false end.

(** The handle and error a call leaves in [(h, err)]: a failed call leaves
    a nil handle. *)
Definition handle_of (r : Reply string) : option string :=
  match r with Done h => Some h | Failed _ => None end.

Definition SetupDBClient (s : Server) : Startup * Server :=
  match SetAuthentication s with
  | (Failed _, s1) => (Fatal "Failed to set authentication", s1)
  | (Done _, s1) =>
      match DatabaseExists DatabaseName s1 with
      | (Failed _, s2) => (Fatal "Failed to check if database exists", s2)
      | (Done dbExists, s2) =>
          let opened :=
            if dbExists then
              match GetDatabase DatabaseName s2 with
              | (Failed _, s3) => (Fatal "Failed to get database", s3)
              | (Done h, s3) => (Ready (mkHandles (Some h) None None None), s3)
              end
            else
              match CreateDatabase DatabaseName s2 with
              | (Failed e, s3) =>
                  if negb (IsConflict e) then (Fatal "Failed to create database", s3)
                  else (Ready (mkHandles None None None None), s3)
              | (Done h, s3) => (Ready (mkHandles (Some h) None None None), s3)
              end in
          match opened with
          | (Ready db0, s3) =>
              match getCollection (phonebook db0) "users" CollectionTypeDocument s3 with
              | (NilPanic, s4) => (NilDereference, s4)
              | (Return (Failed _), s4) => (Fatal "Failed to create users collection", s4)
              | (Return (Done usersCol), s4) =>
                  match getCollection (phonebook db0) "contacts" CollectionTypeEdge s4 with
                  | (NilPanic, s5) => (NilDereference, s5)
                  | (Return contactsCol, s5) =>
                      match contactsCol with
                      | Failed OtherError => (Fatal "Failed to create contacts collection", s5)
                      | _ =>
                          match getCollection (phonebook db0) "verification_attempts"
                                  CollectionTypeDocument s5 with
                          | (NilPanic, s6) => (NilDereference, s6)
                          | (Return attemptsCol, s6) =>
                              match attemptsCol with
                              | Failed OtherError =>
                                  (Fatal "Failed to create verification_attempts collection", s6)
                              | _ =>
                                  (Ready (mkHandles (phonebook db0) (Some usersCol)
                                            (handle_of contactsCol) (handle_of attemptsCol)), s6)
                              end
                          end
                      end
                  end
              end
          | stopped => stopped
          end
      end
  end.

End Setup.
(** ** Vocabulary of the statements *)

(** A reliable store: no call is scheduled to fail. *)
Definition reliable (w : World) : Prop := faults w = [].

(** The next store call is not scheduled to fail. *)
Definition next_call_ok (w : World) : Prop := head (faults w) ≠ Some true.

(** What [GetOrCreateUser] computes when it returns a key. *)
Definition resolve (number : string) (d : Database) : string * Database :=
  match users_by_number number d with
  | Some (key, _) => (key, d)
  | None =>
      let key := fresh (dom (users d)) in
      (key, set_users (λ _, <[key := User.mk number]> (users d)) d)
  end.

(** What one round of the loop of [AddContactsHandler] does to the edges
    once the contact is resolved, when it goes on to the next item. *)
Definition upsert_edge (from to name : string) (d : Database) : Database :=
  match head (edges_between from to d) with
  | Some (key, existingEdge) =>
      if negb (String.eqb (ContactEdge.Name existingEdge) name) then
        set_contacts
          (λ _, <[key := ContactEdge.mk (ContactEdge.From existingEdge) (ContactEdge.To existingEdge) name]>
                  (contacts d)) d
      else d
  | None =>
      set_contacts (λ _, <[fresh (dom (contacts d)) := ContactEdge.mk from to name]> (contacts d)) d
  end.

(** The intended invariant of the edge collection: at most one edge per
    ordered pair of endpoints. *)
Definition edge_unique (d : Database) : Prop :=
  ∀ k1 k2 e1 e2,
    contacts d !! k1 = Some e1 → contacts d !! k2 = Some e2 →
    ContactEdge.From e1 = ContactEdge.From e2 → ContactEdge.To e1 = ContactEdge.To e2 →
    k1 = k2.

Definition empty_db : Database := mkDatabase ∅ ∅ ∅.

(** A request as a handler of the [/api] group sees it once the middleware
    has stored the token's [user_key]. *)
Definition as_user {B} (header userKey : string) (body : B) : Ctx B :=
  mkCtx header (Some (ClaimString userKey)) (Some body).

(** A request as it arrives. *)
Definition request {B} (header : string) (body : B) : Ctx B :=
  mkCtx header None (Some body).

Definition added : Response := mkResponse StatusOK (JsonMessage "Contacts added").
Definition invalid_number : Response := mkResponse StatusBadRequest (JsonError "Invalid phone number").

Section Checks.
Context {phonenumbers : PhoneNumbers}.
Variable ToUpper : string → string.

(** The two checks the loop makes on an item before it touches the store. *)
Definition parsed (contact : Contact.t) : option PhoneNumber :=
  Parse (Contact.Number contact) (ToUpper (Contact.CountryCode contact)).

Definition region_valid (contact : Contact.t) (number : PhoneNumber) : bool :=
  IsValidNumberForRegion number (ToUpper (Contact.CountryCode contact)).
End Checks.

(** ** Sample collaborators, stores and requests *)

(** A phone number library for examples: text starting with [+] parses, the
    parsed number is the text itself, and it is valid in every region but
    ["ZZ"]. *)
Definition sample_phonenumbers : PhoneNumbers := {|
  PhoneNumber := string;
  Parse numberToParse defaultRegion :=
    if String.prefix "+" numberToParse then Some numberToParse else None;
  IsValidNumberForRegion number regionCode := negb (String.eqb regionCode "ZZ");
  FormatE164 number := number
|}.

(** A token library for examples: the token of a user key is the key after
    ["signed:"], and it never expires. *)
Definition sample_jwt : JWT := {|
  SignedString secret claims :=
    match claims !! "user_key" with
    | Some (ClaimString userKey) => Some ("signed:" +:+ userKey)
    | _ => None
    end;
  jwt_Parse secret now tokenString :=
    match strip_prefix "signed:" tokenString with
    | Some userKey => Some {[ "user_key" := ClaimString userKey ]}
    | None => None
    end
|}.

Definition ascii_ToUpper (a : Ascii.ascii) : Ascii.ascii :=
  let n := Ascii.nat_of_ascii a in
  if ((97 <=? n) && (n <=? 122))%nat then Ascii.ascii_of_nat (n - 32) else a.

(** [strings.ToUpper] on ASCII text. *)
Fixpoint sample_ToUpper (s : string) : string :=
  match s with
  | EmptyString => EmptyString
  | String a s' => String (ascii_ToUpper a) (sample_ToUpper s')
  end.

Definition fresh_world : World := mkWorld empty_db [].

(** A pending attempt, created at instant [1000]. *)
Definition sample_attempt : VerificationAttempt.t :=
  VerificationAttempt.mk "" "+46701234567" "123456" 1000.

Definition pending (fs : list bool) : World :=
  mkWorld (mkDatabase ∅ ∅ {[ "17" := sample_attempt ]}) fs.

(** The store once the number of the pending attempt has its user. *)
Definition resolved : World :=
  mkWorld (mkDatabase {[ "0" := User.mk "+46701234567" ]} ∅ {[ "17" := sample_attempt ]}) [].

Definition verify_17 : Ctx VerifyRequest.t := request "" (VerifyRequest.mk "17" "123456").

Definition alice : Contact.t := Contact.mk "se" "+46700000001" "Alice".
Definition alice_as_bob : Contact.t := Contact.mk "SE" "+46700000001" "Bob".
Definition carol : Contact.t := Contact.mk "se" "+46700000002" "Carol".
Definition not_a_number : Contact.t := Contact.mk "se" "call me" "Dave".
Definition wrong_region : Contact.t := Contact.mk "zz" "+46700000003" "Erin".

(** The store after user [5] has submitted [alice], and after the same
    number has been submitted again as Bob. *)
Definition alice_added : World :=
  mkWorld
    (mkDatabase {[ "0" := User.mk "+46700000001" ]}
       {[ "0" := ContactEdge.mk "users/5" "users/0" "Alice" ]} ∅) [].

Definition bob_added : World :=
  mkWorld
    (mkDatabase {[ "0" := User.mk "+46700000001" ]}
       {[ "0" := ContactEdge.mk "users/5" "users/0" "Bob" ]} ∅) [].

(** A graph in which user [2] has user [3] as contact Bob, and user [1] has
    no contacts. *)
Definition graph : World :=
  mkWorld
    (mkDatabase
       (<["1" := User.mk "+46700000001"]>
          (<["2" := User.mk "+46700000002"]> {[ "3" := User.mk "+46700000003" ]}))
       {[ "9" := ContactEdge.mk "users/2" "users/3" "Bob" ]}
       ∅)
    [].

(** The request of user [1], who asks for the contacts of user [2]. *)
Definition one_asks_for_two : Ctx GetContactsRequest.t :=
  request "Bearer signed:1" (GetContactsRequest.mk "2").

(** ** Further vocabulary *)

(** The outline in [main.go]: only one user per phone number. *)
Definition number_unique (d : Database) : Prop :=
  ∀ k1 k2 u1 u2,
    users d !! k1 = Some u1 → users d !! k2 = Some u2 →
    User.Number u1 = User.Number u2 → k1 = k2.

(** Every edge points to a stored user. *)
Definition edges_to_users (d : Database) : Prop :=
  ∀ k e, contacts d !! k = Some e →
    ∃ key, ContactEdge.To e = "users/" +:+ key ∧ is_Some (users d !! key).

Definition is_digit (a : Ascii.ascii) : bool :=
  let n := Ascii.nat_of_ascii a in ((48 <=? n) && (n <=? 57))%nat.

Fixpoint all_digits (s : string) : bool :=
  match s with
  | EmptyString => true
  | String a s' => is_digit a && all_digits s'
  end.

(** The number a string of decimal digits writes, read from the left with
    [acc] the value so far. *)
Fixpoint digits_value (acc : Z) (s : string) : Z :=
  match s with
  | EmptyString => acc
  | String a s' => digits_value (10 * acc + (Z.of_nat (Ascii.nat_of_ascii a) - 48)) s'
  end.

Definition verified (token : string) : Response :=
  mkResponse StatusOK (JsonToken "User verified and created successfully" token).

Definition login_failed : Response :=
  mkResponse StatusInternalServerError (JsonError "Failed to log in to user account").

Definition unauthorized (r : Response) : Prop := Status r = StatusUnauthorized.

(** Whether a request was answered with status 200. *)
Definition answered_ok (o : Outcome) : bool :=
  match o with
  | Respond r => bool_decide (Status r = StatusOK)
  | Panicked => false
  end.

Definition refused : Response :=
  mkResponse StatusBadRequest (JsonError "Invalid or expired verification code").

(** The world after a series of verify requests for one attempt, each made
    at its own instant with its own code. *)
Definition after_guesses {jwt : JWT} (key : string) (guesses : list (Z * string)) (w : World)
    : World :=
  foldl (λ w guess,
           (VerifyRequestHandler guess.1 (request "" (VerifyRequest.mk key guess.2)) w).2)
    w guesses.

(** A server on which no coming call fails. *)
Definition quiet (s : Setup.Server) : Prop := Setup.incidents s = [].

(** The catalogue once a collection has been looked up or created: a
    collection that exists keeps its type. *)
Definition with_collection (name : string) (colType : Setup.CollectionType)
    (cat : gmap string Setup.CollectionType) : gmap string Setup.CollectionType :=
  match cat !! name with
  | Some _ => cat
  | None => <[name := colType]> cat
  end.

(** The catalogue of the phonebook database after startup, from what was
    there before ([None] when the database did not exist). *)
Definition phonebook_catalogue (before : option (gmap string Setup.CollectionType))
    : gmap string Setup.CollectionType :=
  with_collection "verification_attempts" Setup.CollectionTypeDocument
    (with_collection "contacts" Setup.CollectionTypeEdge
       (with_collection "users" Setup.CollectionTypeDocument (default ∅ before))).

Definition all_handles : Setup.Handles :=
  Setup.mkHandles (Some "phonebook") (Some "users") (Some "contacts") (Some "verification_attempts").

(** More samples: a store with the user of key [0], a cancel request for the
    pending attempt, a server with nothing on it. *)
Definition cancel_17 : Ctx CancelVerificationRequest.t :=
  request "" (CancelVerificationRequest.mk "17").

Definition claim_request : Ctx RequestVerificationRequest.t :=
  request "" (RequestVerificationRequest.mk "+46701234567").

(** The store once the pending attempt has been verified. *)
Definition verified_world : World :=
  mkWorld (mkDatabase {[ "0" := User.mk "+46701234567" ]} ∅ ∅) [].

Definition empty_server : Setup.Server := Setup.mkServer ∅ [].

(** A server on which [contacts] exists already, as a document collection. *)
Definition odd_server (incidents : list (option Setup.DriverError)) : Setup.Server :=
  Setup.mkServer {[ "phonebook" := {[ "contacts" := Setup.CollectionTypeDocument ]} ]} incidents.

(** ** The store: basic facts *)

Lemma call_reliable {A} (op : Database → Result A * Database) w :
  reliable w → call op w = ((op (db w)).1, mkWorld (op (db w)).2 []).
Proof.
  unfold reliable, call. intros ->. by destruct (op (db w)).
Qed.

Lemma call_fault {A} (op : Database → Result A * Database) w fs :
  faults w = true :: fs → call op w = (Err Failure, mkWorld (db w) fs).
Proof. unfold call. by intros ->. Qed.

(** A call fails and leaves the data alone, or does its operation. *)
Lemma call_cases {A} (op : Database → Result A * Database) w :
  ∃ fs, call op w = (Err Failure, mkWorld (db w) fs)
        ∨ call op w = ((op (db w)).1, mkWorld (op (db w)).2 fs).
Proof.
  unfold call. destruct (faults w) as [|[] fs]; destruct (op (db w)); eauto.
Qed.

Lemma reliable_eta w : reliable w → mkWorld (db w) [] = w.
Proof. destruct w as [d fs]. unfold reliable. simpl. by intros ->. Qed.

(** Follow the next store call of the goal into its two outcomes. *)
Ltac step_call :=
  match goal with
  | |- context [call ?op ?w] =>
      let fs := fresh "fs" in
      destruct (call_cases op w) as [fs [-> | ->]]; simpl
  end.

(** ** Verification *)

Lemma DeleteDocument_present key a w :
  next_call_ok w →
  verification_attempts (db w) !! key = Some a →
  ∃ w1, verification_attempts_DeleteDocument key w = (Ok (), w1)
        ∧ verification_attempts (db w1) = delete key (verification_attempts (db w))
        ∧ users (db w1) = users (db w) ∧ contacts (db w1) = contacts (db w).
Proof.
  intros Hok Ha. unfold verification_attempts_DeleteDocument, call, col_delete.
  unfold next_call_ok in Hok. rewrite Ha.
  destruct (faults w) as [|[] fs]; simpl in *; try done; eexists; eauto.
Qed.

(** The error [VerifyCode] returns is always [nil]. *)
Lemma VerifyCode_error_nil now attempt code w :
  (VerifyCode now attempt code w).1.2 = None.
Proof.
  unfold VerifyCode. repeat case_match; done.
Qed.

Lemma expired_iff now attempt :
  (VerificationAttempt.CreatedAt attempt + VerificationExpiryTime <? now) = true
  ↔ VerificationAttempt.CreatedAt attempt + 5 * minute < now.
Proof. rewrite Z.ltb_lt. unfold VerificationExpiryTime. lia. Qed.

Lemma not_expired_iff now attempt :
  (VerificationAttempt.CreatedAt attempt + VerificationExpiryTime <? now) = false
  ↔ now ≤ VerificationAttempt.CreatedAt attempt + 5 * minute.
Proof. rewrite Z.ltb_ge. unfold VerificationExpiryTime. lia. Qed.

Lemma VerifyCode_in_time now attempt w :
  now ≤ VerificationAttempt.CreatedAt attempt + 5 * minute →
  ∃ w1, VerifyCode now attempt (VerificationAttempt.Code attempt) w = ((true, None), w1).
Proof.
  intros Hearly%not_expired_iff. unfold VerifyCode.
  rewrite Hearly, String.eqb_refl.
  destruct (verification_attempts_DeleteDocument _ w) as [r w1]. by exists w1.
Qed.

(** C3: an attempt created at [T0] and verified strictly after [T0 + 5min]
    is deleted and refused whatever the code, provided the store performs
    the deletion; verified at or before [T0 + 5min] with its own code it is
    accepted. *)
Theorem VerifyCode_expiry_boundary (now : Z) (key code : string) (a : VerificationAttempt.t) (w : World) :
  verification_attempts (db w) !! key = Some a →
  let T0 := VerificationAttempt.CreatedAt a in
  let attempt := with_Key key (decode_attempt a) in
  (T0 + 5 * minute < now → next_call_ok w →
     ∃ w1, VerifyCode now attempt code w = ((false, None), w1)
           ∧ verification_attempts (db w1) !! key = None)
  ∧ (now ≤ T0 + 5 * minute →
     ∃ w1, VerifyCode now attempt (VerificationAttempt.Code a) w = ((true, None), w1)).
Proof.
  intros Ha T0 attempt. split.
  - intros Hlate Hok.
    destruct (DeleteDocument_present key a w Hok Ha) as (w1 & Hdel & Hva & _).
    exists w1. unfold VerifyCode.
    apply (expired_iff now attempt) in Hlate. rewrite Hlate. simpl. rewrite Hdel.
    split; [done|]. rewrite Hva. apply lookup_delete_eq.
  - intros Hearly. by apply (VerifyCode_in_time now attempt w).
Qed.

Lemma VerifyCode_expiry_boundary_witness :
  (∃ w1, VerifyCode (1000 + 5 * minute + second) (with_Key "17" (decode_attempt sample_attempt))
           "123456" (pending []) = ((false, None), w1)
         ∧ verification_attempts (db w1) !! "17" = None)
  ∧ (∃ w1, VerifyCode (1000 + 4 * minute + 59 * second) (with_Key "17" (decode_attempt sample_attempt))
             "123456" (pending []) = ((true, None), w1)).
Proof.
  destruct (VerifyCode_expiry_boundary (1000 + 5 * minute + second) "17" "123456"
              sample_attempt (pending []) eq_refl) as [Hlate _].
  destruct (VerifyCode_expiry_boundary (1000 + 4 * minute + 59 * second) "17" "123456"
              sample_attempt (pending []) eq_refl) as [_ Hearly].
  split.
  - apply Hlate; [vm_compute; reflexivity | vm_compute; discriminate].
  - apply Hearly. vm_compute. discriminate.
Defined.

(** C4: before expiry a code other than the stored one is refused without
    any store call, so the world is the same afterwards, and the stored code
    is still accepted at any later instant before expiry. *)
Theorem VerifyCode_mismatch_keeps_attempt
    (now later : Z) (key code : string) (a : VerificationAttempt.t) (w : World) :
  verification_attempts (db w) !! key = Some a →
  let attempt := with_Key key (decode_attempt a) in
  now ≤ VerificationAttempt.CreatedAt a + 5 * minute →
  code ≠ VerificationAttempt.Code a →
  VerifyCode now attempt code w = ((false, None), w)
  ∧ verification_attempts (db w) !! key = Some a
  ∧ (later ≤ VerificationAttempt.CreatedAt a + 5 * minute →
     ∃ w1, VerifyCode later attempt (VerificationAttempt.Code a) w = ((true, None), w1)).
Proof.
  intros Ha attempt Hearly Hcode. split; [|split; [done|]].
  - unfold VerifyCode. apply (not_expired_iff now attempt) in Hearly. rewrite Hearly. simpl.
    destruct (String.eqb_spec (VerificationAttempt.Code a) code) as [Heq|_]; [|done].
    by destruct Hcode.
  - intros Hlater. by apply (VerifyCode_in_time later attempt w).
Qed.

Lemma VerifyCode_mismatch_keeps_attempt_witness :
  VerifyCode 2000 (with_Key "17" (decode_attempt sample_attempt)) "000000" (pending [])
    = ((false, None), pending [])
  ∧ verification_attempts (db (pending [])) !! "17" = Some sample_attempt
  ∧ ∃ w1, VerifyCode 3000 (with_Key "17" (decode_attempt sample_attempt))
            (VerificationAttempt.Code sample_attempt) (pending []) = ((true, None), w1).
Proof.
  destruct (VerifyCode_mismatch_keeps_attempt 2000 3000 "17" "000000" sample_attempt (pending []))
    as (Hrefused & Hkept & Hlater).
  - reflexivity.
  - vm_compute. discriminate.
  - vm_compute. discriminate.
  - split; [exact Hrefused|]. split; [exact Hkept|]. apply Hlater. vm_compute. discriminate.
Defined.

(** The same two outcomes seen from the handler, on a reliable store: an
    expired attempt is consumed and the request answered 400; a wrong code
    before expiry is answered 400 with the data untouched. *)
Lemma VerifyRequestHandler_expired {jwt : JWT} now header locals req a w :
  reliable w →
  verification_attempts (db w) !! VerifyRequest.AttemptKey req = Some a →
  VerificationAttempt.CreatedAt a + 5 * minute < now →
  ∃ w1, VerifyRequestHandler now (mkCtx header locals (Some req)) w
        = (Respond (mkResponse StatusBadRequest (JsonError "Invalid or expired verification code")), w1)
        ∧ verification_attempts (db w1) !! VerifyRequest.AttemptKey req = None.
Proof.
  intros Hw Ha Hlate.
  unfold VerifyRequestHandler, verification_attempts_ReadDocument. simpl.
  rewrite (call_reliable _ w Hw). unfold col_read. simpl. rewrite Ha.
  unfold VerifyCode. simpl.
  apply (expired_iff now a) in Hlate. rewrite Hlate.
  unfold verification_attempts_DeleteDocument, call, col_delete. simpl. rewrite Ha.
  eexists. split; [reflexivity|]. simpl. apply lookup_delete_eq.
Qed.

Lemma VerifyRequestHandler_mismatch {jwt : JWT} now header locals req a w :
  reliable w →
  verification_attempts (db w) !! VerifyRequest.AttemptKey req = Some a →
  now ≤ VerificationAttempt.CreatedAt a + 5 * minute →
  VerifyRequest.Code req ≠ VerificationAttempt.Code a →
  VerifyRequestHandler now (mkCtx header locals (Some req)) w
  = (Respond (mkResponse StatusBadRequest (JsonError "Invalid or expired verification code")), w).
Proof.
  intros Hw Ha Hearly Hcode.
  unfold VerifyRequestHandler, verification_attempts_ReadDocument. simpl.
  rewrite (call_reliable _ w Hw). unfold col_read. simpl. rewrite Ha.
  unfold VerifyCode. simpl.
  apply (not_expired_iff now a) in Hearly. rewrite Hearly.
  destruct (String.eqb_spec (VerificationAttempt.Code a) (VerifyRequest.Code req)) as [Heq|_];
    [by destruct Hcode|].
  by rewrite reliable_eta.
Qed.

(** A claim on a reliable store leaves an attempt under the returned key,
    created at the instant of the call, with the six digits of the draw. *)
Lemma CreateVerificationAttempt_reliable now n number w :
  reliable w →
  ∃ key w1,
    CreateVerificationAttempt now (Some n) number w = (Ok key, w1)
    ∧ verification_attempts (db w) !! key = None
    ∧ verification_attempts (db w1) !! key
      = Some (VerificationAttempt.mk "" number (Sprintf_06d n) now).
Proof.
  intros Hw. unfold CreateVerificationAttempt, verification_attempts_CreateDocument.
  rewrite (call_reliable _ w Hw). simpl. eexists _, _. split; [reflexivity|]. split.
  - apply not_elem_of_dom, is_fresh.
  - simpl. apply lookup_insert_eq.
Qed.

Example Sprintf_06d_pads : Sprintf_06d 42 = "000042" ∧ Sprintf_06d 999999 = "999999".
Proof. split; reflexivity. Qed.

(** A verify request for an attempt that is not in the store is answered
    with status 500, whether the read fails or reports that the document
    is missing. *)
Lemma VerifyRequestHandler_missing_attempt {jwt : JWT} now header locals req w :
  verification_attempts (db w) !! VerifyRequest.AttemptKey req = None →
  ∃ w1, VerifyRequestHandler now (mkCtx header locals (Some req)) w
        = (Respond (mkResponse StatusInternalServerError (JsonError "Failed to verify code")), w1)
        ∧ db w1 = db w.
Proof.
  intros Hnone. unfold VerifyRequestHandler, verification_attempts_ReadDocument, call, col_read.
  simpl. rewrite Hnone. destruct (faults w) as [|[] fs]; eexists; split; reflexivity.
Qed.

(** The cancel handler does tell a missing attempt from a failed call. *)
Lemma CancelVerificationHandler_missing_attempt header locals req w :
  next_call_ok w →
  verification_attempts (db w) !! CancelVerificationRequest.AttemptKey req = None →
  ∃ w1, CancelVerificationHandler (mkCtx header locals (Some req)) w
        = (Respond (mkResponse StatusNotFound (JsonError "Attempt not found")), w1)
        ∧ db w1 = db w.
Proof.
  intros Hok Hnone.
  unfold CancelVerificationHandler, verification_attempts_DeleteDocument, call, col_delete.
  unfold next_call_ok in Hok. simpl. rewrite Hnone.
  destruct (faults w) as [|[] fs]; simpl in *; try done; eexists; split; try reflexivity;
    by destruct (db w).
Qed.

(** When the store fails to delete, [VerifyCode] still accepts the code and
    reports no error. *)
Lemma VerifyCode_delete_failure now attempt fs w :
  faults w = true :: fs →
  now ≤ VerificationAttempt.CreatedAt attempt + 5 * minute →
  VerifyCode now attempt (VerificationAttempt.Code attempt) w = ((true, None), mkWorld (db w) fs).
Proof.
  intros Hf Hearly%not_expired_iff. unfold VerifyCode.
  rewrite Hearly, String.eqb_refl.
  unfold verification_attempts_DeleteDocument. by rewrite (call_fault _ w fs Hf).
Qed.

(** C2: the attempt with key [17] and code [123456] is verified twice on a
    reliable store.  The first request is answered 200 with a token and the
    attempt is deleted; the second is answered 500, not 404. *)
Theorem verify_twice_second_is_500 :
  ∃ w1 w2,
    VerifyRequestHandler (jwt := sample_jwt) 2000 verify_17 (pending [])
      = (Respond (mkResponse StatusOK (JsonToken "User verified and created successfully" "signed:0")), w1)
    ∧ verification_attempts (db w1) !! "17" = None
    ∧ VerifyRequestHandler (jwt := sample_jwt) 3000 verify_17 w1
      = (Respond (mkResponse StatusInternalServerError (JsonError "Failed to verify code")), w2)
    ∧ db w2 = db w1.
Proof.
  destruct (VerifyRequestHandler (jwt := sample_jwt) 2000 verify_17 (pending [])) as [o1 w1] eqn:H1.
  vm_compute in H1. injection H1 as <- <-.
  eexists _, _. split; [reflexivity|]. split; [reflexivity|].
  split; vm_compute; reflexivity.
Qed.

(** C5: the attempt with key [17] is verified with its code while the store
    fails the deletion (second call of the schedule).  The request is still
    answered 200 with a token and the attempt stays in the store. *)
Theorem verify_reports_success_when_delete_fails :
  ∃ w1,
    VerifyRequestHandler (jwt := sample_jwt) 2000 verify_17 (pending [false; true])
      = (Respond (mkResponse StatusOK (JsonToken "User verified and created successfully" "signed:0")), w1)
    ∧ verification_attempts (db w1) !! "17" = Some sample_attempt.
Proof.
  destruct (VerifyRequestHandler (jwt := sample_jwt) 2000 verify_17 (pending [false; true]))
    as [o1 w1] eqn:H1.
  vm_compute in H1. injection H1 as <- <-.
  eexists. split; reflexivity.
Qed.

(** ** Authentication *)

Lemma slice_from_short n s : (String.length s < n)%nat → slice_from n s = None.
Proof.
  revert s. induction n as [|n IH]; intros s Hlen; [lia|].
  destruct s as [|a s]; [done|]. simpl in *. apply IH. lia.
Qed.

Lemma slice_from_long n s : (n ≤ String.length s)%nat → is_Some (slice_from n s).
Proof.
  revert s. induction n as [|n IH]; intros s Hlen; [by eexists|].
  destruct s as [|a s]; simpl in *; [lia|]. apply IH. lia.
Qed.

(** C10: a non-empty [Authorization] header of fewer than 7 bytes makes the
    middleware panic on [authHeader[7:]]; no 401 is produced. *)
Theorem AuthMiddleware_short_header_panics {jwt : JWT} {B} (now : Z) (c : Ctx B) :
  Authorization c ≠ "" →
  (String.length (Authorization c) < 7)%nat →
  AuthMiddleware now c = Crash.
Proof.
  intros Hne Hlen. unfold AuthMiddleware.
  destruct (String.eqb_spec (Authorization c) "") as [Heq|_]; [done|].
  by rewrite (slice_from_short 7 _ Hlen).
Qed.

Lemma AuthMiddleware_short_header_panics_witness :
  AuthMiddleware (jwt := sample_jwt) 0 (request "Bearer" (GetContactsRequest.mk "1")) = Crash.
Proof.
  apply (AuthMiddleware_short_header_panics (jwt := sample_jwt) 0
           (request "Bearer" (GetContactsRequest.mk "1"))).
  - discriminate.
  - vm_compute. lia.
Defined.

(** Headers the middleware does reject: the empty one, and any of 7 bytes
    or more whose token does not parse as valid. *)
Lemma AuthMiddleware_rejects {jwt : JWT} {B} (now : Z) (c : Ctx B) :
  (Authorization c = "" ∨
   ∃ tokenString, slice_from 7 (Authorization c) = Some tokenString
                  ∧ jwt_Parse JWTSecret now tokenString = None) →
  ∃ r, AuthMiddleware now c = Reject r ∧ Status r = StatusUnauthorized.
Proof.
  intros [Hempty|(tok & Hslice & Hparse)]; unfold AuthMiddleware.
  - rewrite Hempty. simpl. by eexists.
  - destruct (String.eqb (Authorization c) ""); [by eexists|].
    rewrite Hslice, Hparse. by eexists.
Qed.

(** The middleware passes the body on untouched. *)
Lemma AuthMiddleware_Next_body {jwt : JWT} {B} (now : Z) (c c' : Ctx B) :
  AuthMiddleware now c = Next c' → BodyParser c' = BodyParser c.
Proof.
  unfold AuthMiddleware. repeat case_match; try done. by intros [= <-].
Qed.

(** ** Queries over a collection *)

Section col_filter.
Context {V : Type} (p : V → bool).
Implicit Types c : gmap string V.

Lemma elem_of_col_filter c k v :
  (k, v) ∈ col_filter p c ↔ c !! k = Some v ∧ p v = true.
Proof.
  unfold col_filter. rewrite list_elem_of_filter, elem_of_map_to_list. simpl. tauto.
Qed.

Lemma NoDup_col_filter c : NoDup (col_filter p c).
Proof. apply NoDup_filter, NoDup_map_to_list. Qed.

Lemma col_filter_head_Some c k v :
  head (col_filter p c) = Some (k, v) → c !! k = Some v ∧ p v = true.
Proof. intros H. by apply elem_of_col_filter, head_Some_elem_of. Qed.

Lemma col_filter_head_None c k v :
  head (col_filter p c) = None → c !! k = Some v → p v = false.
Proof.
  intros H Hk. apply head_None in H.
  destruct (p v) eqn:Hp; [|done].
  assert (Hin : (k, v) ∈ col_filter p c) by by apply elem_of_col_filter.
  rewrite H in Hin. by apply elem_of_nil in Hin.
Qed.

(** A query with a single matching document returns exactly that one. *)
Lemma col_filter_singleton c k v :
  c !! k = Some v → p v = true →
  (∀ k' v', c !! k' = Some v' → p v' = true → k' = k) →
  col_filter p c = [(k, v)].
Proof.
  intros Hk Hp Huniq.
  assert (Hall : ∀ x, x ∈ col_filter p c → x = (k, v)).
  { intros [k' v'] [Hk' Hp']%elem_of_col_filter.
    pose proof (Huniq k' v' Hk' Hp') as ->. congruence. }
  assert (Hin : (k, v) ∈ col_filter p c) by by apply elem_of_col_filter.
  pose proof (NoDup_col_filter c) as Hnd.
  destruct (col_filter p c) as [|x [|y l]].
  - by apply elem_of_nil in Hin.
  - f_equal. apply Hall. left.
  - exfalso. apply NoDup_cons in Hnd as [Hx _]. apply Hx.
    rewrite (Hall x), (Hall y); [left | right; left | left].
Qed.
End col_filter.

Lemma fresh_key_unused {V} (c : gmap string V) : c !! fresh (dom c) = None.
Proof. apply not_elem_of_dom, is_fresh. Qed.

Lemma User_Number_eqb u number :
  String.eqb (User.Number u) number = true ↔ u = User.mk number.
Proof.
  rewrite String.eqb_eq. destruct u as [n]. simpl. split; [by intros -> | by intros [= ->]].
Qed.

Lemma edge_matches e from to :
  String.eqb (ContactEdge.From e) from && String.eqb (ContactEdge.To e) to = true
  ↔ ContactEdge.From e = from ∧ ContactEdge.To e = to.
Proof. by rewrite andb_true_iff, !String.eqb_eq. Qed.

(** ** Identity resolution *)

Lemma GetOrCreateUser_reliable number w :
  reliable w →
  GetOrCreateUser number w = (Ok (resolve number (db w)).1, mkWorld (resolve number (db w)).2 []).
Proof.
  intros Hw. unfold GetOrCreateUser, query_users_by_number, resolve.
  rewrite (call_reliable _ w Hw). simpl.
  destruct (users_by_number number (db w)) as [[key u]|].
  - reflexivity.
  - reflexivity.
Qed.

Lemma users_by_number_ext number d d' :
  users d = users d' → users_by_number number d = users_by_number number d'.
Proof. unfold users_by_number. by intros ->. Qed.

Lemma users_by_number_resolve number d :
  users_by_number number (resolve number d).2 = Some ((resolve number d).1, User.mk number).
Proof.
  unfold resolve. destruct (users_by_number number d) as [[key u]|] eqn:Hq; simpl.
  - rewrite Hq. apply col_filter_head_Some in Hq as [_ Hu].
    apply User_Number_eqb in Hu. by subst u.
  - unfold users_by_number, set_users. simpl.
    rewrite (col_filter_singleton _ _ (fresh (dom (users d))) (User.mk number)); [done| | |].
    + apply lookup_insert_eq.
    + apply String.eqb_refl.
    + intros k' v' Hk' Hp'.
      destruct (decide (k' = fresh (dom (users d)))) as [|Hne]; [done|].
      rewrite lookup_insert_ne in Hk' by done.
      pose proof (col_filter_head_None _ _ _ _ Hq Hk') as Hfalse. simpl in *. congruence.
Qed.

Lemma resolve_lookup number d :
  users (resolve number d).2 !! (resolve number d).1 = Some (User.mk number).
Proof.
  pose proof (users_by_number_resolve number d) as H.
  by apply col_filter_head_Some in H as [H _].
Qed.

Lemma resolve_found number d key u :
  users_by_number number d = Some (key, u) → resolve number d = (key, d).
Proof. unfold resolve. by intros ->. Qed.

Lemma resolve_again number d :
  resolve number (resolve number d).2 = resolve number d.
Proof.
  rewrite (resolve_found _ _ _ _ (users_by_number_resolve number d)).
  by destruct (resolve number d).
Qed.

Lemma resolve_contacts number d : contacts (resolve number d).2 = contacts d.
Proof. unfold resolve. by destruct (users_by_number number d) as [[??]|]. Qed.

(** Whatever the fault schedule, a call that returns a key has done what
    [resolve] does. *)
Lemma GetOrCreateUser_Ok number w key w1 :
  GetOrCreateUser number w = (Ok key, w1) → resolve number (db w) = (key, db w1).
Proof.
  unfold GetOrCreateUser, query_users_by_number, cursor_ReadDocument, CreateUser,
    users_CreateDocument, resolve, call.
  destruct (faults w) as [|[] [|[] fs]]; simpl;
    destruct (users_by_number number (db w)) as [[k u]|]; simpl;
    intros [= <- <-]; reflexivity.
Qed.

(** C9: [GetOrCreateUser] called twice in a row for the same number returns
    the same key both times and leaves the store as the first call left it,
    and the user stored under that key has the number; on a reliable store
    both calls do return a key, and reading the user back yields the
    number. *)
Theorem GetOrCreateUser_idempotent (number : string) (w : World) :
  (∀ key key' w1 w2,
     GetOrCreateUser number w = (Ok key, w1) →
     GetOrCreateUser number w1 = (Ok key', w2) →
     key' = key ∧ db w2 = db w1 ∧ users (db w1) !! key = Some (User.mk number))
  ∧ (reliable w →
     ∃ key w1,
       GetOrCreateUser number w = (Ok key, w1)
       ∧ GetOrCreateUser number w1 = (Ok key, w1)
       ∧ users_ReadDocument key w1 = (Ok (User.mk number), w1)).
Proof.
  split.
  - intros key key' w1 w2 H1%GetOrCreateUser_Ok H2%GetOrCreateUser_Ok.
    pose proof (resolve_again number (db w)) as Hagain.
    pose proof (resolve_lookup number (db w)) as Hlookup.
    rewrite H1 in Hagain, Hlookup. simpl in *. rewrite H2 in Hagain.
    by injection Hagain as -> ->.
  - intros Hw. exists (resolve number (db w)).1, (mkWorld (resolve number (db w)).2 []).
    split; [by apply GetOrCreateUser_reliable|]. split.
    + rewrite GetOrCreateUser_reliable by done. simpl. by rewrite resolve_again.
    + unfold users_ReadDocument. rewrite call_reliable by done. simpl.
      unfold col_read. by rewrite resolve_lookup.
Qed.

Lemma GetOrCreateUser_idempotent_witness :
  ("0" = "0" ∧ db resolved = db resolved
   ∧ users (db resolved) !! "0" = Some (User.mk "+46701234567"))
  ∧ ∃ key w1,
      GetOrCreateUser "+46701234567" (pending []) = (Ok key, w1)
      ∧ GetOrCreateUser "+46701234567" w1 = (Ok key, w1)
      ∧ users_ReadDocument key w1 = (Ok (User.mk "+46701234567"), w1).
Proof.
  destruct (GetOrCreateUser_idempotent "+46701234567" (pending [])) as [Hsame Hreturns].
  split.
  - apply (Hsame "0" "0" resolved resolved); vm_compute; reflexivity.
  - apply Hreturns. reflexivity.
Defined.

(** ** Contact edges *)

Lemma edge_unique_ext d d' : contacts d = contacts d' → edge_unique d → edge_unique d'.
Proof. unfold edge_unique. by intros ->. Qed.

Lemma edge_unique_empty : edge_unique empty_db.
Proof. intros k1 k2 e1 e2 H. simpl in H. by apply lookup_empty_Some in H. Qed.

Lemma upsert_edge_users from to name d : users (upsert_edge from to name d) = users d.
Proof.
  unfold upsert_edge.
  destruct (head (edges_between from to d)) as [[key e]|]; [|done].
  by destruct (negb _).
Qed.

Lemma upsert_edge_verification_attempts from to name d :
  verification_attempts (upsert_edge from to name d) = verification_attempts d.
Proof.
  unfold upsert_edge.
  destruct (head (edges_between from to d)) as [[key e]|]; [|done].
  by destruct (negb _).
Qed.

(** The edges of the pair after the round, as a lookup table: the edge found
    (or the new one) carries the submitted name, every other document is as
    before. *)
Lemma upsert_edge_contacts from to name d :
  ∃ key,
    contacts (upsert_edge from to name d) = <[key := ContactEdge.mk from to name]> (contacts d)
    ∧ (head (edges_between from to d) = None ∧ contacts d !! key = None
       ∨ ∃ e, head (edges_between from to d) = Some (key, e)).
Proof.
  unfold upsert_edge.
  destruct (head (edges_between from to d)) as [[key e]|] eqn:Hq.
  - exists key. split; [|right; by eexists].
    apply col_filter_head_Some in Hq as [Hk [Hfrom Hto]%edge_matches].
    destruct e as [f t n]. simpl in *. subst f t.
    destruct (String.eqb_spec n name) as [->|Hne]; simpl; [|done].
    by rewrite insert_id.
  - exists (fresh (dom (contacts d))). split; [done|]. left. split; [done|].
    apply fresh_key_unused.
Qed.

Lemma upsert_edge_unique from to name d :
  edge_unique d → edge_unique (upsert_edge from to name d).
Proof.
  intros Huniq.
  destruct (upsert_edge_contacts from to name d) as (key & Hc & Hcase).
  assert (Hpair : ∀ k e, contacts d !! k = Some e →
            ContactEdge.From e = from → ContactEdge.To e = to → k = key).
  { intros k e Hk Hf Ht. destruct Hcase as [[Hnone _]|[e' Hsome]].
    - pose proof (col_filter_head_None _ _ _ _ Hnone Hk) as Hp.
      assert (Hm : String.eqb (ContactEdge.From e) from && String.eqb (ContactEdge.To e) to = true)
        by by apply edge_matches.
      simpl in *. congruence.
    - apply col_filter_head_Some in Hsome as [Hk' [Hf' Ht']%edge_matches].
      apply (Huniq k key e e'); congruence. }
  intros k1 k2 e1 e2. rewrite Hc.
  destruct (decide (k1 = key)) as [->|Hne1]; destruct (decide (k2 = key)) as [->|Hne2];
    [done| | |].
  - rewrite lookup_insert_eq, lookup_insert_ne by done. intros [= <-] H2 Hf Ht. simpl in *.
    symmetry. by apply (Hpair k2 e2).
  - rewrite lookup_insert_eq, lookup_insert_ne by done. intros H1 [= <-] Hf Ht. simpl in *.
    by apply (Hpair k1 e1).
  - rewrite !lookup_insert_ne by done. apply Huniq.
Qed.

Lemma upsert_edge_between from to name d :
  edge_unique d →
  ∃ key, edges_between from to (upsert_edge from to name d) = [(key, ContactEdge.mk from to name)].
Proof.
  intros Huniq.
  pose proof (upsert_edge_unique from to name d Huniq) as Huniq'.
  destruct (upsert_edge_contacts from to name d) as (key & Hc & _).
  assert (Hk : contacts (upsert_edge from to name d) !! key = Some (ContactEdge.mk from to name)).
  { rewrite Hc. apply lookup_insert_eq. }
  exists key. unfold edges_between. apply col_filter_singleton.
  - done.
  - by apply edge_matches.
  - intros k' e' Hk' [Hf Ht]%edge_matches. apply (Huniq' k' key e' _ Hk' Hk); by simpl.
Qed.

Lemma upsert_edge_same_name from to name d key :
  edges_between from to d = [(key, ContactEdge.mk from to name)] →
  upsert_edge from to name d = d.
Proof.
  intros Hq. unfold upsert_edge. rewrite Hq. simpl. by rewrite String.eqb_refl.
Qed.


(** ** Adding contacts *)

Ltac stops := left; eexists _, _; split; [|split; [|intros; reflexivity]]; [done|auto].
Ltac goes_on := right; eexists; split; [|intros; reflexivity]; done.

Section Contacts.
Context {phonenumbers : PhoneNumbers}.
Variable ToUpper : string → string.

Lemma AddContactsHandler_as_user header owner cs w :
  AddContactsHandler ToUpper (as_user header owner (AddContactsRequest.mk cs)) w
  = (Respond (add_contacts ToUpper owner cs w).1, (add_contacts ToUpper owner cs w).2).
Proof.
  unfold AddContactsHandler. simpl. by destruct (add_contacts ToUpper owner cs w).
Qed.

(** One round of the loop either ends the request with an error response
    or goes on with the remaining items from some world. *)
Lemma add_contacts_step owner contact w :
  (∃ r w1, Status r ≠ StatusOK
           ∧ ∀ rest, add_contacts ToUpper owner (contact :: rest) w = (r, w1))
  ∨ (∃ w1, ∀ rest, add_contacts ToUpper owner (contact :: rest) w
                   = add_contacts ToUpper owner rest w1).
Proof.
  simpl.
  repeat case_match;
    first [ by right; eexists; intros; reflexivity
          | by left; eexists _, _; split; [|intros; reflexivity] ].
Qed.

Lemma add_contacts_unparseable owner contact rest w :
  parsed ToUpper contact = None →
  add_contacts ToUpper owner (contact :: rest) w = (invalid_number, w).
Proof. unfold parsed. simpl. by intros ->. Qed.

Lemma add_contacts_region_invalid owner contact number rest w :
  parsed ToUpper contact = Some number → region_valid ToUpper contact number = false →
  add_contacts ToUpper owner (contact :: rest) w = add_contacts ToUpper owner rest w.
Proof. unfold parsed, region_valid. simpl. by intros -> ->. Qed.

(** What a round does to the data for a valid item, whatever the fault
    schedule: if it ends the request, the data is as before or has the
    contact's user added; if it goes on, the contact is resolved and its
    edge upserted. *)
Lemma add_contacts_round owner contact number w :
  parsed ToUpper contact = Some number → region_valid ToUpper contact number = true →
  let d1 := (resolve (FormatE164 number) (db w)).2 in
  let d2 := upsert_edge ("users/" +:+ owner) ("users/" +:+ (resolve (FormatE164 number) (db w)).1)
              (Contact.Name contact) d1 in
  (∃ r w1, Status r ≠ StatusOK ∧ (db w1 = db w ∨ db w1 = d1)
           ∧ ∀ rest, add_contacts ToUpper owner (contact :: rest) w = (r, w1))
  ∨ (∃ w1, db w1 = d2
           ∧ ∀ rest, add_contacts ToUpper owner (contact :: rest) w
                     = add_contacts ToUpper owner rest w1).
Proof.
  unfold parsed, region_valid. intros Hp Hv. cbv zeta.
  simpl add_contacts. rewrite Hp, Hv. simpl negb. cbv iota.
  unfold GetOrCreateUser, query_users_by_number, cursor_ReadDocument, CreateUser, users_CreateDocument,
    query_edge, contacts_UpdateDocument, contacts_CreateDocument, upsert_edge, resolve.
  step_call; [stops|].
  destruct (users_by_number (FormatE164 number) (db w)) as [[key u]|] eqn:Hu; simpl;
    (step_call; [stops|]); (step_call; [stops|]);
    (destruct (head (edges_between _ _ _)) as [[ek e]|] eqn:He; simpl;
     [ step_call; [stops|];
       destruct (negb _); simpl; [|goes_on];
       step_call; [stops|];
       unfold col_update; apply col_filter_head_Some in He as [He _]; simpl in He; rewrite He; simpl;
       goes_on
     | step_call; [stops|]; goes_on ]).
Qed.

(** A batch of one valid item that is answered 200 has resolved the contact
    and upserted the edge. *)
Lemma add_contacts_one_added owner contact number w w1 :
  parsed ToUpper contact = Some number → region_valid ToUpper contact number = true →
  add_contacts ToUpper owner [contact] w = (added, w1) →
  db w1 = upsert_edge ("users/" +:+ owner) ("users/" +:+ (resolve (FormatE164 number) (db w)).1)
            (Contact.Name contact) (resolve (FormatE164 number) (db w)).2.
Proof.
  intros Hp Hv Hrun.
  destruct (add_contacts_round owner contact number w Hp Hv)
    as [(r & w' & Hr & _ & Hstop)|(w' & Hdb & Hgo)].
  - rewrite Hstop in Hrun. injection Hrun as -> _. by destruct Hr.
  - rewrite Hgo in Hrun. simpl in Hrun. by injection Hrun as <-.
Qed.

(** On a reliable store a valid item resolves the contact and upserts the
    edge, and the loop goes on. *)
Lemma add_contacts_valid owner contact number rest w :
  reliable w →
  parsed ToUpper contact = Some number → region_valid ToUpper contact number = true →
  add_contacts ToUpper owner (contact :: rest) w
  = add_contacts ToUpper owner rest
      (mkWorld (upsert_edge ("users/" +:+ owner)
                  ("users/" +:+ (resolve (FormatE164 number) (db w)).1)
                  (Contact.Name contact) (resolve (FormatE164 number) (db w)).2) []).
Proof.
  unfold parsed, region_valid. intros Hw Hparse Hvalid. simpl.
  rewrite Hparse, Hvalid. simpl.
  rewrite (GetOrCreateUser_reliable _ w Hw).
  unfold query_edge, upsert_edge. simpl.
  destruct (head (edges_between _ _ _)) as [[key e]|] eqn:Hq; simpl; [|done].
  destruct (negb _); [|done].
  unfold contacts_UpdateDocument, call, col_update. simpl.
  apply col_filter_head_Some in Hq as [-> _]. done.
Qed.

(** The batch up to an unparseable item decides the world the request
    ends in. *)
Lemma add_contacts_abort owner pre bad post w :
  parsed ToUpper bad = None →
  (add_contacts ToUpper owner (pre ++ bad :: post) w).2 = (add_contacts ToUpper owner pre w).2
  ∧ ((add_contacts ToUpper owner pre w).1 = added →
     (add_contacts ToUpper owner (pre ++ bad :: post) w).1 = invalid_number).
Proof.
  intros Hbad. revert w. induction pre as [|contact pre IH]; intros w.
  - rewrite app_nil_l, add_contacts_unparseable by done. done.
  - rewrite <-app_comm_cons.
    destruct (add_contacts_step owner contact w) as [(r & w1 & Hr & Hstop)|(w1 & Hgo)].
    + rewrite !Hstop. split; [done|]. simpl. by intros ->.
    + rewrite !Hgo. apply IH.
Qed.

Lemma add_contacts_reliable owner cs w :
  reliable w →
  Forall (λ contact, is_Some (parsed ToUpper contact)) cs →
  (add_contacts ToUpper owner cs w).1 = added ∧ reliable (add_contacts ToUpper owner cs w).2.
Proof.
  intros Hw Hcs. revert w Hw. induction Hcs as [|contact cs [number Hp] _ IH]; intros w Hw.
  - done.
  - destruct (region_valid ToUpper contact number) eqn:Hv.
    + rewrite (add_contacts_valid _ _ _ _ _ Hw Hp Hv). by apply IH.
    + rewrite (add_contacts_region_invalid _ _ _ _ _ Hp Hv). by apply IH.
Qed.

Lemma add_contacts_skip owner pre skipped number post w :
  parsed ToUpper skipped = Some number → region_valid ToUpper skipped number = false →
  add_contacts ToUpper owner (pre ++ skipped :: post) w = add_contacts ToUpper owner (pre ++ post) w.
Proof.
  intros Hp Hv. revert w. induction pre as [|contact pre IH]; intros w.
  - by rewrite !app_nil_l, (add_contacts_region_invalid _ _ _ _ _ Hp Hv).
  - rewrite <-!app_comm_cons.
    destruct (add_contacts_step owner contact w) as [(r & w1 & Hr & Hstop)|(w1 & Hgo)].
    + by rewrite !Hstop.
    + rewrite !Hgo. apply IH.
Qed.

(** The loop keeps the edge collection free of duplicate pairs, whatever
    the batch and whatever the store does. *)
Lemma add_contacts_edge_unique owner cs w :
  edge_unique (db w) → edge_unique (db (add_contacts ToUpper owner cs w).2).
Proof.
  revert w. induction cs as [|contact cs IH]; intros w Hw; [done|].
  destruct (parsed ToUpper contact) as [number|] eqn:Hp;
    [|by rewrite add_contacts_unparseable].
  destruct (region_valid ToUpper contact number) eqn:Hv;
    [|rewrite (add_contacts_region_invalid _ _ _ _ _ Hp Hv); by apply IH].
  assert (Hd1 : edge_unique (resolve (FormatE164 number) (db w)).2).
  { apply (edge_unique_ext (db w)); [|done]. symmetry. apply resolve_contacts. }
  destruct (add_contacts_round owner contact number w Hp Hv)
    as [(r & w1 & _ & Hdb & Hstop)|(w1 & Hdb & Hgo)].
  - rewrite Hstop. simpl. by destruct Hdb as [-> | ->].
  - rewrite Hgo. apply IH. rewrite Hdb. by apply upsert_edge_unique.
Qed.

Lemma AddContactsHandler_edge_unique c w :
  edge_unique (db w) → edge_unique (db (AddContactsHandler ToUpper c w).2).
Proof.
  intros Hw. unfold AddContactsHandler.
  destruct (BodyParser c) as [req|]; [|done].
  destruct (assert_string (Locals_userKey c)) as [owner|]; [|done].
  pose proof (add_contacts_edge_unique owner (AddContactsRequest.Contacts req) w Hw) as H.
  by destruct (add_contacts ToUpper owner (AddContactsRequest.Contacts req) w).
Qed.
End Contacts.

Section ContactClaims.
Context {phonenumbers : PhoneNumbers}.
Variable ToUpper : string → string.

Abbreviation parsed' := (parsed ToUpper).
Abbreviation region_valid' := (region_valid ToUpper).
Abbreviation AddContacts header owner cs :=
  (AddContactsHandler ToUpper (as_user header owner (AddContactsRequest.mk cs))).

(** C6: when item N of a batch is the first that does not parse, the
    request ends in the world that items 1..N-1 alone lead to (their
    effects stay, nothing is done for items N and later), and it is
    answered 400 whenever items 1..N-1 alone are answered 200, in
    particular on a reliable store. *)
Theorem AddContacts_unparseable_aborts
    (header owner : string) (pre post : list Contact.t) (bad : Contact.t) (w : World) :
  Forall (λ contact, is_Some (parsed' contact)) pre →
  parsed' bad = None →
  (AddContacts header owner (pre ++ bad :: post) w).2 = (AddContacts header owner pre w).2
  ∧ ((AddContacts header owner pre w).1 = Respond added →
     (AddContacts header owner (pre ++ bad :: post) w).1 = Respond invalid_number)
  ∧ (reliable w →
     (AddContacts header owner (pre ++ bad :: post) w).1 = Respond invalid_number).
Proof.
  intros Hpre Hbad. rewrite !AddContactsHandler_as_user. simpl.
  destruct (add_contacts_abort ToUpper owner pre bad post w Hbad) as [Hworld Hresp].
  split; [done|]. split.
  - intros [= Hok]. by rewrite Hresp.
  - intros Hw. rewrite Hresp; [done|].
    by apply (add_contacts_reliable ToUpper owner pre w Hw Hpre).
Qed.

(** C7: an item that parses but is not valid for its region is passed
    over without any store call: the request does exactly what it does
    without the item, and a batch of that item alone is answered 200 in an
    unchanged world. *)
Theorem AddContacts_region_invalid_skipped
    (header owner : string) (pre post : list Contact.t) (skipped : Contact.t)
    (number : PhoneNumber) (w : World) :
  parsed' skipped = Some number →
  region_valid' skipped number = false →
  AddContacts header owner (pre ++ skipped :: post) w = AddContacts header owner (pre ++ post) w
  ∧ AddContacts header owner [skipped] w = (Respond added, w).
Proof.
  intros Hp Hv. rewrite !AddContactsHandler_as_user. split.
  - by rewrite (add_contacts_skip ToUpper owner pre skipped number post w Hp Hv).
  - by rewrite (add_contacts_region_invalid ToUpper owner skipped number [] w Hp Hv).
Qed.

(** C8: start from a store with at most one edge per ordered pair and
    submit a contact under one name, then again under another.  If both
    requests are answered 200 there is exactly one edge from the owner to
    the contact's identity, named as in the second submission, and if the
    two names are the same the second submission leaves the data as it
    was; on a reliable store both requests are answered 200. *)
Theorem AddContacts_dedup_update
    (header owner : string) (first again : Contact.t) (n1 n2 : PhoneNumber) (w : World) :
  edge_unique (db w) →
  parsed' first = Some n1 → region_valid' first n1 = true →
  parsed' again = Some n2 → region_valid' again n2 = true →
  FormatE164 n2 = FormatE164 n1 →
  (∀ w1 w2,
     AddContacts header owner [first] w = (Respond added, w1) →
     AddContacts header owner [again] w1 = (Respond added, w2) →
     ∃ contactKey edgeKey,
       users (db w2) !! contactKey = Some (User.mk (FormatE164 n1))
       ∧ edges_between ("users/" +:+ owner) ("users/" +:+ contactKey) (db w2)
         = [(edgeKey, ContactEdge.mk ("users/" +:+ owner) ("users/" +:+ contactKey) (Contact.Name again))]
       ∧ (Contact.Name again = Contact.Name first → db w2 = db w1))
  ∧ (reliable w →
     ∃ w1 w2,
       AddContacts header owner [first] w = (Respond added, w1)
       ∧ AddContacts header owner [again] w1 = (Respond added, w2)).
Proof.
  intros Huniq Hp1 Hv1 Hp2 Hv2 Hsame.
  set (N := FormatE164 n1) in *.
  set (contactKey := (resolve N (db w)).1).
  set (d := (resolve N (db w)).2).
  set (from := "users/" +:+ owner). set (to := "users/" +:+ contactKey).
  set (d1 := upsert_edge from to (Contact.Name first) d).
  assert (Hd : edge_unique d).
  { apply (edge_unique_ext (db w)); [|done]. symmetry. apply resolve_contacts. }
  assert (Hd1 : edge_unique d1) by by apply upsert_edge_unique.
  assert (Hres : resolve N d1 = (contactKey, d1)).
  { apply (resolve_found _ _ _ (User.mk N)).
    rewrite (users_by_number_ext N d1 d) by apply upsert_edge_users.
    apply users_by_number_resolve. }
  split.
  - intros w1 w2. rewrite !AddContactsHandler_as_user.
    destruct (add_contacts ToUpper owner [first] w) as [r1 w1'] eqn:H1.
    destruct (add_contacts ToUpper owner [again] w1) as [r2 w2'] eqn:H2.
    simpl. intros [= -> ->] [= -> ->].
    apply (add_contacts_one_added ToUpper owner first n1 w w1 Hp1 Hv1) in H1.
    apply (add_contacts_one_added ToUpper owner again n2 w1 w2 Hp2 Hv2) in H2.
    fold N contactKey d from to d1 in H1.
    rewrite Hsame, H1, Hres in H2. simpl in H2. fold from to in H2.
    destruct (upsert_edge_between from to (Contact.Name again) d1 Hd1) as [edgeKey Hedge].
    exists contactKey, edgeKey. rewrite H2. split; [|split].
    + unfold d1. rewrite !upsert_edge_users. apply resolve_lookup.
    + done.
    + intros ->. rewrite H1.
      destruct (upsert_edge_between from to (Contact.Name first) d Hd) as [k Hk].
      by apply (upsert_edge_same_name from to (Contact.Name first) d1 k).
  - intros Hw.
    exists (mkWorld d1 []), (mkWorld (upsert_edge from to (Contact.Name again) d1) []).
    rewrite !AddContactsHandler_as_user. split.
    + by rewrite (add_contacts_valid ToUpper owner first n1 [] w Hw Hp1 Hv1).
    + rewrite (add_contacts_valid ToUpper owner again n2 [] (mkWorld d1 []) eq_refl Hp2 Hv2).
      rewrite Hsame. simpl db. fold N. by rewrite Hres.
Qed.
End ContactClaims.

Lemma AddContacts_unparseable_aborts_witness :
  (AddContactsHandler (phonenumbers := sample_phonenumbers) sample_ToUpper
     (as_user "Bearer signed:5" "5" (AddContactsRequest.mk ([alice] ++ not_a_number :: [carol])))
     fresh_world).2
  = (AddContactsHandler (phonenumbers := sample_phonenumbers) sample_ToUpper
       (as_user "Bearer signed:5" "5" (AddContactsRequest.mk [alice])) fresh_world).2
  ∧ (AddContactsHandler (phonenumbers := sample_phonenumbers) sample_ToUpper
       (as_user "Bearer signed:5" "5" (AddContactsRequest.mk ([alice] ++ not_a_number :: [carol])))
       fresh_world).1
    = Respond invalid_number
  ∧ (AddContactsHandler (phonenumbers := sample_phonenumbers) sample_ToUpper
       (as_user "Bearer signed:5" "5" (AddContactsRequest.mk ([alice] ++ not_a_number :: [carol])))
       fresh_world).1
    = Respond invalid_number.
Proof.
  assert (Hpre : Forall (λ contact, is_Some (parsed (phonenumbers := sample_phonenumbers)
                                               sample_ToUpper contact)) [alice]).
  { constructor; [eexists; vm_compute; reflexivity | constructor]. }
  assert (Hbad : parsed (phonenumbers := sample_phonenumbers) sample_ToUpper not_a_number = None).
  { vm_compute. reflexivity. }
  destruct (AddContacts_unparseable_aborts (phonenumbers := sample_phonenumbers) sample_ToUpper
              "Bearer signed:5" "5" [alice] [carol] not_a_number fresh_world Hpre Hbad)
    as (Hworld & Hafter & Hreliable).
  split; [exact Hworld|]. split.
  - apply Hafter. vm_compute. reflexivity.
  - apply Hreliable. reflexivity.
Defined.

Lemma AddContacts_region_invalid_skipped_witness :
  AddContactsHandler (phonenumbers := sample_phonenumbers) sample_ToUpper
    (as_user "Bearer signed:5" "5" (AddContactsRequest.mk ([alice] ++ wrong_region :: [carol])))
    fresh_world
  = AddContactsHandler (phonenumbers := sample_phonenumbers) sample_ToUpper
      (as_user "Bearer signed:5" "5" (AddContactsRequest.mk ([alice] ++ [carol]))) fresh_world
  ∧ AddContactsHandler (phonenumbers := sample_phonenumbers) sample_ToUpper
      (as_user "Bearer signed:5" "5" (AddContactsRequest.mk [wrong_region])) fresh_world
    = (Respond added, fresh_world).
Proof.
  apply (AddContacts_region_invalid_skipped (phonenumbers := sample_phonenumbers) sample_ToUpper
           "Bearer signed:5" "5" [alice] [carol] wrong_region "+46700000003" fresh_world).
  - vm_compute. reflexivity.
  - vm_compute. reflexivity.
Defined.

Lemma AddContacts_dedup_update_witness :
  (∃ contactKey edgeKey,
     users (db bob_added) !! contactKey = Some (User.mk "+46700000001")
     ∧ edges_between ("users/" +:+ "5") ("users/" +:+ contactKey) (db bob_added)
       = [(edgeKey, ContactEdge.mk ("users/" +:+ "5") ("users/" +:+ contactKey) "Bob")]
     ∧ (Contact.Name alice_as_bob = Contact.Name alice → db bob_added = db alice_added))
  ∧ ∃ w1 w2,
      AddContactsHandler (phonenumbers := sample_phonenumbers) sample_ToUpper
        (as_user "Bearer signed:5" "5" (AddContactsRequest.mk [alice])) fresh_world
      = (Respond added, w1)
      ∧ AddContactsHandler (phonenumbers := sample_phonenumbers) sample_ToUpper
          (as_user "Bearer signed:5" "5" (AddContactsRequest.mk [alice_as_bob])) w1
        = (Respond added, w2).
Proof.
  destruct (AddContacts_dedup_update (phonenumbers := sample_phonenumbers) sample_ToUpper
              "Bearer signed:5" "5" alice alice_as_bob "+46700000001" "+46700000001" fresh_world)
    as [Hone Hboth].
  - apply edge_unique_empty.
  - vm_compute. reflexivity.
  - vm_compute. reflexivity.
  - vm_compute. reflexivity.
  - vm_compute. reflexivity.
  - reflexivity.
  - split.
    + apply (Hone alice_added bob_added); vm_compute; reflexivity.
    + apply Hboth. reflexivity.
Defined.

(** The same two submissions, evaluated. *)
Example AddContacts_alice_then_bob :
  AddContactsHandler (phonenumbers := sample_phonenumbers) sample_ToUpper
    (as_user "Bearer signed:5" "5" (AddContactsRequest.mk [alice])) fresh_world
  = (Respond added, alice_added)
  ∧ AddContactsHandler (phonenumbers := sample_phonenumbers) sample_ToUpper
      (as_user "Bearer signed:5" "5" (AddContactsRequest.mk [alice_as_bob])) alice_added
    = (Respond added, bob_added)
  ∧ map_to_list (contacts (db bob_added)) = [("0", ContactEdge.mk "users/5" "users/0" "Bob")].
Proof.
  split; [vm_compute; reflexivity|]. split; vm_compute; reflexivity.
Qed.

(** ** Reading contacts *)

Lemma strip_prefix_app p s : strip_prefix p (p +:+ s) = Some s.
Proof.
  induction p as [|a p IH]; [done|]. simpl. by rewrite Ascii.eqb_refl.
Qed.

(** An edge to a stored user is reported under that user's key. *)
Lemma vertex_key_user key u d :
  users d !! key = Some u → vertex_key ("users/" +:+ key) d = key.
Proof.
  intros Hu. unfold vertex_key. by rewrite (strip_prefix_app "users/" key), Hu.
Qed.

Lemma elem_of_outbound user d row :
  row ∈ outbound user d ↔
  ∃ key e, contacts d !! key = Some e ∧ ContactEdge.From e = user
           ∧ row = GetContactsResult.mk (ContactEdge.Name e) (vertex_key (ContactEdge.To e) d).
Proof.
  unfold outbound. rewrite list_elem_of_fmap. split.
  - intros [[key e] [-> [Hk He]%elem_of_col_filter]]. apply String.eqb_eq in He.
    by exists key, e.
  - intros (key & e & Hk & He & ->). exists (key, e). split; [done|].
    apply elem_of_col_filter. split; [done|]. by apply String.eqb_eq.
Qed.

Lemma read_contacts_reliable cursor result w :
  reliable w → read_contacts cursor result w = (Ok (result ++ cursor)%list, mkWorld (db w) []).
Proof.
  revert result w. induction cursor as [|row cursor IH]; intros result w Hw.
  - simpl. unfold cursor_NoMoreDocuments. rewrite (call_reliable _ w Hw). simpl.
    by rewrite app_nil_r.
  - simpl. unfold cursor_ReadDocument. rewrite (call_reliable _ w Hw). simpl.
    rewrite IH by done. simpl. by rewrite <-app_assoc.
Qed.

(** The handler never looks at the identity the middleware stored. *)
Lemma GetContactsHandler_ignores_locals header header' locals locals' body w :
  GetContactsHandler (mkCtx header locals body) w = GetContactsHandler (mkCtx header' locals' body) w.
Proof. reflexivity. Qed.

(** C1, as amended: an admitted GET /api/contacts request whose body
    decodes is answered, on a reliable store, with the one-hop list of the
    identity named by the body's [user_key]: one row for each edge leaving
    [users/<user_key>], with the edge's name and the key of the user it
    points to.  The identity in the token is not consulted. *)
Theorem GetContacts_lists_requested_identity {jwt : JWT}
    (now : Z) (c c' : Ctx GetContactsRequest.t) (req : GetContactsRequest.t) (w : World) :
  AuthMiddleware now c = Next c' →
  BodyParser c = Some req →
  reliable w →
  let user := "users/" +:+ GetContactsRequest.UserKey req in
  api GetContactsHandler now c w
  = (Respond (mkResponse StatusOK (JsonContacts (outbound user (db w)))), w)
  ∧ ∀ row, row ∈ outbound user (db w) ↔
      ∃ key e, contacts (db w) !! key = Some e ∧ ContactEdge.From e = user
               ∧ row = GetContactsResult.mk (ContactEdge.Name e) (vertex_key (ContactEdge.To e) (db w)).
Proof.
  intros Hauth Hbody Hw user. split; [|intros row; apply elem_of_outbound].
  pose proof (AuthMiddleware_Next_body now c c' Hauth) as Hbody'. rewrite Hbody in Hbody'.
  unfold api. rewrite Hauth. unfold GetContactsHandler. rewrite Hbody'.
  unfold query_outbound. rewrite (call_reliable _ w Hw). simpl.
  rewrite read_contacts_reliable by done. simpl. by rewrite reliable_eta.
Qed.

Lemma GetContacts_lists_requested_identity_witness :
  api (jwt := sample_jwt) GetContactsHandler 0 one_asks_for_two graph
  = (Respond (mkResponse StatusOK (JsonContacts (outbound ("users/" +:+ "2") (db graph)))), graph)
  ∧ ∀ row, row ∈ outbound ("users/" +:+ "2") (db graph) ↔
      ∃ key e, contacts (db graph) !! key = Some e ∧ ContactEdge.From e = "users/" +:+ "2"
               ∧ row = GetContactsResult.mk (ContactEdge.Name e)
                         (vertex_key (ContactEdge.To e) (db graph)).
Proof.
  apply (GetContacts_lists_requested_identity (jwt := sample_jwt) 0 one_asks_for_two
           (as_user "Bearer signed:1" "1" (GetContactsRequest.mk "2"))
           (GetContactsRequest.mk "2") graph).
  - vm_compute. reflexivity.
  - reflexivity.
  - reflexivity.
Defined.

(** C1 as stated fails: the middleware admits the request with the identity
    [1] of the token, and the answer is the contact list of user [2] named
    in the body, which is not the list of user [1]. *)
Lemma GetContacts_not_for_bearer_identity :
  AuthMiddleware (jwt := sample_jwt) 0 one_asks_for_two
  = Next (as_user "Bearer signed:1" "1" (GetContactsRequest.mk "2"))
  ∧ (api (jwt := sample_jwt) GetContactsHandler 0 one_asks_for_two graph).1
    = Respond (mkResponse StatusOK (JsonContacts [GetContactsResult.mk "Bob" "3"]))
  ∧ outbound ("users/" +:+ "1") (db graph) = []
  ∧ (api (jwt := sample_jwt) GetContactsHandler 0 one_asks_for_two graph).1
    ≠ Respond (mkResponse StatusOK (JsonContacts (outbound ("users/" +:+ "1") (db graph)))).
Proof.
  split; [vm_compute; reflexivity|]. split; [vm_compute; reflexivity|].
  split; [vm_compute; reflexivity|]. vm_compute. discriminate.
Qed.

(** ** Cancelling and creating attempts *)

(** X1: cancelling removes exactly the attempt named and answers 200; a
    missing attempt is answered 404 and a failed store call 500, both with
    the data untouched. *)
Theorem CancelVerificationHandler_outcomes
    (header : string) (locals : option ClaimValue) (req : CancelVerificationRequest.t) (w : World) :
  let key := CancelVerificationRequest.AttemptKey req in
  let c := mkCtx header locals (Some req) in
  (∀ a, next_call_ok w → verification_attempts (db w) !! key = Some a →
     ∃ w1, CancelVerificationHandler c w
           = (Respond (mkResponse StatusOK (JsonMessage "Verification canceled")), w1)
           ∧ verification_attempts (db w1) = delete key (verification_attempts (db w))
           ∧ users (db w1) = users (db w) ∧ contacts (db w1) = contacts (db w))
  ∧ (next_call_ok w → verification_attempts (db w) !! key = None →
     ∃ w1, CancelVerificationHandler c w
           = (Respond (mkResponse StatusNotFound (JsonError "Attempt not found")), w1)
           ∧ db w1 = db w)
  ∧ (head (faults w) = Some true →
     ∃ w1, CancelVerificationHandler c w
           = (Respond (mkResponse StatusInternalServerError
                         (JsonError "Failed to cancel verification attempt")), w1)
           ∧ db w1 = db w).
Proof.
  intros key c. split; [|split].
  - intros a Hok Ha.
    destruct (DeleteDocument_present key a w Hok Ha) as (w1 & Hdel & Hrest).
    exists w1. unfold CancelVerificationHandler. simpl. fold key. by rewrite Hdel.
  - intros Hok Hnone. by apply CancelVerificationHandler_missing_attempt.
  - intros Hfault. unfold CancelVerificationHandler, verification_attempts_DeleteDocument. simpl.
    destruct (faults w) as [|[] fs] eqn:Hf; try done.
    rewrite (call_fault _ w fs Hf). by eexists.
Qed.

Lemma CancelVerificationHandler_outcomes_witness :
  (∃ w1, CancelVerificationHandler cancel_17 (pending [])
         = (Respond (mkResponse StatusOK (JsonMessage "Verification canceled")), w1)
         ∧ verification_attempts (db w1) = delete "17" (verification_attempts (db (pending [])))
         ∧ users (db w1) = users (db (pending [])) ∧ contacts (db w1) = contacts (db (pending [])))
  ∧ (∃ w1, CancelVerificationHandler cancel_17 fresh_world
           = (Respond (mkResponse StatusNotFound (JsonError "Attempt not found")), w1)
           ∧ db w1 = db fresh_world)
  ∧ (∃ w1, CancelVerificationHandler cancel_17 (pending [true])
           = (Respond (mkResponse StatusInternalServerError
                         (JsonError "Failed to cancel verification attempt")), w1)
           ∧ db w1 = db (pending [true])).
Proof.
  destruct (CancelVerificationHandler_outcomes "" None (CancelVerificationRequest.mk "17") (pending []))
    as (Hpresent & _ & _).
  destruct (CancelVerificationHandler_outcomes "" None (CancelVerificationRequest.mk "17") fresh_world)
    as (_ & Hmissing & _).
  destruct (CancelVerificationHandler_outcomes "" None (CancelVerificationRequest.mk "17") (pending [true]))
    as (_ & _ & Hfailed).
  split; [|split].
  - apply (Hpresent sample_attempt); [vm_compute; discriminate | reflexivity].
  - apply Hmissing; [vm_compute; discriminate | reflexivity].
  - apply Hfailed. reflexivity.
Defined.

(** X2: once an attempt is cancelled on a reliable store it is gone for
    good: verifying it, with any code at any time, is answered 500 without
    a token, and cancelling it again is answered 404. *)
Theorem cancelled_attempt_is_consumed {jwt : JWT}
    (header : string) (locals : option ClaimValue) (key : string)
    (a : VerificationAttempt.t) (w : World) :
  reliable w →
  verification_attempts (db w) !! key = Some a →
  ∃ w1,
    CancelVerificationHandler (mkCtx header locals (Some (CancelVerificationRequest.mk key))) w
    = (Respond (mkResponse StatusOK (JsonMessage "Verification canceled")), w1)
    ∧ (∀ now code, ∃ w2,
         VerifyRequestHandler now (mkCtx header locals (Some (VerifyRequest.mk key code))) w1
         = (Respond (mkResponse StatusInternalServerError (JsonError "Failed to verify code")), w2)
         ∧ db w2 = db w1)
    ∧ CancelVerificationHandler (mkCtx header locals (Some (CancelVerificationRequest.mk key))) w1
      = (Respond (mkResponse StatusNotFound (JsonError "Attempt not found")), w1).
Proof.
  intros Hw Ha.
  unfold CancelVerificationHandler at 1. unfold verification_attempts_DeleteDocument. simpl.
  rewrite (call_reliable _ w Hw). unfold col_delete. simpl. rewrite Ha. simpl.
  eexists. split; [reflexivity|].
  set (w1 := mkWorld _ []).
  assert (Hgone : verification_attempts (db w1) !! key = None) by apply lookup_delete_eq.
  split.
  - intros now code.
    by apply (VerifyRequestHandler_missing_attempt now header locals (VerifyRequest.mk key code) w1).
  - unfold CancelVerificationHandler, verification_attempts_DeleteDocument. simpl.
    rewrite (call_reliable _ w1 eq_refl). unfold col_delete. rewrite Hgone. reflexivity.
Qed.

Lemma cancelled_attempt_is_consumed_witness :
  ∃ w1,
    CancelVerificationHandler cancel_17 (pending [])
    = (Respond (mkResponse StatusOK (JsonMessage "Verification canceled")), w1)
    ∧ (∀ now code, ∃ w2,
         VerifyRequestHandler (jwt := sample_jwt) now
           (mkCtx "" None (Some (VerifyRequest.mk "17" code))) w1
         = (Respond (mkResponse StatusInternalServerError (JsonError "Failed to verify code")), w2)
         ∧ db w2 = db w1)
    ∧ CancelVerificationHandler cancel_17 w1
      = (Respond (mkResponse StatusNotFound (JsonError "Attempt not found")), w1).
Proof.
  apply (cancelled_attempt_is_consumed (jwt := sample_jwt) "" None "17" sample_attempt (pending [])).
  - reflexivity.
  - reflexivity.
Defined.

Lemma CreateVerificationAttempt_Ok now draw number w w1 key :
  CreateVerificationAttempt now draw number w = (Ok key, w1) →
  ∃ n, draw = Some n
       ∧ verification_attempts (db w) !! key = None
       ∧ verification_attempts (db w1)
         = <[key := VerificationAttempt.mk "" number (Sprintf_06d n) now]>
             (verification_attempts (db w))
       ∧ users (db w1) = users (db w) ∧ contacts (db w1) = contacts (db w).
Proof.
  unfold CreateVerificationAttempt, verification_attempts_CreateDocument.
  destruct draw as [n|]; [|done].
  step_call; [done|]. intros [= <- <-]. exists n. simpl.
  split; [done|]. split; [apply not_elem_of_dom, is_fresh|done].
Qed.

Lemma CreateVerificationAttempt_Err now draw number w w1 e :
  CreateVerificationAttempt now draw number w = (Err e, w1) → db w1 = db w.
Proof.
  unfold CreateVerificationAttempt, verification_attempts_CreateDocument.
  destruct draw as [n|]; [|by intros [= _ <-]].
  step_call; [by intros [= _ <-]|done].
Qed.

(** X3: [CreateVerificationAttempt] never overwrites: when it returns a
    key, the key was unused and the collection is the old one with the new
    attempt (the number given, the six digits of the draw, created now)
    added under it; when it returns an error the data is untouched. *)
Theorem CreateVerificationAttempt_adds_one
    (now : Z) (draw : option Z) (number : string) (w w1 : World) :
  (∀ key, CreateVerificationAttempt now draw number w = (Ok key, w1) →
     ∃ n, draw = Some n
          ∧ verification_attempts (db w) !! key = None
          ∧ verification_attempts (db w1)
            = <[key := VerificationAttempt.mk "" number (Sprintf_06d n) now]>
                (verification_attempts (db w))
          ∧ users (db w1) = users (db w) ∧ contacts (db w1) = contacts (db w))
  ∧ (∀ e, CreateVerificationAttempt now draw number w = (Err e, w1) → db w1 = db w).
Proof.
  split.
  - intros key. apply CreateVerificationAttempt_Ok.
  - intros e. apply CreateVerificationAttempt_Err.
Qed.

Lemma CreateVerificationAttempt_adds_one_witness :
  (∃ n, Some 42 = Some n
        ∧ verification_attempts (db (pending [])) !! "0" = None
        ∧ verification_attempts
            (db (mkWorld (mkDatabase ∅ ∅
                            (<["0" := VerificationAttempt.mk "" "+46700000001" "000042" 5000]>
                               {[ "17" := sample_attempt ]})) []))
          = <["0" := VerificationAttempt.mk "" "+46700000001" (Sprintf_06d n) 5000]>
              (verification_attempts (db (pending [])))
        ∧ users (db (mkWorld (mkDatabase ∅ ∅
                                (<["0" := VerificationAttempt.mk "" "+46700000001" "000042" 5000]>
                                   {[ "17" := sample_attempt ]})) []))
          = users (db (pending []))
        ∧ contacts (db (mkWorld (mkDatabase ∅ ∅
                                   (<["0" := VerificationAttempt.mk "" "+46700000001" "000042" 5000]>
                                      {[ "17" := sample_attempt ]})) []))
          = contacts (db (pending [])))
  ∧ db (pending []) = db (pending [true]).
Proof.
  split.
  - apply (CreateVerificationAttempt_adds_one 5000 (Some 42) "+46700000001" (pending [])
             (mkWorld (mkDatabase ∅ ∅
                         (<["0" := VerificationAttempt.mk "" "+46700000001" "000042" 5000]>
                            {[ "17" := sample_attempt ]})) [])).
    vm_compute. reflexivity.
  - apply (CreateVerificationAttempt_adds_one 5000 (Some 42) "+46700000001" (pending [true])
             (pending []) ) with (e := Failure).
    vm_compute. reflexivity.
Defined.

Lemma nat_of_digit k : Ascii.nat_of_ascii (digit k) = (48 + Z.to_nat (k `mod` 10))%nat.
Proof.
  unfold digit. apply Ascii.nat_ascii_embedding.
  pose proof (Z.mod_pos_bound k 10 eq_refl). lia.
Qed.

Lemma is_digit_digit k : is_digit (digit k) = true.
Proof.
  unfold is_digit. rewrite nat_of_digit.
  pose proof (Z.mod_pos_bound k 10 eq_refl).
  apply andb_true_iff. split; apply Nat.leb_le; lia.
Qed.

Lemma digit_value k : Z.of_nat (Ascii.nat_of_ascii (digit k)) - 48 = k `mod` 10.
Proof.
  rewrite nat_of_digit. pose proof (Z.mod_pos_bound k 10 eq_refl). lia.
Qed.

Lemma Sprintf_06d_value n : 0 ≤ n < 1000000 → digits_value 0 (Sprintf_06d n) = n.
Proof.
  intros Hn. unfold Sprintf_06d. simpl digits_value. rewrite !digit_value.
  pose proof (Z.div_mod n 10 ltac:(lia)) as H0.
  pose proof (Z.div_mod (n `div` 10) 10 ltac:(lia)) as H1.
  pose proof (Z.div_mod (n `div` 100) 10 ltac:(lia)) as H2.
  pose proof (Z.div_mod (n `div` 1000) 10 ltac:(lia)) as H3.
  pose proof (Z.div_mod (n `div` 10000) 10 ltac:(lia)) as H4.
  assert (E1 : (n `div` 10) `div` 10 = n `div` 100) by (rewrite Z.div_div by lia; reflexivity).
  assert (E2 : (n `div` 100) `div` 10 = n `div` 1000) by (rewrite Z.div_div by lia; reflexivity).
  assert (E3 : (n `div` 1000) `div` 10 = n `div` 10000) by (rewrite Z.div_div by lia; reflexivity).
  assert (E4 : (n `div` 10000) `div` 10 = n `div` 100000) by (rewrite Z.div_div by lia; reflexivity).
  rewrite E1 in H1. rewrite E2 in H2. rewrite E3 in H3. rewrite E4 in H4.
  assert (H5 : (n `div` 100000) `mod` 10 = n `div` 100000).
  { apply Z.mod_small. split; [apply Z.div_pos; lia|apply Z.div_lt_upper_bound; lia]. }
  rewrite H5.
  generalize dependent (n `div` 100000). generalize dependent (n `div` 10000).
  generalize dependent (n `div` 1000). generalize dependent (n `div` 100).
  generalize dependent (n `div` 10).
  intros. lia.
Qed.

(** X4: for a draw in range, the code of the attempt that
    [CreateVerificationAttempt] stores on a reliable store is six decimal
    digits that write the draw, so distinct draws give distinct codes. *)
Theorem CreateVerificationAttempt_code_six_digits
    (now n : Z) (number : string) (w : World) :
  reliable w →
  0 ≤ n < 1000000 →
  ∃ key w1 a,
    CreateVerificationAttempt now (Some n) number w = (Ok key, w1)
    ∧ verification_attempts (db w1) !! key = Some a
    ∧ String.length (VerificationAttempt.Code a) = 6%nat
    ∧ all_digits (VerificationAttempt.Code a) = true
    ∧ digits_value 0 (VerificationAttempt.Code a) = n.
Proof.
  intros Hw Hn.
  destruct (CreateVerificationAttempt_reliable now n number w Hw) as (key & w1 & Hrun & _ & Ha).
  exists key, w1, (VerificationAttempt.mk "" number (Sprintf_06d n) now).
  split; [exact Hrun|]. split; [exact Ha|].
  change (VerificationAttempt.Code _) with (Sprintf_06d n).
  split; [reflexivity|]. split.
  - unfold Sprintf_06d, all_digits. rewrite !is_digit_digit. reflexivity.
  - apply Sprintf_06d_value, Hn.
Qed.

Lemma CreateVerificationAttempt_code_six_digits_witness :
  ∃ key w1 a,
    CreateVerificationAttempt 5000 (Some 42) "+46700000001" (pending []) = (Ok key, w1)
    ∧ verification_attempts (db w1) !! key = Some a
    ∧ String.length (VerificationAttempt.Code a) = 6%nat
    ∧ all_digits (VerificationAttempt.Code a) = true
    ∧ digits_value 0 (VerificationAttempt.Code a) = 42.
Proof.
  apply (CreateVerificationAttempt_code_six_digits 5000 42 "+46700000001" (pending [])).
  - reflexivity.
  - lia.
Defined.

(** ** Requesting and completing a verification *)

Section Requesting.
Context {phonenumbers : PhoneNumbers} {jwt : JWT}.

(** X5: [RequestVerificationHandler] answers 200 only for a number that
    parses and is valid for the fixed region ["SE"], and then it has added
    exactly one attempt, for the E.164 form of the number, under the key it
    returns; any other answer leaves the data untouched. *)
Theorem RequestVerificationHandler_effect
    (now : Z) (draw : option Z) (c : Ctx RequestVerificationRequest.t) (w w1 : World) (r : Response) :
  RequestVerificationHandler now draw c w = (Respond r, w1) →
  (Status r = StatusOK →
     ∃ req number n key,
       BodyParser c = Some req
       ∧ Parse (RequestVerificationRequest.Number req) "SE" = Some number
       ∧ IsValidNumberForRegion number "SE" = true
       ∧ draw = Some n
       ∧ Json r = JsonAttempt "Verifcation code sent" key
       ∧ verification_attempts (db w) !! key = None
       ∧ verification_attempts (db w1)
         = <[key := VerificationAttempt.mk "" (FormatE164 number) (Sprintf_06d n) now]>
             (verification_attempts (db w))
       ∧ users (db w1) = users (db w) ∧ contacts (db w1) = contacts (db w))
  ∧ (Status r ≠ StatusOK → db w1 = db w).
Proof.
  unfold RequestVerificationHandler.
  destruct (BodyParser c) as [req|]; [|by intros [= <- <-]].
  destruct (Parse (RequestVerificationRequest.Number req) "SE") as [number|] eqn:Hp;
    [|by intros [= <- <-]].
  destruct (IsValidNumberForRegion number "SE") eqn:Hv; simpl; [|by intros [= <- <-]].
  destruct (CreateVerificationAttempt now draw (FormatE164 number) w) as [[key|e] w'] eqn:Hrun;
    intros [= <- <-].
  - split; [|done]. intros _.
    destruct (CreateVerificationAttempt_Ok now draw (FormatE164 number) w w' key Hrun)
      as (n & -> & Hfresh & Hadd & Hu & Hc).
    by exists req, number, n, key.
  - split; [done|]. intros _.
    by apply (CreateVerificationAttempt_Err now draw (FormatE164 number) w w' e).
Qed.
End Requesting.

Lemma RequestVerificationHandler_effect_witness :
  (∃ req number n key,
     BodyParser claim_request = Some req
     ∧ Parse (PhoneNumbers := sample_phonenumbers) (RequestVerificationRequest.Number req) "SE"
       = Some number
     ∧ IsValidNumberForRegion (PhoneNumbers := sample_phonenumbers) number "SE" = true
     ∧ Some 42 = Some n
     ∧ Json (mkResponse StatusOK (JsonAttempt "Verifcation code sent" "0"))
       = JsonAttempt "Verifcation code sent" key
     ∧ verification_attempts (db fresh_world) !! key = None
     ∧ verification_attempts
         (db (mkWorld (mkDatabase ∅ ∅
                         {[ "0" := VerificationAttempt.mk "" "+46701234567" "000042" 5000 ]}) []))
       = <[key := VerificationAttempt.mk "" (FormatE164 (PhoneNumbers := sample_phonenumbers) number)
                    (Sprintf_06d n) 5000]>
           (verification_attempts (db fresh_world))
     ∧ users (db (mkWorld (mkDatabase ∅ ∅
                             {[ "0" := VerificationAttempt.mk "" "+46701234567" "000042" 5000 ]}) []))
       = users (db fresh_world)
     ∧ contacts (db (mkWorld (mkDatabase ∅ ∅
                                {[ "0" := VerificationAttempt.mk "" "+46701234567" "000042" 5000 ]}) []))
       = contacts (db fresh_world))
  ∧ db (pending []) = db (pending [true]).
Proof.
  split.
  - apply (RequestVerificationHandler_effect (phonenumbers := sample_phonenumbers)
             5000 (Some 42) claim_request fresh_world
             (mkWorld (mkDatabase ∅ ∅
                         {[ "0" := VerificationAttempt.mk "" "+46701234567" "000042" 5000 ]}) [])
             (mkResponse StatusOK (JsonAttempt "Verifcation code sent" "0"))).
    + vm_compute. reflexivity.
    + reflexivity.
  - apply (RequestVerificationHandler_effect (phonenumbers := sample_phonenumbers)
             5000 (Some 42) claim_request (pending [true]) (pending [])
             (mkResponse StatusInternalServerError
                (JsonError "Failed to create verification attempt"))).
    + vm_compute. reflexivity.
    + vm_compute. discriminate.
Defined.

Lemma resolve_users_ext number d d' :
  users d = users d' →
  (resolve number d).1 = (resolve number d').1
  ∧ users (resolve number d).2 = users (resolve number d').2.
Proof.
  intros H. unfold resolve. rewrite (users_by_number_ext number d d' H).
  destruct (users_by_number number d') as [[key u]|]; simpl; [done|]. by rewrite H.
Qed.

Lemma resolve_verification_attempts number d :
  verification_attempts (resolve number d).2 = verification_attempts d.
Proof. unfold resolve. by destruct (users_by_number number d) as [[??]|]. Qed.

Section Verifying.
Context {phonenumbers : PhoneNumbers} {jwt : JWT}.

(** What a verify request with the stored code does before expiry on a
    reliable store. *)
Lemma VerifyRequestHandler_reliable now header locals key a w :
  reliable w →
  verification_attempts (db w) !! key = Some a →
  now ≤ VerificationAttempt.CreatedAt a + 5 * minute →
  let userKey := (resolve (VerificationAttempt.Number a) (db w)).1 in
  ∃ w1,
    VerifyRequestHandler now
      (mkCtx header locals (Some (VerifyRequest.mk key (VerificationAttempt.Code a)))) w
    = (Respond (match GenerateJWT now userKey with
                | Some token => verified token
                | None => login_failed
                end), w1)
    ∧ reliable w1
    ∧ verification_attempts (db w1) = delete key (verification_attempts (db w))
    ∧ users (db w1) = users (resolve (VerificationAttempt.Number a) (db w)).2
    ∧ contacts (db w1) = contacts (db w)
    ∧ users (db w1) !! userKey = Some (User.mk (VerificationAttempt.Number a)).
Proof.
  intros Hw Ha Hearly userKey.
  unfold VerifyRequestHandler, verification_attempts_ReadDocument. simpl.
  rewrite (call_reliable _ w Hw). unfold col_read. simpl. rewrite Ha.
  unfold VerifyCode. simpl.
  apply (not_expired_iff now a) in Hearly. rewrite Hearly, String.eqb_refl.
  unfold verification_attempts_DeleteDocument, call, col_delete. simpl. rewrite Ha. simpl.
  set (d2 := set_verification_attempts _ (db w)).
  rewrite (GetOrCreateUser_reliable _ (mkWorld d2 []) eq_refl). simpl db.
  destruct (resolve_users_ext (VerificationAttempt.Number a) d2 (db w) eq_refl) as [Hkey Husers].
  rewrite Hkey. fold userKey.
  exists (mkWorld (resolve (VerificationAttempt.Number a) d2).2 []).
  split; [by destruct (GenerateJWT now userKey)|]. split; [done|]. simpl.
  split; [by rewrite resolve_verification_attempts|]. split; [done|].
  split; [by rewrite resolve_contacts|].
  rewrite Husers. apply resolve_lookup.
Qed.

(** X6: with the stored code before expiry, on a reliable store, the verify
    request consumes the attempt and leaves a user for the attempt's number
    (the one already stored for it, if any) whether or not the token can be
    signed: 200 with the token when it can, 500 when it cannot. *)
Theorem VerifyRequestHandler_accepts
    (now : Z) (header : string) (locals : option ClaimValue) (key : string)
    (a : VerificationAttempt.t) (w : World) :
  reliable w →
  verification_attempts (db w) !! key = Some a →
  now ≤ VerificationAttempt.CreatedAt a + 5 * minute →
  let userKey := (resolve (VerificationAttempt.Number a) (db w)).1 in
  ∃ w1,
    VerifyRequestHandler now
      (mkCtx header locals (Some (VerifyRequest.mk key (VerificationAttempt.Code a)))) w
    = (Respond (match GenerateJWT now userKey with
                | Some token => verified token
                | None => login_failed
                end), w1)
    ∧ verification_attempts (db w1) = delete key (verification_attempts (db w))
    ∧ users (db w1) !! userKey = Some (User.mk (VerificationAttempt.Number a))
    ∧ (∀ k u, users (db w) !! k = Some u → users (db w1) !! k = Some u)
    ∧ (∀ k u, users (db w) !! k = Some u →
         User.Number u = VerificationAttempt.Number a → users (db w1) = users (db w))
    ∧ contacts (db w1) = contacts (db w).
Proof.
  intros Hw Ha Hearly userKey.
  destruct (VerifyRequestHandler_reliable now header locals key a w Hw Ha Hearly)
    as (w1 & Hrun & _ & Hatt & Husers & Hcontacts & Hlookup).
  exists w1. split; [done|]. split; [done|]. split; [done|]. split; [|split; [|done]].
  - intros k u Hk. rewrite Husers. unfold resolve.
    destruct (users_by_number _ (db w)) as [[key' u']|]; simpl; [done|].
    rewrite lookup_insert_ne; [done|]. intros <-. by rewrite fresh_key_unused in Hk.
  - intros k u Hk Hnum. rewrite Husers. unfold resolve.
    destruct (users_by_number _ (db w)) as [[key' u']|] eqn:Hq; simpl; [done|].
    pose proof (col_filter_head_None _ _ _ _ Hq Hk) as Hno. simpl in Hno.
    apply String.eqb_neq in Hno. by destruct Hno.
Qed.

(** X7: under any fault schedule, a verify request is answered 200 only if
    the attempt named was in the store with the code supplied and had not
    expired, and then the token is the one [GenerateJWT] gives for the key
    of a stored user whose number is the attempt's. *)
Theorem VerifyRequestHandler_token_sound
    (now : Z) (c : Ctx VerifyRequest.t) (w w1 : World) (r : Response) :
  VerifyRequestHandler now c w = (Respond r, w1) →
  Status r = StatusOK →
  ∃ req a userKey token,
    BodyParser c = Some req
    ∧ verification_attempts (db w) !! VerifyRequest.AttemptKey req = Some a
    ∧ VerificationAttempt.Code a = VerifyRequest.Code req
    ∧ now ≤ VerificationAttempt.CreatedAt a + 5 * minute
    ∧ GenerateJWT now userKey = Some token
    ∧ r = verified token
    ∧ users (db w1) !! userKey = Some (User.mk (VerificationAttempt.Number a)).
Proof.
  unfold VerifyRequestHandler.
  destruct (BodyParser c) as [req|]; [|by intros [= <- <-]].
  unfold verification_attempts_ReadDocument.
  step_call; [by intros [= <- <-]|].
  unfold col_read. destruct (verification_attempts (db w) !! _) as [a|] eqn:Ha; simpl;
    [|by intros [= <- <-]].
  unfold VerifyCode. simpl.
  destruct (_ <? now) eqn:Hexp.
  { destruct (verification_attempts_DeleteDocument _ _) as [? ?]. by intros [= <- <-]. }
  destruct (String.eqb_spec (VerificationAttempt.Code a) (VerifyRequest.Code req)) as [Hcode|_];
    [|by intros [= <- <-]].
  destruct (verification_attempts_DeleteDocument _ _) as [? w2].
  destruct (GetOrCreateUser (VerificationAttempt.Number a) w2) as [[userKey|e] w3] eqn:Hres;
    [|by intros [= <- <-]].
  destruct (GenerateJWT now userKey) as [token|] eqn:Hsign; [|by intros [= <- <-]].
  intros [= <- <-] _. exists req, a, userKey, token.
  split; [done|]. split; [done|]. split; [done|].
  split; [by apply (not_expired_iff now a)|]. split; [done|]. split; [done|].
  apply GetOrCreateUser_Ok in Hres.
  pose proof (resolve_lookup (VerificationAttempt.Number a) (db w2)) as Hlookup.
  by rewrite Hres in Hlookup.
Qed.
End Verifying.

Section SigningUp.
Context {phonenumbers : PhoneNumbers} {jwt : JWT}.


Lemma RequestVerificationHandler_reliable now n header locals raw number w :
  reliable w →
  Parse raw "SE" = Some number → IsValidNumberForRegion number "SE" = true →
  ∃ key w1,
    RequestVerificationHandler now (Some n)
      (mkCtx header locals (Some (RequestVerificationRequest.mk raw))) w
    = (Respond (mkResponse StatusOK (JsonAttempt "Verifcation code sent" key)), w1)
    ∧ reliable w1
    ∧ verification_attempts (db w1) !! key
      = Some (VerificationAttempt.mk "" (FormatE164 number) (Sprintf_06d n) now)
    ∧ users (db w1) = users (db w) ∧ contacts (db w1) = contacts (db w).
Proof.
  intros Hw Hp Hv. unfold RequestVerificationHandler. simpl. rewrite Hp, Hv. simpl.
  unfold CreateVerificationAttempt, verification_attempts_CreateDocument.
  rewrite (call_reliable _ w Hw). simpl. eexists _, _. split; [reflexivity|].
  split; [done|]. simpl. split; [apply lookup_insert_eq|done].
Qed.

Lemma api_admitted {B} (handler : Ctx B → World → Outcome * World) now token claims body w :
  jwt_Parse JWTSecret now token = Some claims →
  api handler now (request ("Bearer " +:+ token) body) w
  = handler (mkCtx ("Bearer " +:+ token) (claims !! "user_key") (Some body)) w.
Proof.
  intros Hparse. unfold api, AuthMiddleware. cbv zeta.
  change (Authorization (request ("Bearer " +:+ token) body)) with ("Bearer " +:+ token).
  change (String.eqb ("Bearer " +:+ token) "") with false.
  change (slice_from 7 ("Bearer " +:+ token)) with (Some token).
  cbv iota. by rewrite Hparse.
Qed.

Lemma MeHandler_reads {B} header userKey (body : option B) u w :
  reliable w →
  users (db w) !! userKey = Some u →
  MeHandler (mkCtx header (Some (ClaimString userKey)) body) w
  = (Respond (mkResponse StatusOK (JsonMe userKey (User.Number u))), w).
Proof.
  intros Hw Hu. unfold MeHandler, users_ReadDocument. simpl.
  rewrite (call_reliable _ w Hw). unfold col_read. simpl. rewrite Hu.
  by rewrite reliable_eta.
Qed.

(** X8: the whole sign-up on a reliable store.  A request for a number
    that parses and is valid in ["SE"] returns an attempt key; verifying
    that key within five minutes with the six digits of the draw is answered
    200 with a token; and if the token library reads that token back with
    its [user_key], [GET /api/me] with it answers the E.164 form of the
    number that was claimed. *)
Theorem sign_up_then_me
    (now later final n : Z) (raw : string) (number : PhoneNumber) (w : World) :
  reliable w →
  Parse raw "SE" = Some number → IsValidNumberForRegion number "SE" = true →
  later ≤ now + 5 * minute →
  ∃ key w1,
    RequestVerificationHandler now (Some n) (request "" (RequestVerificationRequest.mk raw)) w
    = (Respond (mkResponse StatusOK (JsonAttempt "Verifcation code sent" key)), w1)
    ∧ ∀ token claims,
        GenerateJWT later (resolve (FormatE164 number) (db w)).1 = Some token →
        jwt_Parse JWTSecret final token = Some claims →
        claims !! "user_key" = Some (ClaimString (resolve (FormatE164 number) (db w)).1) →
        ∃ w2,
          VerifyRequestHandler later (request "" (VerifyRequest.mk key (Sprintf_06d n))) w1
          = (Respond (verified token), w2)
          ∧ api MeHandler final (request ("Bearer " +:+ token) ()) w2
            = (Respond (mkResponse StatusOK
                          (JsonMe (resolve (FormatE164 number) (db w)).1 (FormatE164 number))), w2).
Proof.
  intros Hw Hp Hv Hlater.
  destruct (RequestVerificationHandler_reliable now n "" None raw number w Hw Hp Hv)
    as (key & w1 & Hrun & Hw1 & Ha & Husers & _).
  exists key, w1. split; [done|]. intros token claims Hsign Hparse Hclaim.
  destruct (VerifyRequestHandler_reliable later "" None key _ w1 Hw1 Ha Hlater)
    as (w2 & Hverify & Hw2 & _ & _ & _ & Hlookup).
  simpl in Hverify, Hlookup.
  destruct (resolve_users_ext (FormatE164 number) (db w1) (db w) Husers) as [Hkey _].
  rewrite Hkey in Hverify, Hlookup. rewrite Hsign in Hverify.
  exists w2. split; [done|].
  rewrite (api_admitted _ _ _ _ _ _ Hparse), Hclaim.
  by rewrite (MeHandler_reads _ _ _ _ w2 Hw2 Hlookup).
Qed.
End SigningUp.

Lemma VerifyRequestHandler_accepts_witness :
  ∃ w1,
    VerifyRequestHandler (jwt := sample_jwt) 2000
      (mkCtx "" None (Some (VerifyRequest.mk "17" (VerificationAttempt.Code sample_attempt))))
      (pending [])
    = (Respond (match GenerateJWT (jwt := sample_jwt) 2000
                        (resolve (VerificationAttempt.Number sample_attempt) (db (pending []))).1 with
                | Some token => verified token
                | None => login_failed
                end), w1)
    ∧ verification_attempts (db w1) = delete "17" (verification_attempts (db (pending [])))
    ∧ users (db w1) !! (resolve (VerificationAttempt.Number sample_attempt) (db (pending []))).1
      = Some (User.mk (VerificationAttempt.Number sample_attempt))
    ∧ (∀ k u, users (db (pending [])) !! k = Some u → users (db w1) !! k = Some u)
    ∧ (∀ k u, users (db (pending [])) !! k = Some u →
         User.Number u = VerificationAttempt.Number sample_attempt →
         users (db w1) = users (db (pending [])))
    ∧ contacts (db w1) = contacts (db (pending [])).
Proof.
  apply (VerifyRequestHandler_accepts (jwt := sample_jwt) 2000 "" None "17" sample_attempt (pending [])).
  - reflexivity.
  - reflexivity.
  - vm_compute. discriminate.
Defined.

Lemma VerifyRequestHandler_token_sound_witness :
  ∃ req a userKey token,
    BodyParser verify_17 = Some req
    ∧ verification_attempts (db (pending [])) !! VerifyRequest.AttemptKey req = Some a
    ∧ VerificationAttempt.Code a = VerifyRequest.Code req
    ∧ 2000 ≤ VerificationAttempt.CreatedAt a + 5 * minute
    ∧ GenerateJWT (jwt := sample_jwt) 2000 userKey = Some token
    ∧ verified "signed:0" = verified token
    ∧ users (db verified_world) !! userKey = Some (User.mk (VerificationAttempt.Number a)).
Proof.
  apply (VerifyRequestHandler_token_sound (jwt := sample_jwt) 2000 verify_17 (pending [])
           verified_world (verified "signed:0")).
  - vm_compute. reflexivity.
  - reflexivity.
Defined.

Lemma sign_up_then_me_witness :
  ∃ key w1,
    RequestVerificationHandler (phonenumbers := sample_phonenumbers) 5000 (Some 42)
      (request "" (RequestVerificationRequest.mk "+46701234567")) fresh_world
    = (Respond (mkResponse StatusOK (JsonAttempt "Verifcation code sent" key)), w1)
    ∧ ∃ w2,
        VerifyRequestHandler (jwt := sample_jwt) 6000
          (request "" (VerifyRequest.mk key (Sprintf_06d 42))) w1
        = (Respond (verified "signed:0"), w2)
        ∧ api (jwt := sample_jwt) MeHandler 7000 (request ("Bearer " +:+ "signed:0") ()) w2
          = (Respond (mkResponse StatusOK
                        (JsonMe (resolve "+46701234567" (db fresh_world)).1 "+46701234567")), w2).
Proof.
  destruct (sign_up_then_me (phonenumbers := sample_phonenumbers) (jwt := sample_jwt)
              5000 6000 7000 42 "+46701234567" "+46701234567" fresh_world)
    as (key & w1 & Hrun & Hrest).
  - reflexivity.
  - vm_compute. reflexivity.
  - vm_compute. reflexivity.
  - vm_compute. discriminate.
  - exists key, w1. split; [exact Hrun|].
    apply (Hrest "signed:0" {[ "user_key" := ClaimString "0" ]}).
    + vm_compute. reflexivity.
    + vm_compute. reflexivity.
    + vm_compute. reflexivity.
Defined.

(** ** The middleware and the routes behind it *)

Lemma slice_from_app p s : slice_from (String.length p) (p +:+ s) = Some s.
Proof. induction p as [|a p IH]; [done|]. simpl. apply IH. Qed.

Lemma eqb_app_nonempty p s : String.length p ≠ 0%nat → String.eqb (p +:+ s) "" = false.
Proof. by destruct p. Qed.

(** X9: the middleware never checks the authorization scheme: whatever the
    first seven bytes of the header are, the rest is taken as the token, and
    a request whose token parses as valid is passed on with the token's
    [user_key] as its identity, replacing any identity already set. *)
Theorem AuthMiddleware_ignores_scheme {jwt : JWT} {B}
    (now : Z) (scheme tokenString : string) (claims : gmap string ClaimValue)
    (locals : option ClaimValue) (body : option B) :
  String.length scheme = 7%nat →
  jwt_Parse JWTSecret now tokenString = Some claims →
  AuthMiddleware now (mkCtx (scheme +:+ tokenString) locals body)
  = Next (mkCtx (scheme +:+ tokenString) (claims !! "user_key") body).
Proof.
  intros Hlen Hparse. unfold AuthMiddleware. cbv zeta.
  change (Authorization (mkCtx (scheme +:+ tokenString) locals body)) with (scheme +:+ tokenString).
  rewrite eqb_app_nonempty by lia.
  rewrite <-Hlen, slice_from_app, Hparse. reflexivity.
Qed.

Lemma AuthMiddleware_ignores_scheme_witness :
  AuthMiddleware (jwt := sample_jwt) 0
    (mkCtx ("Basic: " +:+ "signed:1") (Some (ClaimString "2")) (Some (GetContactsRequest.mk "2")))
  = Next (mkCtx ("Basic: " +:+ "signed:1")
            (({[ "user_key" := ClaimString "1" ]} : gmap string ClaimValue) !! "user_key")
            (Some (GetContactsRequest.mk "2"))).
Proof.
  apply (AuthMiddleware_ignores_scheme (jwt := sample_jwt) 0 "Basic: " "signed:1"
           {[ "user_key" := ClaimString "1" ]}).
  - reflexivity.
  - vm_compute. reflexivity.
Defined.

(** X10: behind the middleware a handler runs only for a header whose
    bytes after the seventh parse as a valid token, and then on the request
    with the token's [user_key]; in every other case the request is answered
    401 or panics, and the world is untouched. *)
Theorem api_runs_handler_only_for_valid_token {jwt : JWT} {B}
    (handler : Ctx B → World → Outcome * World) (now : Z) (c : Ctx B) (w : World) :
  (∃ r, unauthorized r ∧ api handler now c w = (Respond r, w))
  ∨ api handler now c w = (Panicked, w)
  ∨ (∃ tokenString claims,
       slice_from 7 (Authorization c) = Some tokenString
       ∧ jwt_Parse JWTSecret now tokenString = Some claims
       ∧ api handler now c w
         = handler (mkCtx (Authorization c) (claims !! "user_key") (BodyParser c)) w).
Proof.
  unfold api, AuthMiddleware.
  destruct (String.eqb (Authorization c) "");
    [left; eexists; split; [|reflexivity]; reflexivity|].
  destruct (slice_from 7 (Authorization c)) as [tok|]; [|by right; left].
  destruct (jwt_Parse JWTSecret now tok) as [claims|] eqn:Hparse;
    [|left; eexists; split; [|reflexivity]; reflexivity].
  right; right. by exists tok, claims.
Qed.

(** X11: [GET /api/me] only reads.  For a stored user it answers the key
    and number; a missing user and a failed store call are both answered
    404; without a string identity the handler panics. *)
Theorem MeHandler_outcomes {B} (c : Ctx B) (w : World) :
  db (MeHandler c w).2 = db w
  ∧ (∀ userKey u,
       Locals_userKey c = Some (ClaimString userKey) → next_call_ok w →
       users (db w) !! userKey = Some u →
       (MeHandler c w).1 = Respond (mkResponse StatusOK (JsonMe userKey (User.Number u))))
  ∧ (∀ userKey,
       Locals_userKey c = Some (ClaimString userKey) →
       users (db w) !! userKey = None ∨ head (faults w) = Some true →
       (MeHandler c w).1 = Respond (mkResponse StatusNotFound (JsonError "User not found")))
  ∧ (assert_string (Locals_userKey c) = None → (MeHandler c w).1 = Panicked).
Proof.
  unfold MeHandler, users_ReadDocument, call, col_read, next_call_ok.
  split; [|split; [|split]].
  - destruct (assert_string _) as [k|]; [|done].
    destruct (users (db w) !! k); by destruct (faults w) as [|[] fs].
  - intros userKey u -> Hok Hu. simpl. rewrite Hu.
    by destruct (faults w) as [|[] fs].
  - intros userKey -> [Hu|Hf]; simpl.
    + rewrite Hu. by destruct (faults w) as [|[] fs].
    + destruct (faults w) as [|[] fs]; done.
  - by intros ->.
Qed.

Lemma MeHandler_outcomes_witness :
  db (MeHandler (as_user "" "0" ()) verified_world).2 = db verified_world
  ∧ (MeHandler (as_user "" "0" ()) verified_world).1
    = Respond (mkResponse StatusOK (JsonMe "0" (User.Number (User.mk "+46701234567"))))
  ∧ (MeHandler (as_user "" "5" ()) verified_world).1
    = Respond (mkResponse StatusNotFound (JsonError "User not found"))
  ∧ (MeHandler (request "" ()) verified_world).1 = Panicked.
Proof.
  destruct (MeHandler_outcomes (as_user "" "0" ()) verified_world) as (Hdb & Hfound & _ & _).
  destruct (MeHandler_outcomes (as_user "" "5" ()) verified_world) as (_ & _ & Hmissing & _).
  destruct (MeHandler_outcomes (request "" ()) verified_world) as (_ & _ & _ & Hpanic).
  split; [exact Hdb|]. split; [|split].
  - apply (Hfound "0" (User.mk "+46701234567")); [reflexivity | vm_compute; discriminate | reflexivity].
  - apply (Hmissing "5"); [reflexivity | left; reflexivity].
  - apply Hpanic. reflexivity.
Defined.

(** ** What adding contacts keeps *)

Lemma resolve_users_grow number d : users d ⊆ users (resolve number d).2.
Proof.
  unfold resolve. destruct (users_by_number number d) as [[key u]|]; simpl; [done|].
  apply insert_subseteq, fresh_key_unused.
Qed.

Lemma resolve_number_unique number d : number_unique d → number_unique (resolve number d).2.
Proof.
  intros Huniq. unfold resolve.
  destruct (users_by_number number d) as [[key u]|] eqn:Hq; simpl; [done|].
  assert (Hnone : ∀ k u, users d !! k = Some u → User.Number u ≠ number).
  { intros k u Hk. pose proof (col_filter_head_None _ _ _ _ Hq Hk) as Hno.
    by apply String.eqb_neq in Hno. }
  intros k1 k2 u1 u2. simpl.
  destruct (decide (k1 = fresh (dom (users d)))) as [->|Hne1];
    destruct (decide (k2 = fresh (dom (users d)))) as [->|Hne2]; [done| | |].
  - rewrite lookup_insert_eq, lookup_insert_ne by done. intros [= <-] H2 Hnum. simpl in Hnum.
    by destruct (Hnone k2 u2 H2).
  - rewrite lookup_insert_eq, lookup_insert_ne by done. intros H1 [= <-] Hnum. simpl in Hnum.
    by destruct (Hnone k1 u1 H1).
  - rewrite !lookup_insert_ne by done. apply Huniq.
Qed.

Lemma number_unique_ext d d' : users d = users d' → number_unique d → number_unique d'.
Proof. unfold number_unique. by intros ->. Qed.

Section Kept.
Context {phonenumbers : PhoneNumbers}.
Variable ToUpper : string → string.

(** A property of the data that resolving a contact and upserting its edge
    keep is kept by the whole loop, whatever the store does. *)
Lemma add_contacts_keeps (P : Database → Prop) owner :
  (∀ number d, P d → P (resolve number d).2) →
  (∀ number name d,
     P (resolve number d).2 →
     P (upsert_edge ("users/" +:+ owner) ("users/" +:+ (resolve number d).1) name
          (resolve number d).2)) →
  ∀ cs w, P (db w) → P (db (add_contacts ToUpper owner cs w).2).
Proof.
  intros Hresolve Hupsert cs. induction cs as [|contact cs IH]; intros w Hw; [done|].
  destruct (parsed ToUpper contact) as [number|] eqn:Hp;
    [|by rewrite add_contacts_unparseable].
  destruct (region_valid ToUpper contact number) eqn:Hv;
    [|rewrite (add_contacts_region_invalid _ _ _ _ _ _ Hp Hv); by apply IH].
  destruct (add_contacts_round ToUpper owner contact number w Hp Hv)
    as [(r & w1 & _ & Hdb & Hstop)|(w1 & Hdb & Hgo)].
  - rewrite Hstop. simpl. destruct Hdb as [-> | ->]; [done|by apply Hresolve].
  - rewrite Hgo. apply IH. rewrite Hdb. by apply Hupsert, Hresolve.
Qed.

Lemma AddContactsHandler_keeps (P : Database → Prop) :
  (∀ number d, P d → P (resolve number d).2) →
  (∀ owner number name d,
     P (resolve number d).2 →
     P (upsert_edge ("users/" +:+ owner) ("users/" +:+ (resolve number d).1) name
          (resolve number d).2)) →
  ∀ c w, P (db w) → P (db (AddContactsHandler ToUpper c w).2).
Proof.
  intros Hresolve Hupsert c w Hw. unfold AddContactsHandler.
  destruct (BodyParser c) as [req|]; [|done].
  destruct (assert_string (Locals_userKey c)) as [owner|]; [|done].
  pose proof (add_contacts_keeps P owner Hresolve (Hupsert owner)
                (AddContactsRequest.Contacts req) w Hw) as H.
  by destruct (add_contacts ToUpper owner (AddContactsRequest.Contacts req) w).
Qed.

(** X12: whatever the request and whatever the store does,
    [AddContactsHandler] keeps the edge collection free of duplicate pairs
    and keeps every edge pointing to a stored user. *)
Theorem AddContactsHandler_keeps_edges_well_formed (c : Ctx AddContactsRequest.t) (w : World) :
  (edge_unique (db w) → edge_unique (db (AddContactsHandler ToUpper c w).2))
  ∧ (edges_to_users (db w) → edges_to_users (db (AddContactsHandler ToUpper c w).2)).
Proof.
  split.
  - apply (AddContactsHandler_keeps edge_unique).
    + intros number d Hd. apply (edge_unique_ext d); [|done]. symmetry. apply resolve_contacts.
    + intros owner number name d. apply upsert_edge_unique.
  - apply (AddContactsHandler_keeps edges_to_users).
    + intros number d Hd k e Hk. rewrite resolve_contacts in Hk.
      destruct (Hd k e Hk) as (key & Hto & [u Hu]). exists key. split; [done|].
      exists u. by apply (lookup_weaken _ _ _ _ Hu), resolve_users_grow.
    + intros owner number name d Hd k e.
      destruct (upsert_edge_contacts ("users/" +:+ owner) ("users/" +:+ (resolve number d).1)
                  name (resolve number d).2) as (key & -> & _).
      rewrite upsert_edge_users.
      destruct (decide (k = key)) as [->|Hne].
      * rewrite lookup_insert_eq. intros [= <-]. exists (resolve number d).1.
        split; [done|]. rewrite resolve_lookup. by eexists.
      * rewrite lookup_insert_ne by done. apply Hd.
Qed.

(** X13: whatever the request and whatever the store does,
    [AddContactsHandler] only adds: stored users stay as they are, pending
    attempts are untouched, and every edge stays under its key with its
    endpoints (only its name may change). *)
Theorem AddContactsHandler_only_adds (c : Ctx AddContactsRequest.t) (w : World) :
  let w1 := (AddContactsHandler ToUpper c w).2 in
  users (db w) ⊆ users (db w1)
  ∧ verification_attempts (db w1) = verification_attempts (db w)
  ∧ ∀ k e, contacts (db w) !! k = Some e →
      ∃ e', contacts (db w1) !! k = Some e'
            ∧ ContactEdge.From e' = ContactEdge.From e ∧ ContactEdge.To e' = ContactEdge.To e.
Proof.
  cbv zeta. split; [|split].
  - apply (AddContactsHandler_keeps (λ d, users (db w) ⊆ users d)); [| |done].
    + intros number d Hd. etrans; [done|apply resolve_users_grow].
    + intros owner number name d Hd. by rewrite upsert_edge_users.
  - apply (AddContactsHandler_keeps
             (λ d, verification_attempts d = verification_attempts (db w))); [| |done].
    + intros number d Hd. by rewrite resolve_verification_attempts.
    + intros owner number name d Hd. by rewrite upsert_edge_verification_attempts.
  - apply (AddContactsHandler_keeps
             (λ d, ∀ k e, contacts (db w) !! k = Some e →
                ∃ e', contacts d !! k = Some e'
                      ∧ ContactEdge.From e' = ContactEdge.From e
                      ∧ ContactEdge.To e' = ContactEdge.To e)).
    + intros number d Hd k e Hk. rewrite resolve_contacts. by apply Hd.
    + intros owner number name d Hd k e Hk.
      destruct (Hd k e Hk) as (e' & Hk' & Hfrom & Hto).
      destruct (upsert_edge_contacts ("users/" +:+ owner) ("users/" +:+ (resolve number d).1)
                  name (resolve number d).2) as (key & -> & Hcase).
      destruct (decide (k = key)) as [->|Hne].
      * rewrite lookup_insert_eq. eexists. split; [done|]. simpl.
        destruct Hcase as [[_ Hnone]|[e'' Hq]]; [congruence|].
        apply col_filter_head_Some in Hq as [Hk'' [Hf Ht]%edge_matches].
        rewrite Hk' in Hk''. injection Hk'' as <-. by rewrite <-Hfrom, <-Hto.
      * rewrite lookup_insert_ne by done. by exists e'.
    + intros k e Hk. by exists e.
Qed.
End Kept.

(** ** One user per number *)

Lemma GetOrCreateUser_db number w :
  db (GetOrCreateUser number w).2 = db w
  ∨ db (GetOrCreateUser number w).2 = (resolve number (db w)).2.
Proof.
  unfold GetOrCreateUser, query_users_by_number, cursor_ReadDocument, CreateUser,
    users_CreateDocument, resolve.
  step_call; [by left|].
  destruct (users_by_number number (db w)) as [[key u]|]; simpl.
  - step_call; by left.
  - step_call; [by left|by right].
Qed.

Lemma VerifyCode_users now attempt code w :
  users (db (VerifyCode now attempt code w).2) = users (db w)
  ∧ contacts (db (VerifyCode now attempt code w).2) = contacts (db w).
Proof.
  unfold VerifyCode, verification_attempts_DeleteDocument, col_delete.
  destruct (_ <? now); [|destruct (String.eqb _ _); [|done]];
    step_call; try done; by destruct (verification_attempts (db w) !! _).
Qed.

Lemma VerifyRequestHandler_users {jwt : JWT} now c w :
  contacts (db (VerifyRequestHandler now c w).2) = contacts (db w)
  ∧ (users (db (VerifyRequestHandler now c w).2) = users (db w)
     ∨ ∃ number d, users d = users (db w)
                   ∧ users (db (VerifyRequestHandler now c w).2) = users (resolve number d).2).
Proof.
  unfold VerifyRequestHandler.
  destruct (BodyParser c) as [req|]; [|by split; [|left]].
  unfold verification_attempts_ReadDocument.
  step_call; [by split; [|left]|].
  destruct (col_read _ _) as [a|e]; simpl; [|by split; [|left]].
  set (attempt := with_Key _ _).
  destruct (VerifyCode_users now attempt (VerifyRequest.Code req) (mkWorld (db w) fs))
    as [Hu Hc]. simpl in Hu, Hc.
  destruct (VerifyCode now attempt (VerifyRequest.Code req) (mkWorld (db w) fs))
    as [[[] [e|]] w2]; simpl in *; try by split; [|left].
  set (number := VerificationAttempt.Number a).
  assert (Hres : contacts (db (GetOrCreateUser number w2).2) = contacts (db w)
                 ∧ (users (db (GetOrCreateUser number w2).2) = users (db w)
                    ∨ ∃ number' d, users d = users (db w)
                        ∧ users (db (GetOrCreateUser number w2).2) = users (resolve number' d).2)).
  { destruct (GetOrCreateUser_db number w2) as [-> | ->].
    - by split; [|left].
    - split; [by rewrite resolve_contacts|]. right. by eexists _, (db w2). }
  destruct (GetOrCreateUser number w2) as [[userKey|e] w3]; [|done].
  by destruct (GenerateJWT now userKey).
Qed.

(** X14: the outline's rule, only one user per phone number, is kept by
    every operation that can add a user, whatever the store does:
    [GetOrCreateUser], [AddContactsHandler] and [VerifyRequestHandler]. *)
Theorem number_unique_kept {phonenumbers : PhoneNumbers} {jwt : JWT} (w : World) :
  number_unique (db w) →
  (∀ number, number_unique (db (GetOrCreateUser number w).2))
  ∧ (∀ ToUpper c, number_unique (db (AddContactsHandler ToUpper c w).2))
  ∧ (∀ now c, number_unique (db (VerifyRequestHandler now c w).2)).
Proof.
  intros Hw. split; [|split].
  - intros number. destruct (GetOrCreateUser_db number w) as [-> | ->]; [done|].
    by apply resolve_number_unique.
  - intros ToUpper c. apply (AddContactsHandler_keeps ToUpper number_unique); [| |done].
    + intros number d. apply resolve_number_unique.
    + intros owner number name d Hd. apply (number_unique_ext (resolve number d).2); [|done].
      symmetry. apply upsert_edge_users.
  - intros now c. destruct (VerifyRequestHandler_users now c w) as [_ [Hu|(number & d & Hd & Hu)]].
    + by apply (number_unique_ext (db w)).
    + apply (number_unique_ext (resolve number d).2); [done|].
      apply resolve_number_unique. by apply (number_unique_ext (db w)).
Qed.

Lemma number_unique_empty : number_unique empty_db.
Proof. intros k1 k2 u1 u2 H. simpl in H. by apply lookup_empty_Some in H. Qed.

Lemma number_unique_kept_witness :
  (∀ number, number_unique (db (GetOrCreateUser number fresh_world).2))
  ∧ (∀ ToUpper c,
       number_unique (db (AddContactsHandler (phonenumbers := sample_phonenumbers)
                            ToUpper c fresh_world).2))
  ∧ (∀ now c, number_unique (db (VerifyRequestHandler (jwt := sample_jwt) now c fresh_world).2)).
Proof.
  apply (number_unique_kept (phonenumbers := sample_phonenumbers) (jwt := sample_jwt) fresh_world).
  apply number_unique_empty.
Defined.

(** X15: when a number has a user, [GetOrCreateUser] returns a key of a
    user with that number and creates nothing; under the one-user-per-number
    rule that is the key of the user. *)
Theorem GetOrCreateUser_finds_existing
    (number key key' : string) (w w1 : World) :
  users (db w) !! key = Some (User.mk number) →
  GetOrCreateUser number w = (Ok key', w1) →
  db w1 = db w
  ∧ users (db w) !! key' = Some (User.mk number)
  ∧ (number_unique (db w) → key' = key).
Proof.
  intros Hk Hrun%GetOrCreateUser_Ok. unfold resolve in Hrun.
  destruct (users_by_number number (db w)) as [[k u]|] eqn:Hq.
  - injection Hrun as -> <-. split; [done|].
    apply col_filter_head_Some in Hq as [Hk' Hu%User_Number_eqb]. subst u.
    split; [done|]. intros Huniq. by apply (Huniq key' key _ _ Hk' Hk).
  - pose proof (col_filter_head_None _ _ _ _ Hq Hk) as Hno. simpl in Hno.
    by rewrite String.eqb_refl in Hno.
Qed.

Lemma GetOrCreateUser_finds_existing_witness :
  db verified_world = db verified_world
  ∧ users (db verified_world) !! "0" = Some (User.mk "+46701234567")
  ∧ (number_unique (db verified_world) → "0" = "0").
Proof.
  apply (GetOrCreateUser_finds_existing "+46701234567" "0" "0" verified_world verified_world).
  - reflexivity.
  - vm_compute. reflexivity.
Defined.

(** ** Reading contacts back *)

Lemma read_contacts_spec cursor result w :
  db (read_contacts cursor result w).2 = db w
  ∧ ∀ rows, (read_contacts cursor result w).1 = Ok rows → rows = (result ++ cursor)%list.
Proof.
  revert result w. induction cursor as [|row cursor IH]; intros result w; simpl.
  - unfold cursor_NoMoreDocuments. step_call; [done|].
    split; [done|]. intros rows [= <-]. by rewrite app_nil_r.
  - unfold cursor_ReadDocument. step_call; [done|].
    destruct (IH (result ++ [row])%list (mkWorld (db w) fs)) as [Hdb Hrows].
    split; [done|]. intros rows Hok. rewrite (Hrows rows Hok). by rewrite <-app_assoc.
Qed.

Lemma GetContactsHandler_reliable header locals req w :
  reliable w →
  GetContactsHandler (mkCtx header locals (Some req)) w
  = (Respond (mkResponse StatusOK
                (JsonContacts (outbound ("users/" +:+ GetContactsRequest.UserKey req) (db w)))), w).
Proof.
  intros Hw. unfold GetContactsHandler, query_outbound. simpl.
  rewrite (call_reliable _ w Hw). simpl.
  rewrite read_contacts_reliable by done. simpl. by rewrite reliable_eta.
Qed.

(** X16: [GetContactsHandler] only reads, whatever the store does, and
    whenever it answers 200 the list is complete: it is the whole one-hop
    list of the user named in the body, however many rows that is. *)
Theorem GetContactsHandler_reads_all (c : Ctx GetContactsRequest.t) (w : World) :
  db (GetContactsHandler c w).2 = db w
  ∧ ∀ r, (GetContactsHandler c w).1 = Respond r → Status r = StatusOK →
      ∃ req, BodyParser c = Some req
             ∧ Json r = JsonContacts (outbound ("users/" +:+ GetContactsRequest.UserKey req) (db w)).
Proof.
  unfold GetContactsHandler.
  destruct (BodyParser c) as [req|]; [|split; [done|by intros r [= <-]]].
  unfold query_outbound. step_call; [split; [done|by intros r [= <-]]|].
  destruct (read_contacts_spec (outbound ("users/" +:+ GetContactsRequest.UserKey req) (db w)) []
              (mkWorld (db w) fs)) as [Hdb Hrows].
  destruct (read_contacts _ [] _) as [[rows|e] w2]; simpl in *.
  - split; [done|]. intros r [= <-] _. exists req. split; [done|]. simpl.
    by rewrite (Hrows rows eq_refl).
  - split; [done|]. by intros r [= <-].
Qed.

Lemma GetContactsHandler_reads_all_witness :
  ∃ req, BodyParser one_asks_for_two = Some req
         ∧ Json (mkResponse StatusOK (JsonContacts [GetContactsResult.mk "Bob" "3"]))
           = JsonContacts (outbound ("users/" +:+ GetContactsRequest.UserKey req) (db graph)).
Proof.
  destruct (GetContactsHandler_reads_all one_asks_for_two graph) as [_ Hall].
  apply (Hall (mkResponse StatusOK (JsonContacts [GetContactsResult.mk "Bob" "3"]))).
  - vm_compute. reflexivity.
  - reflexivity.
Defined.

(** X17: a user key with no outgoing edge, whether or not a user is stored
    under it, is answered 200 with an empty list on a reliable store, never
    404. *)
Theorem GetContactsHandler_no_contacts
    (header : string) (locals : option ClaimValue) (key : string) (w : World) :
  reliable w →
  (∀ k e, contacts (db w) !! k = Some e → ContactEdge.From e ≠ "users/" +:+ key) →
  GetContactsHandler (mkCtx header locals (Some (GetContactsRequest.mk key))) w
  = (Respond (mkResponse StatusOK (JsonContacts [])), w).
Proof.
  intros Hw Hnone. rewrite GetContactsHandler_reliable by done. simpl.
  assert (Hempty : outbound ("users/" +:+ key) (db w) = []); [|by rewrite Hempty].
  apply elem_of_nil_inv. intros row (k & e & Hk & Hfrom & _)%elem_of_outbound.
  by destruct (Hnone k e Hk).
Qed.

Lemma GetContactsHandler_no_contacts_witness :
  GetContactsHandler (mkCtx "" None (Some (GetContactsRequest.mk "nobody"))) graph
  = (Respond (mkResponse StatusOK (JsonContacts [])), graph).
Proof.
  apply (GetContactsHandler_no_contacts "" None "nobody" graph).
  - reflexivity.
  - intros k e Hk.
    destruct (decide (k = "9")) as [->|Hne].
    + vm_compute in Hk. injection Hk as <-. vm_compute. discriminate.
    + unfold graph in Hk. simpl in Hk. rewrite lookup_singleton_ne in Hk by done. discriminate.
Defined.

Section AddThenList.
Context {phonenumbers : PhoneNumbers}.
Variable ToUpper : string → string.

(** X18: on a reliable store, a valid contact submitted by an owner is
    then listed for that owner: the request is answered 200, and reading the
    owner's contacts returns a row with the submitted name and the key of a
    stored user whose number is the E.164 form of the contact's. *)
Theorem added_contact_is_listed
    (header header' : string) (locals : option ClaimValue) (owner : string)
    (contact : Contact.t) (number : PhoneNumber) (w : World) :
  reliable w →
  parsed ToUpper contact = Some number → region_valid ToUpper contact number = true →
  ∃ w1 contactKey rows,
    AddContactsHandler ToUpper (as_user header owner (AddContactsRequest.mk [contact])) w
    = (Respond added, w1)
    ∧ users (db w1) !! contactKey = Some (User.mk (FormatE164 number))
    ∧ GetContactsHandler (mkCtx header' locals (Some (GetContactsRequest.mk owner))) w1
      = (Respond (mkResponse StatusOK (JsonContacts rows)), w1)
    ∧ GetContactsResult.mk (Contact.Name contact) contactKey ∈ rows.
Proof.
  intros Hw Hp Hv.
  set (N := FormatE164 number).
  set (contactKey := (resolve N (db w)).1).
  set (d1 := (resolve N (db w)).2).
  set (from := "users/" +:+ owner). set (to := "users/" +:+ contactKey).
  set (d2 := upsert_edge from to (Contact.Name contact) d1).
  assert (Huser : users d2 !! contactKey = Some (User.mk N)).
  { unfold d2. rewrite upsert_edge_users. apply resolve_lookup. }
  exists (mkWorld d2 []), contactKey, (outbound from d2).
  split; [|split; [done|split]].
  - rewrite AddContactsHandler_as_user.
    by rewrite (add_contacts_valid ToUpper owner contact number [] w Hw Hp Hv).
  - by rewrite GetContactsHandler_reliable.
  - apply elem_of_outbound.
    destruct (upsert_edge_contacts from to (Contact.Name contact) d1) as (key & Hc & _).
    exists key, (ContactEdge.mk from to (Contact.Name contact)).
    fold d2 in Hc. rewrite Hc, lookup_insert_eq. split; [done|]. split; [done|]. simpl.
    unfold to. by rewrite (vertex_key_user contactKey _ d2 Huser).
Qed.

Lemma add_contacts_round_status owner contact number w :
  parsed ToUpper contact = Some number → region_valid ToUpper contact number = true →
  (∃ r w1, Status r = StatusInternalServerError
           ∧ ∀ rest, add_contacts ToUpper owner (contact :: rest) w = (r, w1))
  ∨ (∃ w1, ∀ rest, add_contacts ToUpper owner (contact :: rest) w
                   = add_contacts ToUpper owner rest w1).
Proof.
  unfold parsed, region_valid. intros Hp Hv.
  simpl add_contacts. rewrite Hp, Hv. simpl negb. cbv iota.
  destruct (GetOrCreateUser _ w) as [[contactUserKey|e] w1];
    [|left; eexists _, _; split; [|intros; reflexivity]; done].
  destruct (query_edge _ _ w1) as [[[[key existingEdge]|]|e] w2];
    [| |left; eexists _, _; split; [|intros; reflexivity]; done].
  - destruct (cursor_ReadDocument _ w2) as [[[key' edge']|e] w3];
      [|left; eexists _, _; split; [|intros; reflexivity]; done].
    destruct (negb _); [|right; eexists; intros; reflexivity].
    destruct (contacts_UpdateDocument _ _ w3) as [[?|e] w4];
      [right; eexists; intros; reflexivity
      |left; eexists _, _; split; [|intros; reflexivity]; done].
  - destruct (contacts_CreateDocument _ w2) as [[?|e] w3];
      [right; eexists; intros; reflexivity
      |left; eexists _, _; split; [|intros; reflexivity]; done].
Qed.

Lemma add_contacts_status owner cs w :
  let r := (add_contacts ToUpper owner cs w).1 in
  (Status r = StatusOK → Forall (λ contact, is_Some (parsed ToUpper contact)) cs)
  ∧ (Status r = StatusBadRequest → Exists (λ contact, parsed ToUpper contact = None) cs)
  ∧ (Status r = StatusOK ∨ Status r = StatusBadRequest ∨ Status r = StatusInternalServerError).
Proof.
  cbv zeta. revert w. induction cs as [|contact cs IH]; intros w.
  - split; [by constructor|]. split; [done|by left].
  - destruct (parsed ToUpper contact) as [number|] eqn:Hp.
    2: { rewrite add_contacts_unparseable by done. simpl.
         split; [done|]. split; [intros _; by left|by right; left]. }
    assert (Hgo : ∀ w1,
      (Status (add_contacts ToUpper owner cs w1).1 = StatusOK →
         Forall (λ contact, is_Some (parsed ToUpper contact)) (contact :: cs))
      ∧ (Status (add_contacts ToUpper owner cs w1).1 = StatusBadRequest →
         Exists (λ contact, parsed ToUpper contact = None) (contact :: cs))
      ∧ (Status (add_contacts ToUpper owner cs w1).1 = StatusOK
         ∨ Status (add_contacts ToUpper owner cs w1).1 = StatusBadRequest
         ∨ Status (add_contacts ToUpper owner cs w1).1 = StatusInternalServerError)).
    { intros w1. destruct (IH w1) as (Hok & Hbad & Hany).
      split; [|split; [|done]].
      - intros H. constructor; [by eexists|by apply Hok].
      - intros H. right. by apply Hbad. }
    destruct (region_valid ToUpper contact number) eqn:Hv.
    + destruct (add_contacts_round_status owner contact number w Hp Hv)
        as [(r & w1 & Hr & Hstop)|(w1 & Hcont)].
      * rewrite Hstop. simpl. rewrite Hr.
        split; [done|]. split; [done|by right; right].
      * rewrite Hcont. apply Hgo.
    + rewrite (add_contacts_region_invalid _ _ _ _ _ _ Hp Hv). apply Hgo.
Qed.

(** X19: what the status of an [AddContactsHandler] answer tells: 200
    means the body decoded and every item parsed (items may still have been
    passed over as invalid for their region); 400 means the body did not
    decode or some item did not parse; the only other status is 500, and it
    never occurs on a reliable store. *)
Theorem AddContactsHandler_status (c : Ctx AddContactsRequest.t) (w : World) (r : Response) :
  (AddContactsHandler ToUpper c w).1 = Respond r →
  (Status r = StatusOK →
     ∃ req, BodyParser c = Some req
            ∧ Forall (λ contact, is_Some (parsed ToUpper contact)) (AddContactsRequest.Contacts req))
  ∧ (Status r = StatusBadRequest →
     BodyParser c = None
     ∨ ∃ req, BodyParser c = Some req
              ∧ Exists (λ contact, parsed ToUpper contact = None) (AddContactsRequest.Contacts req))
  ∧ (Status r = StatusOK ∨ Status r = StatusBadRequest ∨ Status r = StatusInternalServerError)
  ∧ (reliable w → Status r ≠ StatusInternalServerError).
Proof.
  unfold AddContactsHandler.
  destruct (BodyParser c) as [req|].
  2: { intros [= <-]. split; [done|]. split; [by left|]. split; [by right; left|done]. }
  destruct (assert_string (Locals_userKey c)) as [owner|]; [|done].
  destruct (add_contacts_status owner (AddContactsRequest.Contacts req) w) as (Hok & Hbad & Hany).
  destruct (add_contacts ToUpper owner (AddContactsRequest.Contacts req) w) as [r' w1] eqn:Hrun.
  simpl in *. intros [= <-].
  split; [intros H; exists req; split; [done|by apply Hok]|].
  split; [intros H; right; exists req; split; [done|by apply Hbad]|].
  split; [done|]. intros Hw H500.
  destruct (decide (Forall (λ contact, is_Some (parsed ToUpper contact))
                      (AddContactsRequest.Contacts req))) as [Hall|Hsome].
  - destruct (add_contacts_reliable ToUpper owner _ w Hw Hall) as [Hr _].
    rewrite Hrun in Hr. simpl in Hr. by rewrite Hr in H500.
  - apply not_Forall_Exists in Hsome; [|apply _].
    apply Exists_exists in Hsome as (bad & Hin & Hbadp).
    apply list_elem_of_split in Hin as (pre & post & Hsplit).
    assert (Hnone : parsed ToUpper bad = None).
    { destruct (parsed ToUpper bad) as [p|] eqn:E; [|done]. destruct Hbadp. simpl. rewrite E.
      by exists p. }
    clear Hbadp. revert w Hw Hrun. rewrite Hsplit. clear Hsplit Hok Hbad Hany.
    induction pre as [|contact pre IH]; intros w Hw Hrun.
    + rewrite app_nil_l, add_contacts_unparseable in Hrun by done.
      injection Hrun as <- _. done.
    + rewrite <-app_comm_cons in Hrun.
      destruct (parsed ToUpper contact) as [number|] eqn:Hp.
      2: { rewrite add_contacts_unparseable in Hrun by done. injection Hrun as <- _. done. }
      destruct (region_valid ToUpper contact number) eqn:Hv.
      * rewrite (add_contacts_valid _ _ _ _ _ _ Hw Hp Hv) in Hrun.
        eapply IH; [|exact Hrun]. reflexivity.
      * rewrite (add_contacts_region_invalid _ _ _ _ _ _ Hp Hv) in Hrun. by apply (IH _ Hw Hrun).
Qed.
End AddThenList.

Lemma edges_to_users_empty : edges_to_users empty_db.
Proof. intros k e H. simpl in H. by apply lookup_empty_Some in H. Qed.

Lemma AddContactsHandler_keeps_edges_well_formed_witness :
  edge_unique
    (db (AddContactsHandler (phonenumbers := sample_phonenumbers) sample_ToUpper
           (as_user "Bearer signed:5" "5" (AddContactsRequest.mk [alice; carol])) fresh_world).2)
  ∧ edges_to_users
      (db (AddContactsHandler (phonenumbers := sample_phonenumbers) sample_ToUpper
             (as_user "Bearer signed:5" "5" (AddContactsRequest.mk [alice; carol])) fresh_world).2).
Proof.
  destruct (AddContactsHandler_keeps_edges_well_formed (phonenumbers := sample_phonenumbers)
              sample_ToUpper
              (as_user "Bearer signed:5" "5" (AddContactsRequest.mk [alice; carol])) fresh_world)
    as [Hunique Hpoint].
  split.
  - apply Hunique, edge_unique_empty.
  - apply Hpoint, edges_to_users_empty.
Defined.

Lemma AddContactsHandler_only_adds_witness :
  users (db alice_added)
  ⊆ users (db (AddContactsHandler (phonenumbers := sample_phonenumbers) sample_ToUpper
                 (as_user "Bearer signed:5" "5" (AddContactsRequest.mk [alice_as_bob]))
                 alice_added).2)
  ∧ verification_attempts
      (db (AddContactsHandler (phonenumbers := sample_phonenumbers) sample_ToUpper
             (as_user "Bearer signed:5" "5" (AddContactsRequest.mk [alice_as_bob])) alice_added).2)
    = verification_attempts (db alice_added)
  ∧ ∃ e',
      contacts
        (db (AddContactsHandler (phonenumbers := sample_phonenumbers) sample_ToUpper
               (as_user "Bearer signed:5" "5" (AddContactsRequest.mk [alice_as_bob]))
               alice_added).2) !! "0" = Some e'
      ∧ ContactEdge.From e' = ContactEdge.From (ContactEdge.mk "users/5" "users/0" "Alice")
      ∧ ContactEdge.To e' = ContactEdge.To (ContactEdge.mk "users/5" "users/0" "Alice").
Proof.
  destruct (AddContactsHandler_only_adds (phonenumbers := sample_phonenumbers) sample_ToUpper
              (as_user "Bearer signed:5" "5" (AddContactsRequest.mk [alice_as_bob])) alice_added)
    as (Husers & Hattempts & Hedges).
  split; [exact Husers|]. split; [exact Hattempts|].
  apply (Hedges "0" (ContactEdge.mk "users/5" "users/0" "Alice")). reflexivity.
Defined.

Lemma added_contact_is_listed_witness :
  ∃ w1 contactKey rows,
    AddContactsHandler (phonenumbers := sample_phonenumbers) sample_ToUpper
      (as_user "Bearer signed:5" "5" (AddContactsRequest.mk [alice])) fresh_world
    = (Respond added, w1)
    ∧ users (db w1) !! contactKey = Some (User.mk "+46700000001")
    ∧ GetContactsHandler (mkCtx "Bearer signed:7" None (Some (GetContactsRequest.mk "5"))) w1
      = (Respond (mkResponse StatusOK (JsonContacts rows)), w1)
    ∧ GetContactsResult.mk "Alice" contactKey ∈ rows.
Proof.
  apply (added_contact_is_listed (phonenumbers := sample_phonenumbers) sample_ToUpper
           "Bearer signed:5" "Bearer signed:7" None "5" alice "+46700000001" fresh_world).
  - reflexivity.
  - vm_compute. reflexivity.
  - vm_compute. reflexivity.
Defined.

Lemma AddContactsHandler_status_witness :
  (∃ req,
     BodyParser (as_user "" "5" (AddContactsRequest.mk [alice; wrong_region])) = Some req
     ∧ Forall (λ contact, is_Some (parsed (phonenumbers := sample_phonenumbers) sample_ToUpper contact))
         (AddContactsRequest.Contacts req))
  ∧ (BodyParser (as_user "" "5" (AddContactsRequest.mk [alice; not_a_number])) = None
     ∨ ∃ req,
         BodyParser (as_user "" "5" (AddContactsRequest.mk [alice; not_a_number])) = Some req
         ∧ Exists (λ contact, parsed (phonenumbers := sample_phonenumbers) sample_ToUpper contact = None)
             (AddContactsRequest.Contacts req))
  ∧ Status added ≠ StatusInternalServerError.
Proof.
  destruct (AddContactsHandler_status (phonenumbers := sample_phonenumbers) sample_ToUpper
              (as_user "" "5" (AddContactsRequest.mk [alice; wrong_region])) fresh_world added)
    as (Hok & _ & _ & Hreliable); [vm_compute; reflexivity|].
  destruct (AddContactsHandler_status (phonenumbers := sample_phonenumbers) sample_ToUpper
              (as_user "" "5" (AddContactsRequest.mk [alice; not_a_number])) fresh_world
              invalid_number)
    as (_ & Hbad & _ & _); [vm_compute; reflexivity|].
  split; [apply Hok; reflexivity|]. split; [apply Hbad; reflexivity|].
  apply Hreliable. reflexivity.
Defined.

(** ** Database setup *)

Lemma driver_quiet {A} (op : gmap string (gmap string Setup.CollectionType)
                             → Setup.Reply A * gmap string (gmap string Setup.CollectionType)) s :
  quiet s →
  Setup.driver op s = ((op (Setup.databases s)).1, Setup.mkServer (op (Setup.databases s)).2 []).
Proof.
  unfold quiet, Setup.driver. intros ->. by destruct (op (Setup.databases s)).
Qed.

Lemma driver_cases {A} (op : gmap string (gmap string Setup.CollectionType)
                             → Setup.Reply A * gmap string (gmap string Setup.CollectionType)) s :
  ∃ rest, (∃ e, Setup.driver op s = (Setup.Failed e, Setup.mkServer (Setup.databases s) rest))
          ∨ Setup.driver op s
            = ((op (Setup.databases s)).1, Setup.mkServer (op (Setup.databases s)).2 rest).
Proof.
  unfold Setup.driver.
  destruct (Setup.incidents s) as [|[e|] rest]; destruct (op (Setup.databases s)); eauto.
Qed.

Ltac step_driver :=
  match goal with
  | |- context [Setup.driver ?op ?s] =>
      let rest := fresh "rest" in
      let e := fresh "e" in
      destruct (driver_cases op s) as [rest [[e ->] | ->]]; simpl
  end.

Lemma with_collection_lookup name colType cat :
  is_Some (with_collection name colType cat !! name).
Proof.
  unfold with_collection. destruct (cat !! name) as [ty|] eqn:H.
  - rewrite H. by eexists.
  - rewrite lookup_insert_eq. by eexists.
Qed.

Lemma with_collection_existing name colType cat ty :
  cat !! name = Some ty → with_collection name colType cat = cat.
Proof. unfold with_collection. by intros ->. Qed.

Lemma with_collection_twice name colType colType' cat :
  with_collection name colType' (with_collection name colType cat) = with_collection name colType cat.
Proof.
  destruct (with_collection_lookup name colType cat) as [ty Hty].
  by apply (with_collection_existing _ _ _ ty).
Qed.

(** [getCollection] never replaces a collection.  Whatever the server
    does, when it returns a handle it is the handle of the collection named,
    and the catalogue is as before except that the collection exists: with
    its old type if it was there (even when another type was asked for),
    with the type asked for if it was not.  When it returns an error the
    catalogue is untouched. *)
Lemma getCollection_spec
    (db name : string) (colType : Setup.CollectionType) (s : Setup.Server) :
  (∀ col s1,
     Setup.getCollection (Some db) name colType s = (Setup.Return (Setup.Done col), s1) →
     col = name
     ∧ ∃ cat, Setup.databases s !! db = Some cat
              ∧ Setup.databases s1 = <[db := with_collection name colType cat]> (Setup.databases s))
  ∧ (∀ e s1,
       Setup.getCollection (Some db) name colType s = (Setup.Return (Setup.Failed e), s1) →
       Setup.databases s1 = Setup.databases s)
  ∧ (Setup.getCollection (Some db) name colType s).1 ≠ Setup.NilPanic.
Proof.
  unfold Setup.getCollection, Setup.CollectionExists, Setup.GetCollection, Setup.CreateCollection.
  step_driver.
  { split; [done|]. split; [by intros ? ? [= _ <-]|done]. }
  destruct (Setup.databases s !! db) as [cat|] eqn:Hdb; simpl.
  2: { split; [done|]. split; [by intros ? ? [= _ <-]|done]. }
  destruct (cat !! name) as [ty|] eqn:Hcol.
  - rewrite bool_decide_true by by eexists.
    step_driver.
    { split; [done|]. split; [by intros ? ? [= _ <-]|done]. }
    rewrite Hdb. simpl. rewrite Hcol. simpl.
    split; [|split; [done|done]]. intros col s1 [= <- <-]. split; [done|].
    exists cat. split; [done|]. simpl.
    by rewrite (with_collection_existing _ _ _ ty Hcol), insert_id.
  - rewrite bool_decide_false by (intros [? ?]; congruence).
    step_driver.
    { split; [done|]. split; [by intros ? ? [= _ <-]|done]. }
    rewrite Hdb. simpl. rewrite Hcol. simpl.
    split; [|split; [done|done]]. intros col s1 [= <- <-]. split; [done|].
    exists cat. split; [done|]. simpl. unfold with_collection. by rewrite Hcol.
Qed.

(** X20: [getCollection] never replaces a collection.  Whatever the server
    does, when it returns a handle it is the handle of the collection named,
    and the catalogue is as before except that the collection exists: with
    its old type if it was there (even when another type was asked for),
    with the type asked for if it was not.  When it returns an error the
    catalogue is untouched. *)
Theorem getCollection_outcomes
    (db name : string) (colType : Setup.CollectionType) (s : Setup.Server) :
  (∀ col s1,
     Setup.getCollection (Some db) name colType s = (Setup.Return (Setup.Done col), s1) →
     col = name
     ∧ ∃ cat, Setup.databases s !! db = Some cat
              ∧ Setup.databases s1 = <[db := with_collection name colType cat]> (Setup.databases s))
  ∧ (∀ e s1,
       Setup.getCollection (Some db) name colType s = (Setup.Return (Setup.Failed e), s1) →
       Setup.databases s1 = Setup.databases s)
  ∧ (Setup.getCollection (Some db) name colType s).1 ≠ Setup.NilPanic.
Proof. apply getCollection_spec. Qed.

Lemma getCollection_quiet db name colType cat s :
  quiet s →
  Setup.databases s !! db = Some cat →
  Setup.getCollection (Some db) name colType s
  = (Setup.Return (Setup.Done name),
     Setup.mkServer (<[db := with_collection name colType cat]> (Setup.databases s)) []).
Proof.
  intros Hs Hdb.
  unfold Setup.getCollection, Setup.CollectionExists, Setup.GetCollection, Setup.CreateCollection.
  rewrite (driver_quiet _ s Hs). simpl. rewrite Hdb. simpl.
  destruct (cat !! name) as [ty|] eqn:Hcol.
  - rewrite bool_decide_true by by eexists.
    unfold Setup.driver. simpl. rewrite ?Hdb. simpl. rewrite ?Hcol. simpl.
    by rewrite (with_collection_existing _ _ _ ty Hcol), insert_id.
  - rewrite bool_decide_false by (intros [? ?]; congruence).
    unfold Setup.driver. simpl. rewrite ?Hdb. simpl. rewrite ?Hcol. simpl.
    unfold with_collection. by rewrite Hcol.
Qed.

(** X21: on a quiet server [getCollection] succeeds for any database that
    exists, and calling it again, even asking for another type, returns the
    same handle and changes nothing. *)
Theorem getCollection_idempotent
    (db name : string) (colType colType' : Setup.CollectionType)
    (cat : gmap string Setup.CollectionType) (s : Setup.Server) :
  quiet s →
  Setup.databases s !! db = Some cat →
  ∃ s1,
    Setup.getCollection (Some db) name colType s = (Setup.Return (Setup.Done name), s1)
    ∧ is_Some (with_collection name colType cat !! name)
    ∧ Setup.databases s1 = <[db := with_collection name colType cat]> (Setup.databases s)
    ∧ Setup.getCollection (Some db) name colType' s1 = (Setup.Return (Setup.Done name), s1).
Proof.
  intros Hs Hdb. eexists. split; [by apply getCollection_quiet|].
  split; [apply with_collection_lookup|]. split; [done|].
  rewrite (getCollection_quiet db name colType' (with_collection name colType cat));
    [|done|apply lookup_insert_eq].
  simpl. by rewrite insert_insert_eq, with_collection_twice.
Qed.

Lemma with_collection_keeps name name' colType cat :
  is_Some (cat !! name) → is_Some (with_collection name' colType cat !! name).
Proof.
  intros [ty Hty]. unfold with_collection. destruct (cat !! name') eqn:H; [by eexists|].
  destruct (decide (name' = name)) as [->|Hne]; [congruence|].
  rewrite lookup_insert_ne by done. by eexists.
Qed.

Lemma phonebook_catalogue_again before :
  phonebook_catalogue (Some (phonebook_catalogue before)) = phonebook_catalogue before.
Proof.
  unfold phonebook_catalogue at 1. simpl.
  set (cat := phonebook_catalogue before).
  assert (Hu : is_Some (cat !! "users")).
  { do 2 apply with_collection_keeps. apply with_collection_lookup. }
  assert (Hc : is_Some (cat !! "contacts")).
  { apply with_collection_keeps, with_collection_lookup. }
  assert (Ha : is_Some (cat !! "verification_attempts")) by apply with_collection_lookup.
  destruct Hu as [tu Hu], Hc as [tc Hc], Ha as [ta Ha].
  rewrite (with_collection_existing "users" _ cat tu Hu).
  rewrite (with_collection_existing "contacts" _ cat tc Hc).
  by rewrite (with_collection_existing "verification_attempts" _ cat ta Ha).
Qed.

#[local] Arguments Setup.getCollection : simpl never.

Lemma SetupDBClient_quiet s :
  quiet s →
  Setup.SetupDBClient s
  = (Setup.Ready all_handles,
     Setup.mkServer
       (<["phonebook" := phonebook_catalogue (Setup.databases s !! "phonebook")]>
          (Setup.databases s)) []).
Proof.
  intros Hs. unfold Setup.SetupDBClient, Setup.SetAuthentication, Setup.DatabaseExists.
  rewrite (driver_quiet _ s Hs). simpl. unfold Setup.driver. simpl.
  unfold Setup.DatabaseName.
  destruct (Setup.databases s !! "phonebook") as [cat|] eqn:Hdb.
  - rewrite bool_decide_true by by eexists.
    unfold Setup.GetDatabase, Setup.driver. simpl. rewrite ?Hdb. simpl.
    rewrite (getCollection_quiet "phonebook" "users" _ cat) by done. simpl.
    rewrite (getCollection_quiet "phonebook" "contacts" _ (with_collection "users" Setup.CollectionTypeDocument cat));
      [|done|apply lookup_insert_eq]. simpl.
    rewrite (getCollection_quiet "phonebook" "verification_attempts" _
               (with_collection "contacts" Setup.CollectionTypeEdge (with_collection "users" Setup.CollectionTypeDocument cat)));
      [|done|apply lookup_insert_eq]. simpl.
    by rewrite !insert_insert_eq.
  - rewrite bool_decide_false by (intros [? ?]; congruence).
    unfold Setup.CreateDatabase, Setup.driver. simpl. rewrite ?Hdb. simpl.
    rewrite (getCollection_quiet "phonebook" "users" _ ∅); [|done|apply lookup_insert_eq]. simpl.
    rewrite (getCollection_quiet "phonebook" "contacts" _ (with_collection "users" Setup.CollectionTypeDocument ∅));
      [|done|apply lookup_insert_eq]. simpl.
    rewrite (getCollection_quiet "phonebook" "verification_attempts" _
               (with_collection "contacts" Setup.CollectionTypeEdge (with_collection "users" Setup.CollectionTypeDocument ∅)));
      [|done|apply lookup_insert_eq]. simpl.
    by rewrite !insert_insert_eq.
Qed.

(** X22: on a quiet server startup ends with all four handles, whatever
    was on the server: the phonebook database then holds the three
    collections, those already there with the type they had, the others
    created as document, edge and document collections; other databases are
    untouched, and starting again changes nothing. *)
Theorem SetupDBClient_idempotent (s : Setup.Server) :
  quiet s →
  ∃ s1,
    Setup.SetupDBClient s = (Setup.Ready all_handles, s1)
    ∧ Setup.databases s1
      = <["phonebook" := phonebook_catalogue (Setup.databases s !! "phonebook")]> (Setup.databases s)
    ∧ Setup.SetupDBClient s1 = (Setup.Ready all_handles, s1).
Proof.
  intros Hs. eexists. split; [by apply SetupDBClient_quiet|]. split; [done|].
  rewrite SetupDBClient_quiet by done. simpl.
  by rewrite lookup_insert_eq, phonebook_catalogue_again, insert_insert_eq.
Qed.

Lemma SetupDBClient_idempotent_witness :
  ∃ s1,
    Setup.SetupDBClient empty_server = (Setup.Ready all_handles, s1)
    ∧ Setup.databases s1
      = <["phonebook" := phonebook_catalogue (Setup.databases empty_server !! "phonebook")]>
          (Setup.databases empty_server)
    ∧ Setup.SetupDBClient s1 = (Setup.Ready all_handles, s1).
Proof. apply (SetupDBClient_idempotent empty_server). reflexivity. Defined.

Lemma getCollection_outcomes_witness :
  ("contacts" = "contacts"
   ∧ ∃ cat, Setup.databases (odd_server []) !! "phonebook" = Some cat
            ∧ Setup.databases (odd_server [])
              = <["phonebook" := with_collection "contacts" Setup.CollectionTypeEdge cat]>
                  (Setup.databases (odd_server [])))
  ∧ Setup.databases (odd_server []) = Setup.databases (odd_server [Some Setup.OtherError]).
Proof.
  destruct (getCollection_outcomes "phonebook" "contacts" Setup.CollectionTypeEdge (odd_server []))
    as (Hdone & _ & _).
  destruct (getCollection_outcomes "phonebook" "contacts" Setup.CollectionTypeEdge
              (odd_server [Some Setup.OtherError])) as (_ & Hfailed & _).
  split.
  - apply (Hdone "contacts" (odd_server [])). vm_compute. reflexivity.
  - apply (Hfailed Setup.OtherError (odd_server [])). vm_compute. reflexivity.
Defined.

Lemma getCollection_idempotent_witness :
  ∃ s1,
    Setup.getCollection (Some "phonebook") "contacts" Setup.CollectionTypeEdge (odd_server [])
    = (Setup.Return (Setup.Done "contacts"), s1)
    ∧ is_Some (with_collection "contacts" Setup.CollectionTypeEdge
                 {[ "contacts" := Setup.CollectionTypeDocument ]} !! "contacts")
    ∧ Setup.databases s1
      = <["phonebook" := with_collection "contacts" Setup.CollectionTypeEdge
                           {[ "contacts" := Setup.CollectionTypeDocument ]}]>
          (Setup.databases (odd_server []))
    ∧ Setup.getCollection (Some "phonebook") "contacts" Setup.CollectionTypeDocument s1
      = (Setup.Return (Setup.Done "contacts"), s1).
Proof.
  apply (getCollection_idempotent "phonebook" "contacts" Setup.CollectionTypeEdge
           Setup.CollectionTypeDocument {[ "contacts" := Setup.CollectionTypeDocument ]}
           (odd_server [])).
  - reflexivity.
  - reflexivity.
Defined.

Lemma getCollection_creates db name colType cat s rest :
  Setup.incidents s = None :: None :: rest →
  Setup.databases s !! db = Some cat → cat !! name = None →
  Setup.getCollection (Some db) name colType s
  = (Setup.Return (Setup.Done name),
     Setup.mkServer (<[db := <[name := colType]> cat]> (Setup.databases s)) rest).
Proof.
  intros Hinc Hdb Hcol.
  unfold Setup.getCollection, Setup.CollectionExists, Setup.CreateCollection, Setup.driver.
  rewrite Hinc. simpl. rewrite Hdb. simpl.
  rewrite bool_decide_false by (rewrite Hcol; by intros [? ?]).
  rewrite ?Hdb. simpl. by rewrite ?Hcol.
Qed.

Lemma getCollection_create_fails db name colType cat s e rest :
  Setup.incidents s = None :: Some e :: rest →
  Setup.databases s !! db = Some cat → cat !! name = None →
  Setup.getCollection (Some db) name colType s
  = (Setup.Return (Setup.Failed e), Setup.mkServer (Setup.databases s) rest).
Proof.
  intros Hinc Hdb Hcol.
  unfold Setup.getCollection, Setup.CollectionExists, Setup.CreateCollection, Setup.driver.
  rewrite Hinc. simpl. rewrite Hdb. simpl.
  by rewrite bool_decide_false by (rewrite Hcol; by intros [? ?]).
Qed.

Lemma GetDatabase_Done name s h s1 :
  Setup.GetDatabase name s = (Setup.Done h, s1) → h = name.
Proof.
  unfold Setup.GetDatabase. step_driver; [done|].
  destruct (Setup.databases s !! name); by intros [= <- _].
Qed.

Lemma CreateDatabase_Done name s h s1 :
  Setup.CreateDatabase name s = (Setup.Done h, s1) → h = name.
Proof.
  unfold Setup.CreateDatabase. step_driver; [done|].
  destruct (Setup.databases s !! name); by intros [= <- _].
Qed.

Lemma getCollection_Done db name colType s col s1 :
  Setup.getCollection db name colType s = (Setup.Return (Setup.Done col), s1) →
  col = name ∧ is_Some db.
Proof.
  destruct db as [db|]; [|done]. intros H.
  destruct (getCollection_spec db name colType s) as (Hdone & _ & _).
  destruct (Hdone col s1 H) as [-> _]. by split; [|eexists].
Qed.

Lemma SetupDBClient_Ready s db s1 :
  Setup.SetupDBClient s = (Setup.Ready db, s1) →
  Setup.phonebook db = Some "phonebook" ∧ Setup.users db = Some "users"
  ∧ (Setup.contacts db = Some "contacts" ∨ Setup.contacts db = None)
  ∧ (Setup.verification_attempts db = Some "verification_attempts"
     ∨ Setup.verification_attempts db = None).
Proof.
  unfold Setup.SetupDBClient.
  destruct (Setup.SetAuthentication s) as [[?|?] s'1]; [|done].
  destruct (Setup.DatabaseExists Setup.DatabaseName s'1) as [[dbExists|?] s2]; [|done].
  assert (Hopen : ∀ h s3,
    match Setup.getCollection (Some h) "users" Setup.CollectionTypeDocument s3 with
    | (Setup.NilPanic, s4) => (Setup.NilDereference, s4)
    | (Setup.Return (Setup.Failed _), s4) => (Setup.Fatal "Failed to create users collection", s4)
    | (Setup.Return (Setup.Done usersCol), s4) =>
        match Setup.getCollection (Some h) "contacts" Setup.CollectionTypeEdge s4 with
        | (Setup.NilPanic, s5) => (Setup.NilDereference, s5)
        | (Setup.Return contactsCol, s5) =>
            match contactsCol with
            | Setup.Failed Setup.OtherError =>
                (Setup.Fatal "Failed to create contacts collection", s5)
            | _ =>
                match Setup.getCollection (Some h) "verification_attempts"
                        Setup.CollectionTypeDocument s5 with
                | (Setup.NilPanic, s6) => (Setup.NilDereference, s6)
                | (Setup.Return attemptsCol, s6) =>
                    match attemptsCol with
                    | Setup.Failed Setup.OtherError =>
                        (Setup.Fatal "Failed to create verification_attempts collection", s6)
                    | _ =>
                        (Setup.Ready (Setup.mkHandles (Some h) (Some usersCol)
                                        (Setup.handle_of contactsCol)
                                        (Setup.handle_of attemptsCol)), s6)
                    end
                end
            end
        end
    end = (Setup.Ready db, s1) →
    Setup.phonebook db = Some h ∧ Setup.users db = Some "users"
    ∧ (Setup.contacts db = Some "contacts" ∨ Setup.contacts db = None)
    ∧ (Setup.verification_attempts db = Some "verification_attempts"
       ∨ Setup.verification_attempts db = None)).
  { intros h s3.
    destruct (Setup.getCollection (Some h) "users" _ s3) as [[[u|?]|] s4] eqn:Hu; [|done|done].
    apply getCollection_Done in Hu as [-> _].
    destruct (Setup.getCollection (Some h) "contacts" _ s4) as [[[cc|[]]|] s5] eqn:Hc;
      [| |done|done].
    - apply getCollection_Done in Hc as [-> _].
      destruct (Setup.getCollection (Some h) "verification_attempts" _ s5)
        as [[[va|[]]|] s6] eqn:Ha; [| |done|done].
      + apply getCollection_Done in Ha as [-> _]. intros [= <- _]. simpl. auto.
      + intros [= <- _]. simpl. auto.
    - destruct (Setup.getCollection (Some h) "verification_attempts" _ s5)
        as [[[va|[]]|] s6] eqn:Ha; [| |done|done].
      + apply getCollection_Done in Ha as [-> _]. intros [= <- _]. simpl. auto.
      + intros [= <- _]. simpl. auto. }
  destruct dbExists.
  - destruct (Setup.GetDatabase Setup.DatabaseName s2) as [[h|?] s3] eqn:Hget; [|done].
    apply GetDatabase_Done in Hget as ->. apply Hopen.
  - destruct (Setup.CreateDatabase Setup.DatabaseName s2) as [[h|[]] s3] eqn:Hmk; [| |done].
    + apply CreateDatabase_Done in Hmk as ->. apply Hopen.
    + done.
Qed.

(** X23: when startup returns, the [users] handle is never nil, but the
    [contacts] and [verification_attempts] handles may be: a conflict
    reported when [contacts] is created is tolerated, and startup returns
    with a nil [contacts] handle. *)
Theorem SetupDBClient_nil_contacts (s : Setup.Server) :
  (∀ db s1,
     Setup.SetupDBClient s = (Setup.Ready db, s1) →
     Setup.users db = Some "users"
     ∧ (Setup.contacts db = Some "contacts" ∨ Setup.contacts db = None)
     ∧ (Setup.verification_attempts db = Some "verification_attempts"
        ∨ Setup.verification_attempts db = None))
  ∧ (Setup.databases s !! "phonebook" = None →
     Setup.incidents s = [None; None; None; None; None; None; Some Setup.Conflict] →
     ∃ s1, Setup.SetupDBClient s
           = (Setup.Ready (Setup.mkHandles (Some "phonebook") (Some "users") None
                             (Some "verification_attempts")), s1)).
Proof.
  split.
  - intros db s1 H. by destruct (SetupDBClient_Ready s db s1 H) as (_ & ? & ? & ?).
  - intros Hdb. destruct s as [dbs inc]. simpl in *.
    intros ->. eexists.
    unfold Setup.SetupDBClient, Setup.SetAuthentication, Setup.DatabaseExists,
      Setup.CreateDatabase, Setup.driver, Setup.DatabaseName. simpl.
    rewrite bool_decide_false by (rewrite Hdb; by intros [? ?]). rewrite Hdb. simpl.
    erewrite (getCollection_creates "phonebook" "users" _ ∅ _ [None; Some Setup.Conflict]);
      [|done|apply lookup_insert_eq|done]. simpl.
    erewrite (getCollection_create_fails "phonebook" "contacts" _ _ _ Setup.Conflict []);
      [|done|apply lookup_insert_eq|done]. simpl.
    erewrite (getCollection_quiet "phonebook" "verification_attempts");
      [|done|apply lookup_insert_eq]. simpl. reflexivity.
Qed.

(** X24: startup never returns with a nil database handle.  When the
    database does not exist and its creation reports a conflict, the error
    is tolerated and the nil handle the call left is dereferenced by the
    first [getCollection]: startup ends in a panic, not in [log.Fatalf]. *)
Theorem SetupDBClient_database_conflict (s : Setup.Server) :
  (∀ db s1, Setup.SetupDBClient s = (Setup.Ready db, s1) → Setup.phonebook db = Some "phonebook")
  ∧ (∀ rest,
       Setup.databases s !! "phonebook" = None →
       Setup.incidents s = None :: None :: Some Setup.Conflict :: rest →
       Setup.SetupDBClient s = (Setup.NilDereference, Setup.mkServer (Setup.databases s) rest)).
Proof.
  split.
  - intros db s1 H. by destruct (SetupDBClient_Ready s db s1 H) as (? & _).
  - intros rest Hdb. destruct s as [dbs inc]. simpl in *.
    intros ->.
    unfold Setup.SetupDBClient, Setup.SetAuthentication, Setup.DatabaseExists,
      Setup.CreateDatabase, Setup.driver, Setup.DatabaseName. simpl.
    rewrite bool_decide_false by (rewrite Hdb; by intros [? ?]). reflexivity.
Qed.

Lemma SetupDBClient_nil_contacts_witness :
  (Setup.users all_handles = Some "users"
   ∧ (Setup.contacts all_handles = Some "contacts" ∨ Setup.contacts all_handles = None)
   ∧ (Setup.verification_attempts all_handles = Some "verification_attempts"
      ∨ Setup.verification_attempts all_handles = None))
  ∧ ∃ s1, Setup.SetupDBClient
            (Setup.mkServer ∅ [None; None; None; None; None; None; Some Setup.Conflict])
          = (Setup.Ready (Setup.mkHandles (Some "phonebook") (Some "users") None
                            (Some "verification_attempts")), s1).
Proof.
  destruct (SetupDBClient_nil_contacts empty_server) as [Hready _].
  destruct (SetupDBClient_nil_contacts
              (Setup.mkServer ∅ [None; None; None; None; None; None; Some Setup.Conflict]))
    as [_ Hnil].
  split.
  - apply (Hready all_handles (Setup.mkServer {[ "phonebook" := phonebook_catalogue None ]} [])).
    vm_compute. reflexivity.
  - apply Hnil; reflexivity.
Defined.

Lemma SetupDBClient_database_conflict_witness :
  Setup.phonebook all_handles = Some "phonebook"
  ∧ Setup.SetupDBClient (Setup.mkServer ∅ [None; None; Some Setup.Conflict])
    = (Setup.NilDereference,
       Setup.mkServer (Setup.databases (Setup.mkServer ∅ [None; None; Some Setup.Conflict])) []).
Proof.
  destruct (SetupDBClient_database_conflict empty_server) as [Hready _].
  destruct (SetupDBClient_database_conflict (Setup.mkServer ∅ [None; None; Some Setup.Conflict]))
    as [_ Hcrash].
  split.
  - apply (Hready all_handles (Setup.mkServer {[ "phonebook" := phonebook_catalogue None ]} [])).
    vm_compute. reflexivity.
  - apply (Hcrash []); reflexivity.
Defined.

(** ** Guessing and batching *)

Section Guesses.
Context {jwt : JWT}.

(** X25: there is no limit on wrong codes.  On a reliable store any series
    of verify requests made before expiry with codes other than the stored
    one is answered 400 each time and leaves the world exactly as it was,
    so the stored code is still accepted afterwards. *)
Theorem wrong_guesses_cost_nothing
    (key : string) (a : VerificationAttempt.t) (guesses : list (Z * string)) (w : World) :
  reliable w →
  verification_attempts (db w) !! key = Some a →
  Forall (λ guess, guess.1 ≤ VerificationAttempt.CreatedAt a + 5 * minute
                   ∧ guess.2 ≠ VerificationAttempt.Code a) guesses →
  after_guesses key guesses w = w
  ∧ Forall (λ guess,
              VerifyRequestHandler guess.1 (request "" (VerifyRequest.mk key guess.2)) w
              = (Respond refused, w)) guesses
  ∧ ∀ now, now ≤ VerificationAttempt.CreatedAt a + 5 * minute →
      ∃ w1, VerifyCode now (with_Key key (decode_attempt a)) (VerificationAttempt.Code a)
              (after_guesses key guesses w) = ((true, None), w1).
Proof.
  intros Hw Ha Hguesses.
  assert (Heach : Forall (λ guess,
            VerifyRequestHandler guess.1 (request "" (VerifyRequest.mk key guess.2)) w
            = (Respond refused, w)) guesses).
  { apply (Forall_impl _ _ _ Hguesses). intros [now code] [Hearly Hcode].
    by apply (VerifyRequestHandler_mismatch now "" None (VerifyRequest.mk key code) a w). }
  assert (Hsame : after_guesses key guesses w = w).
  { unfold after_guesses. clear Hguesses.
    induction Heach as [|guess guesses Hguess _ IH]; [done|]. simpl. by rewrite Hguess. }
  split; [done|]. split; [done|]. intros now Hearly. rewrite Hsame.
  by apply (VerifyCode_in_time now (with_Key key (decode_attempt a)) w).
Qed.

End Guesses.

Lemma wrong_guesses_cost_nothing_witness :
  after_guesses (jwt := sample_jwt) "17" [(2000, "000000"); (3000, "000001")] (pending [])
  = pending []
  ∧ Forall (λ guess,
              VerifyRequestHandler (jwt := sample_jwt) guess.1
                (request "" (VerifyRequest.mk "17" guess.2)) (pending [])
              = (Respond refused, pending [])) [(2000, "000000"); (3000, "000001")]
  ∧ ∃ w1, VerifyCode 4000 (with_Key "17" (decode_attempt sample_attempt))
            (VerificationAttempt.Code sample_attempt)
            (after_guesses (jwt := sample_jwt) "17" [(2000, "000000"); (3000, "000001")]
               (pending []))
          = ((true, None), w1).
Proof.
  destruct (wrong_guesses_cost_nothing (jwt := sample_jwt) "17" sample_attempt
              [(2000, "000000"); (3000, "000001")] (pending [])) as (Hsame & Heach & Hthen).
  - reflexivity.
  - reflexivity.
  - repeat constructor; simpl; try (vm_compute; discriminate).
  - split; [exact Hsame|]. split; [exact Heach|]. apply Hthen. vm_compute. discriminate.
Defined.


Section Batches.
Context {phonenumbers : PhoneNumbers}.
Variable ToUpper : string → string.

Lemma add_contacts_app owner xs ys w :
  add_contacts ToUpper owner (xs ++ ys) w
  = if bool_decide (Status (add_contacts ToUpper owner xs w).1 = StatusOK)
    then add_contacts ToUpper owner ys (add_contacts ToUpper owner xs w).2
    else add_contacts ToUpper owner xs w.
Proof.
  revert w. induction xs as [|x xs IH]; intros w.
  - reflexivity.
  - rewrite <-app_comm_cons.
    destruct (add_contacts_step ToUpper owner x w) as [(r & w1 & Hr & Hstop)|(w1 & Hgo)].
    + rewrite !Hstop. simpl. by rewrite bool_decide_false.
    + rewrite !Hgo. apply IH.
Qed.

(** X26: a batch is its items submitted one request after another: the
    request for [xs ++ ys] does what the request for [xs] does and, if that
    one is answered 200, goes on exactly as the request for [ys] from the
    world it left; otherwise it ends there, with what [xs] had applied. *)
Theorem AddContactsHandler_batch_is_sequence
    (header owner : string) (xs ys : list Contact.t) (w : World) :
  AddContactsHandler ToUpper (as_user header owner (AddContactsRequest.mk (xs ++ ys))) w
  = if answered_ok (AddContactsHandler ToUpper
                      (as_user header owner (AddContactsRequest.mk xs)) w).1
    then AddContactsHandler ToUpper (as_user header owner (AddContactsRequest.mk ys))
           (AddContactsHandler ToUpper (as_user header owner (AddContactsRequest.mk xs)) w).2
    else AddContactsHandler ToUpper (as_user header owner (AddContactsRequest.mk xs)) w.
Proof.
  rewrite !AddContactsHandler_as_user, add_contacts_app. simpl.
  by destruct (bool_decide (Status (add_contacts ToUpper owner xs w).1 = StatusOK)).
Qed.
End Batches.
